(** * Trading dashboard: trade processing and performance metrics

    A shallow embedding of [dashboard/services/trade_processor.py],
    [dashboard/services/metrics_calculator.py] and
    [dashboard/services/data_loader.py], and of [clean_stats_keys] and the
    selection of the instruments in [dashboard/views.py].

    Representation choices.
    - A pandas DataFrame is a list of column names and a list of rows, each
      row holding one cell per column.
    - Numeric cells (int64 and float64) are rationals: the model follows the
      arithmetic of the program but not the rounding of binary floating
      point.  A null (NaN, NaT, None) is the cell [CNull].
    - Timestamps (datetime64[ns]) and durations (Timedelta) are integers,
      in nanoseconds.
    - Python exceptions are the type [exn]; code that can raise returns a
      [result].
    - A dict with text keys is an association list in the order of
      insertion; a set of texts is a list without repeats, iterated in an
      order that is a parameter.
    - The methods of [str] are functions on texts; [lower] and [upper] map
      the ASCII letters only, which is what they do on the names of the
      trade files. *)

From Stdlib Require Import String Ascii Bool.
From Stdlib Require Import List ZArith QArith Qabs Qminmax Qfield Lqa Lia.
From Stdlib Require Import Permutation Sorted.
Import ListNotations.

Open Scope string_scope.
Open Scope list_scope.
Open Scope nat_scope.

(* ================================================================= *)
(** ** Rational numbers with boolean comparisons *)

Definition Qltb (x y : Q) : bool := negb (Qle_bool y x).
Definition Qgtb (x y : Q) : bool := Qltb y x.
Definition Qneb (x y : Q) : bool := negb (Qeq_bool x y).

(** [profits.sum()], [profits.mean()], [profits.max()], [profits.min()]. *)
Definition Qsum (l : list Q) : Q := fold_left Qplus l 0%Q.

Definition Qnat (n : nat) : Q := inject_Z (Z.of_nat n).

Definition Qlen (l : list Q) : Q := Qnat (length l).

Definition Qmean (l : list Q) : Q := (Qsum l / Qlen l)%Q.

Definition Qmaximum (l : list Q) : Q :=
  match l with
  | [] => 0%Q
  | x :: t => fold_left Qmax t x
  end.

Definition Qminimum (l : list Q) : Q :=
  match l with
  | [] => 0%Q
  | x :: t => fold_left Qmin t x
  end.

(* ================================================================= *)
(** ** Exceptions *)

Inductive exn : Type :=
| FileNotFoundError (msg : string)
| ValueError (msg : string)
| KeyError (key : string)
| TypeError (msg : string)
| NullArithmetic (col : string).
(** [NullArithmetic] is not an exception of the program.  It marks an input
    on which the program would go on computing with NaN or NaT (a null, or a
    cell of the wrong kind, in a column it reads as numbers or timestamps):
    the rational model does not follow that arithmetic and says nothing
    about such inputs. *)

Inductive result (A : Type) : Type :=
| Ok (a : A)
| Raise (e : exn).
Arguments Ok {A} a.
Arguments Raise {A} e.

Definition bind {A B : Type} (r : result A) (k : A -> result B) : result B :=
  match r with
  | Ok a => k a
  | Raise e => Raise e
  end.

Notation "x <- e ;; k" := (bind e (fun x => k))
  (at level 61, e at next level, right associativity).

Notation "' p <- e ;; k" := (bind e (fun p => k))
  (at level 61, p pattern, e at next level, right associativity).

Fixpoint mapM {A B : Type} (f : A -> result B) (l : list A) : result (list B) :=
  match l with
  | [] => Ok []
  | a :: t => b <- f a ;; bs <- mapM f t ;; Ok (b :: bs)
  end.

(* ================================================================= *)
(** ** Streak counter: [calculate_max_consecutive] *)

(** The test of the loop body:
    [(direction == 1 and profit > 0) or (direction == -1 and profit < 0)]. *)
Definition streak_match (direction : Z) (profit : Q) : bool :=
  ((direction =? 1)%Z && Qgtb profit 0) || ((direction =? -1)%Z && Qltb profit 0).

(** One iteration of the loop, on the pair [(max_consec, current_consec)]. *)
Definition streak_step (direction : Z) (st : nat * nat) (profit : Q) : nat * nat :=
  let '(max_consec, current_consec) := st in
  if streak_match direction profit then
    let current_consec := current_consec + 1 in
    (Nat.max max_consec current_consec, current_consec)
  else
    (max_consec, 0).

Definition calculate_max_consecutive (profits : list Q) (direction : Z) : nat :=
  if length profits =? 0 then 0
  else fst (fold_left (streak_step direction) profits (0, 0)).

(** The values the running counter takes, one per trade, starting from
    [current]: the counter of the claim, written without the maximum. *)
Fixpoint running_counter (direction : Z) (current : nat) (profits : list Q) : list nat :=
  match profits with
  | [] => []
  | profit :: rest =>
      let c := if streak_match direction profit then S current else 0 in
      c :: running_counter direction c rest
  end.

Definition example_profits : list Q := [5; -3; 2; 2; 2; -1]%Q.

(* ================================================================= *)
(** ** DataFrames *)

Inductive cell : Type :=
| CStr (s : string)   (* object dtype: text *)
| CNum (q : Q)        (* int64 and float64 *)
| CTime (t : Z)       (* datetime64[ns]: nanoseconds since the epoch *)
| CDate (d : Z)       (* datetime.date: days since the epoch *)
| CNull.              (* NaN, NaT, None *)

Definition row : Type := list cell.

Record DataFrame : Type := mkDataFrame {
  columns : list string;
  rows : list row
}.

(** [pd.DataFrame()] and [len(df)]. *)
Definition empty_frame : DataFrame := mkDataFrame [] [].

Definition len (df : DataFrame) : nat := length (rows df).

Fixpoint col_index (col : string) (cols : list string) : option nat :=
  match cols with
  | [] => None
  | c :: rest =>
      if String.eqb c col then Some 0 else option_map S (col_index col rest)
  end.

(** [col in df.columns]. *)
Definition has_column (df : DataFrame) (col : string) : bool :=
  match col_index col (columns df) with
  | Some _ => true
  | None => false
  end.

(** The cell of row [r] in column [col], for a frame with columns [cols]. *)
Definition cell_of (cols : list string) (col : string) (r : row) : cell :=
  match col_index col cols with
  | Some i => nth i r CNull
  | None => CNull
  end.

(** [df[col]]: a missing column raises [KeyError]. *)
Definition get_column (df : DataFrame) (col : string) : result (list cell) :=
  match col_index col (columns df) with
  | Some i => Ok (map (fun r => nth i r CNull) (rows df))
  | None => Raise (KeyError col)
  end.

Fixpoint set_nth {A : Type} (i : nat) (v : A) (l : list A) : list A :=
  match l, i with
  | [], _ => []
  | _ :: t, O => v :: t
  | x :: t, S j => x :: set_nth j v t
  end.

(** [df[col] = values]: replaces the column, or appends it as the last one. *)
Definition set_column (df : DataFrame) (col : string) (values : list cell) : DataFrame :=
  match col_index col (columns df) with
  | Some i =>
      mkDataFrame (columns df)
        (map (fun rv => set_nth i (snd rv) (fst rv)) (combine (rows df) values))
  | None =>
      mkDataFrame (columns df ++ [col])
        (map (fun rv => fst rv ++ [snd rv]) (combine (rows df) values))
  end.

(** [df[col] = value] with one value for every row. *)
Definition set_column_scalar (df : DataFrame) (col : string) (value : cell) : DataFrame :=
  set_column df col (repeat value (len df)).

(** [df[mask]], the mask being computed row by row. *)
Definition select_rows (df : DataFrame) (mask : row -> bool) : DataFrame :=
  mkDataFrame (columns df) (filter mask (rows df)).

(** A column read as numbers, and as timestamps. *)
Definition as_number (col : string) (c : cell) : result Q :=
  match c with
  | CNum q => Ok q
  | _ => Raise (NullArithmetic col)
  end.

Definition as_time (col : string) (c : cell) : result Z :=
  match c with
  | CTime t => Ok t
  | _ => Raise (NullArithmetic col)
  end.

Definition numbers (df : DataFrame) (col : string) : result (list Q) :=
  cells <- get_column df col ;; mapM (as_number col) cells.

Definition times (df : DataFrame) (col : string) : result (list Z) :=
  cells <- get_column df col ;; mapM (as_time col) cells.

(** A stable sort ([list.sort] is stable; [sort_values] orders equal keys
    in an unspecified way, of which the stable order is one). *)
Fixpoint insert_sorted {A : Type} (leb : A -> A -> bool) (x : A) (l : list A) : list A :=
  match l with
  | [] => [x]
  | y :: t => if leb x y then x :: y :: t else y :: insert_sorted leb x t
  end.

Definition stable_sort {A : Type} (leb : A -> A -> bool) (l : list A) : list A :=
  fold_right (insert_sorted leb) [] l.

(** The order [sort_values] puts on the cells of a column: nulls last. *)
Definition cell_leb (a b : cell) : bool :=
  match a, b with
  | _, CNull => true
  | CNull, _ => false
  | CNum x, CNum y => Qle_bool x y
  | CTime x, CTime y => (x <=? y)%Z
  | CDate x, CDate y => (x <=? y)%Z
  | CStr x, CStr y => String.leb x y
  | _, _ => true
  end.

(** [df.sort_values(col)]. *)
Definition sort_values (df : DataFrame) (col : string) : result DataFrame :=
  match col_index col (columns df) with
  | Some i =>
      Ok (mkDataFrame (columns df)
            (stable_sort (fun r1 r2 => cell_leb (nth i r1 CNull) (nth i r2 CNull))
                         (rows df)))
  | None => Raise (KeyError col)
  end.

(* ================================================================= *)
(** ** Series arithmetic *)

(** [pd.Series(profits).cumsum()]. *)
Fixpoint cumsum_from (acc : Q) (l : list Q) : list Q :=
  match l with
  | [] => []
  | x :: t => let acc := (acc + x)%Q in acc :: cumsum_from acc t
  end.

Definition cumsum (l : list Q) : list Q :=
  match l with
  | [] => []
  | x :: t => x :: cumsum_from x t
  end.

(** [equity_curve.expanding().max()]. *)
Fixpoint expanding_max_from (m : Q) (l : list Q) : list Q :=
  match l with
  | [] => []
  | x :: t => let m := Qmax m x in m :: expanding_max_from m t
  end.

Definition expanding_max (l : list Q) : list Q :=
  match l with
  | [] => []
  | x :: t => x :: expanding_max_from x t
  end.

(** [a - b] on two series with the same index. *)
Definition series_sub (a b : list Q) : list Q :=
  map (fun xy => (fst xy - snd xy)%Q) (combine a b).

Definition Zmaximum (l : list Z) : Z :=
  match l with
  | [] => 0%Z
  | x :: t => fold_left Z.max t x
  end.

Definition Zminimum (l : list Z) : Z :=
  match l with
  | [] => 0%Z
  | x :: t => fold_left Z.min t x
  end.

Definition Zsum (l : list Z) : Z := fold_left Z.add l 0%Z.

(** [series.unique()]: the values in order of first appearance. *)
Fixpoint unique_by {A : Type} (eqb : A -> A -> bool) (seen : list A) (l : list A) : list A :=
  match l with
  | [] => []
  | x :: t =>
      if existsb (eqb x) seen then unique_by eqb seen t
      else x :: unique_by eqb (x :: seen) t
  end.

Definition uniqueZ (l : list Z) : list Z := unique_by Z.eqb [] l.

Definition one_day : Z := 86400000000000.

(** [timestamp.date()] as a day number, and [timedelta.days]. *)
Definition date_of (t : Z) : Z := (t / one_day)%Z.

Definition days_of (delta : Z) : Z := (delta / one_day)%Z.

(* ================================================================= *)
(** ** Recovery time and flat periods:
       [calculate_recovery_and_flat_periods] *)

(** One iteration of the loop over [eq_df], on the triple
    [(max_time_to_recover, current_peak, peak_time)].  [current_peak] starts
    at minus infinity and [peak_time] at [None]; both are [None] here until
    the first row has been read. *)
Definition peak_step (st : Z * option Q * option Z) (time_equity : Z * Q)
  : Z * option Q * option Z :=
  let '(max_time_to_recover, current_peak, peak_time) := st in
  let '(time, equity) := time_equity in
  let above :=
    match current_peak with
    | None => true
    | Some peak => Qgtb equity peak
    end in
  if above then
    let max_time_to_recover :=
      match peak_time with
      | Some pt =>
          let recovery_time := (time - pt)%Z in
          if (recovery_time >? max_time_to_recover)%Z then recovery_time
          else max_time_to_recover
      | None => max_time_to_recover
      end in
    (max_time_to_recover, Some equity, Some time)
  else st.

Definition max_time_to_recover_of (eq_df : list (Z * Q)) : Z :=
  fst (fst (fold_left peak_step eq_df (0%Z, None, None))).

(** The loop that merges the sorted intervals, on [curr_start], [curr_end]
    and the intervals still to read; the intervals appended to [merged] are
    the result. *)
Fixpoint merge_loop (curr_start curr_end : Z) (rest : list (Z * Z)) : list (Z * Z) :=
  match rest with
  | [] => [(curr_start, curr_end)]
  | (next_start, next_end) :: rest' =>
      if (next_start <? curr_end)%Z then
        merge_loop curr_start (Z.max curr_end next_end) rest'
      else
        (curr_start, curr_end) :: merge_loop next_start next_end rest'
  end.

Definition merge_intervals (intervals : list (Z * Z)) : list (Z * Z) :=
  match intervals with
  | [] => []
  | (curr_start, curr_end) :: rest => merge_loop curr_start curr_end rest
  end.

(** [intervals.sort(key=lambda x: x[0])] followed by the merge. *)
Definition sort_intervals (intervals : list (Z * Z)) : list (Z * Z) :=
  stable_sort (fun a b => (fst a <=? fst b)%Z) intervals.

Definition busy_intervals (intervals : list (Z * Z)) : list (Z * Z) :=
  merge_intervals (sort_intervals intervals).

(** [merged[i+1][0] - merged[i][1]] for [i] in [range(len(merged) - 1)]. *)
Fixpoint flat_gaps (merged : list (Z * Z)) : list Z :=
  match merged with
  | [] => []
  | (_, prev_end) :: rest =>
      match rest with
      | [] => []
      | (next_start, _) :: _ => (next_start - prev_end)%Z :: flat_gaps rest
      end
  end.

Definition flat_periods_of (intervals : list (Z * Z)) : list Z :=
  flat_gaps (busy_intervals intervals).

Definition max_flat_period_of (flat_periods : list Z) : Z :=
  match flat_periods with
  | [] => 0%Z
  | _ => Zmaximum flat_periods
  end.

(** The mean of the flat periods, as an exact number of nanoseconds. *)
Definition avg_flat_period_of (flat_periods : list Z) : Q :=
  match flat_periods with
  | [] => 0%Q
  | _ => (inject_Z (Zsum flat_periods) / inject_Z (Z.of_nat (length flat_periods)))%Q
  end.

Definition pct_time_in_market_of (entry exit : list Z) : Q :=
  let unique_trading_days := length (uniqueZ (map date_of entry)) in
  let start_date := Zminimum entry in
  let end_date := Zmaximum exit in
  let total_days := (days_of (end_date - start_date) + 1)%Z in
  let total_days := if (total_days <? 1)%Z then 1%Z else total_days in
  if (total_days >? 0)%Z then
    (inject_Z (Z.of_nat unique_trading_days) / inject_Z total_days * 100)%Q
  else 0%Q.

Definition calculate_recovery_and_flat_periods (df : DataFrame) (equity_curve : list Q)
  : result (Z * Z * Q * Q) :=
  if (len df =? 0) || (length equity_curve =? 0) then Ok (0%Z, 0%Z, 0%Q, 0%Q)
  else
    entry <- times df "Entry time" ;;
    exit <- times df "Exit time" ;;
    if negb (length exit =? length equity_curve) then
      Raise (ValueError "array length does not match index length")
    else
      let eq_df := combine exit equity_curve in
      let max_time_to_recover := max_time_to_recover_of eq_df in
      let intervals := combine entry exit in
      let flat_periods := flat_periods_of intervals in
      Ok (max_time_to_recover,
          max_flat_period_of flat_periods,
          avg_flat_period_of flat_periods,
          pct_time_in_market_of entry exit).

(** The merge as the specification words it: the current interval is
    extended when the next one starts before or at its end. *)
Fixpoint spec_merge_loop (curr_start curr_end : Z) (rest : list (Z * Z)) : list (Z * Z) :=
  match rest with
  | [] => [(curr_start, curr_end)]
  | (next_start, next_end) :: rest' =>
      if (next_start <=? curr_end)%Z then
        spec_merge_loop curr_start (Z.max curr_end next_end) rest'
      else
        (curr_start, curr_end) :: spec_merge_loop next_start next_end rest'
  end.

Definition spec_busy_intervals (intervals : list (Z * Z)) : list (Z * Z) :=
  match sort_intervals intervals with
  | [] => []
  | (curr_start, curr_end) :: rest => spec_merge_loop curr_start curr_end rest
  end.

(* ================================================================= *)
(** ** The statistics report: [calculate_comprehensive_stats] *)

(** The values of a report (a Python dict with text keys). *)
Inductive stat_value : Type :=
| VStr (s : string)
| VNum (q : Q)
| VCount (n : nat)
| VTimedelta (ns : Q)
| VTimes (l : list cell)
| VNames (l : list (cell * list string))
| VSeries (l : list (nat * nat))
| VFrame (df : DataFrame).

Definition report : Type := list (string * stat_value).

Fixpoint report_get (key : string) (r : report) : option stat_value :=
  match r with
  | [] => None
  | (k, v) :: rest => if String.eqb k key then Some v else report_get key rest
  end.

(** A profit factor before it is written to the report: a number, or
    [float('inf')]. *)
Inductive factor : Type :=
| Finite (q : Q)
| Infinite.

(** [abs(gross_profit / gross_loss) if gross_loss != 0
     else float('inf') if gross_profit > 0 else 0]. *)
Definition profit_factor_of (gross_profit gross_loss : Q) : factor :=
  if Qneb gross_loss 0 then Finite (Qabs (gross_profit / gross_loss))
  else if Qgtb gross_profit 0 then Infinite
  else Finite 0.

(** [profit_factor if profit_factor != float('inf') else 0]. *)
Definition reported_factor (profit_factor : factor) : Q :=
  match profit_factor with
  | Finite q => q
  | Infinite => 0%Q
  end.

(** [profits[profits > 0]] and [profits[profits < 0]]. *)
Definition winners (profits : list Q) : list Q := filter (fun p => Qgtb p 0) profits.

Definition losers (profits : list Q) : list Q := filter (fun p => Qltb p 0) profits.

(** [series.mean()], which skips nulls; the mean of no value is a NaN. *)
Fixpoint drop_nulls (col : string) (cells : list cell) : result (list Q) :=
  match cells with
  | [] => Ok []
  | CNull :: rest => drop_nulls col rest
  | CNum q :: rest => qs <- drop_nulls col rest ;; Ok (q :: qs)
  | _ :: _ => Raise (TypeError col)
  end.

Definition mean_skipna (df : DataFrame) (col : string) : result Q :=
  cells <- get_column df col ;;
  qs <- drop_nulls col cells ;;
  match qs with
  | [] => Raise (NullArithmetic col)
  | _ => Ok (Qmean qs)
  end.

(** [(df['Exit time'] - df['Entry time']).dt.total_seconds() / 60]. *)
Definition holding_minutes (entry exit : list Z) : list Q :=
  map (fun ee => (inject_Z (snd ee - fst ee) / 1000000000 / 60)%Q) (combine entry exit).

Section Metrics.

(** [np.sqrt], which has no rational model, is a parameter. *)
Variable np_sqrt : Q -> Q.

(** [profits.std()]: the population standard deviation. *)
Definition np_std (profits : list Q) : Q :=
  let m := Qmean profits in
  np_sqrt (Qmean (map (fun x => ((x - m) * (x - m))%Q) profits)).

Definition calculate_comprehensive_stats (df : DataFrame) (instrument_name : string)
  : result (report * list Q * list Q) :=
  if len df =? 0 then Ok ([], [], [])
  else
    profits <- numbers df "Profit" ;;
    (* Basic stats *)
    let total_profit := Qsum profits in
    let gross_profit :=
      if 0 <? length (winners profits) then Qsum (winners profits) else 0%Q in
    let gross_loss :=
      if 0 <? length (losers profits) then Qsum (losers profits) else 0%Q in
    let num_trades := len df in
    let num_winners := length (winners profits) in
    let num_losers := length (losers profits) in
    let win_rate :=
      if 0 <? num_trades
      then (Qnat num_winners / Qnat num_trades * 100)%Q
      else 0%Q in
    (* Trade statistics *)
    let avg_trade := Qmean profits in
    let avg_win := if 0 <? num_winners then Qmean (winners profits) else 0%Q in
    let avg_loss := if 0 <? num_losers then Qmean (losers profits) else 0%Q in
    let win_loss_ratio := if Qneb avg_loss 0 then Qabs (avg_win / avg_loss) else 0%Q in
    (* Profit factor *)
    let profit_factor := profit_factor_of gross_profit gross_loss in
    (* Largest trades *)
    let largest_win := Qmaximum profits in
    let largest_loss := Qminimum profits in
    (* Equity curve and drawdown *)
    let equity_curve := cumsum profits in
    let running_max := expanding_max equity_curve in
    let drawdown := series_sub equity_curve running_max in
    let max_drawdown := Qminimum drawdown in
    (* Consecutive winners/losers *)
    let max_consec_winners := calculate_max_consecutive profits 1 in
    let max_consec_losers := calculate_max_consecutive profits (-1) in
    (* Expectancy *)
    let expectancy :=
      ((win_rate / 100 * avg_win) - ((100 - win_rate) / 100 * Qabs avg_loss))%Q in
    (* Time statistics *)
    avg_time_in_market <-
      (if has_column df "Entry time" && has_column df "Exit time" then
         entry <- times df "Entry time" ;;
         exit <- times df "Exit time" ;;
         let holding_times := holding_minutes entry exit in
         Ok (if 0 <? length holding_times then Qmean holding_times else 0%Q)
       else Ok 0%Q) ;;
    (* Bars in trade *)
    avg_bars <- (if has_column df "Bars" then mean_skipna df "Bars" else Ok 0%Q) ;;
    (* Sharpe ratio (simplified - using trade returns) *)
    let sharpe_ratio :=
      if 1 <? num_trades then
        if Qneb (np_std profits) 0
        then (avg_trade / np_std profits * np_sqrt 252)%Q
        else 0%Q
      else 0%Q in
    (* Recovery and Flat Periods *)
    '(max_time_to_recover, max_flat_period, avg_flat_period, pct_time_in_market) <-
      calculate_recovery_and_flat_periods df equity_curve ;;
    let stats : report :=
      [ ("Instrument", VStr instrument_name);
        ("Total Net Profit", VNum total_profit);
        ("Gross Profit", VNum gross_profit);
        ("Gross Loss", VNum gross_loss);
        ("Number of Trades", VCount num_trades);
        ("Number of Winning Trades", VCount num_winners);
        ("Number of Losing Trades", VCount num_losers);
        ("Percent Profitable", VNum win_rate);
        ("Avg Trade", VNum avg_trade);
        ("Avg Winning Trade", VNum avg_win);
        ("Avg Losing Trade", VNum avg_loss);
        ("Ratio Avg Win/Avg Loss", VNum win_loss_ratio);
        ("Profit Factor", VNum (reported_factor profit_factor));
        ("Largest Winning Trade", VNum largest_win);
        ("Largest Losing Trade", VNum largest_loss);
        ("Max Drawdown", VNum max_drawdown);
        ("Max Consecutive Winners", VCount max_consec_winners);
        ("Max Consecutive Losers", VCount max_consec_losers);
        ("Expectancy", VNum expectancy);
        ("Avg Time in Market (minutes)", VNum avg_time_in_market);
        ("Avg Bars in Trade", VNum avg_bars);
        ("Sharpe Ratio", VNum sharpe_ratio);
        ("Max Time to Recover", VTimedelta (inject_Z max_time_to_recover));
        ("Max Flat Period", VTimedelta (inject_Z max_flat_period));
        ("Avg Flat Period", VTimedelta avg_flat_period);
        ("Time in Market %", VNum pct_time_in_market) ] in
    Ok (stats, equity_curve, drawdown).

End Metrics.

(* ================================================================= *)
(** ** Day-of-week breakdown: [calculate_day_of_week_stats] *)

Definition day_names : list string :=
  ["Monday"; "Tuesday"; "Wednesday"; "Thursday"; "Friday"; "Saturday"; "Sunday"].

(** [timestamp.dayofweek], Monday being 0: the epoch was a Thursday. *)
Definition dayofweek (t : Z) : nat := Z.to_nat ((date_of t + 3) mod 7).

(** [df['Entry time'].dt.dayofweek]: a NaT has no weekday.  The model
    follows the program on columns of instants; with a NaT beside instants
    the program raises a TypeError when it names the days, which the model
    does not. *)
Definition dayofweek_cell (col : string) (c : cell) : result (option nat) :=
  match c with
  | CTime t => Ok (Some (dayofweek t))
  | CNull => Ok None
  | _ => Raise (NullArithmetic col)
  end.

Definition is_day (day_num : nat) (d : option nat) : bool :=
  match d with
  | Some n => n =? day_num
  | None => false
  end.

(** [df[df['DayOfWeek'] == day_num]], given the weekday of every row. *)
Definition rows_of_day (day_num : nat) (days : list (option nat)) (rs : list row) : list row :=
  map snd (filter (fun dr => is_day day_num (fst dr)) (combine days rs)).

(** The dict appended to [day_stats] for the weekday [day_num], from the
    profits of its trades. *)
Definition day_stats_entry (day_num num_trades : nat) (profits : list Q)
  : list (string * cell) :=
  let total_profit := Qsum profits in
  let num_winners := length (winners profits) in
  let num_losers := length (losers profits) in
  let win_rate :=
    if 0 <? num_trades then (Qnat num_winners / Qnat num_trades * 100)%Q else 0%Q in
  let avg_trade := Qmean profits in
  let avg_win := if 0 <? num_winners then Qmean (winners profits) else 0%Q in
  let avg_loss := if 0 <? num_losers then Qmean (losers profits) else 0%Q in
  let gross_profit := if 0 <? num_winners then Qsum (winners profits) else 0%Q in
  let gross_loss := if 0 <? num_losers then Qsum (losers profits) else 0%Q in
  let profit_factor := profit_factor_of gross_profit gross_loss in
  [ ("DayOfWeek", CNum (Qnat day_num));
    ("DayName", CStr (nth day_num day_names ""));
    ("Total Net Profit", CNum total_profit);
    ("Number of Trades", CNum (Qnat num_trades));
    ("Number of Winning Trades", CNum (Qnat num_winners));
    ("Number of Losing Trades", CNum (Qnat num_losers));
    ("Percent Profitable", CNum win_rate);
    ("Avg Trade", CNum avg_trade);
    ("Avg Winning Trade", CNum avg_win);
    ("Avg Losing Trade", CNum avg_loss);
    ("Gross Profit", CNum gross_profit);
    ("Gross Loss", CNum gross_loss);
    ("Profit Factor", CNum (reported_factor profit_factor)) ].

(** The body of the loop over [range(7)]: the dict appended to [day_stats],
    or nothing when the loop goes on to the next weekday. *)
Definition day_record (df : DataFrame) (days : list (option nat)) (day_num : nat)
  : result (option (list (string * cell))) :=
  let day_df := mkDataFrame (columns df) (rows_of_day day_num days (rows df)) in
  if len day_df =? 0 then Ok None
  else
    profits <- numbers day_df "Profit" ;;
    Ok (Some (day_stats_entry day_num (len day_df) profits)).

Fixpoint keep_some {A : Type} (l : list (option A)) : list A :=
  match l with
  | [] => []
  | Some a :: t => a :: keep_some t
  | None :: t => keep_some t
  end.

(** [pd.DataFrame(records)] for a list of dicts with the same keys. *)
Definition frame_of_records (records : list (list (string * cell))) : DataFrame :=
  match records with
  | [] => empty_frame
  | first :: _ => mkDataFrame (map fst first) (map (map snd) records)
  end.

Definition calculate_day_of_week_stats (df : DataFrame) : result DataFrame :=
  if len df =? 0 then Ok empty_frame
  else
    entry <- get_column df "Entry time" ;;
    days <- mapM (dayofweek_cell "Entry time") entry ;;
    day_stats <- mapM (day_record df days) (seq 0 7) ;;
    sort_values (frame_of_records (keep_some day_stats)) "DayOfWeek".

(* ================================================================= *)
(** ** Concurrency of instruments: [calculate_daily_instrument_stats] and
       [calculate_5min_window_stats] *)

(** [a == b] on two cells; a null equals nothing. *)
Definition cell_eqb (a b : cell) : bool :=
  match a, b with
  | CStr x, CStr y => String.eqb x y
  | CNum x, CNum y => Qeq_bool x y
  | CTime x, CTime y => (x =? y)%Z
  | CDate x, CDate y => (x =? y)%Z
  | _, _ => false
  end.

Definition as_string (col : string) (c : cell) : result string :=
  match c with
  | CStr s => Ok s
  | _ => Raise (NullArithmetic col)
  end.

Definition strings (df : DataFrame) (col : string) : result (list string) :=
  cells <- get_column df col ;; mapM (as_string col) cells.

(** [df.groupby(key)]: the groups in ascending order of their key, each with
    the values of its rows in the order of the frame. *)
Definition group_by {A : Type} (keys : list cell) (values : list A) : list (cell * list A) :=
  map (fun k => (k, map snd (filter (fun kv => cell_eqb (fst kv) k) (combine keys values))))
      (stable_sort cell_leb (unique_by cell_eqb [] keys)).

Definition unique_strings (l : list string) : list string := unique_by String.eqb [] l.

(** [sorted(names)] and [', '.join(names)]. *)
Definition sorted_strings (l : list string) : list string := stable_sort String.leb l.

Definition join_names (l : list string) : string := String.concat ", " l.

(** [len(x.split(', '))]. *)
Fixpoint count_separators (s : string) : nat :=
  match s with
  | EmptyString => 0
  | String c rest =>
      match rest with
      | String c' rest' =>
          if (Ascii.eqb c "," && Ascii.eqb c' " ")%bool
          then S (count_separators rest')
          else count_separators rest
      | EmptyString => 0
      end
  end.

Definition split_length (s : string) : nat := S (count_separators s).

Definition list_min (l : list nat) : nat :=
  match l with
  | [] => 0
  | x :: t => fold_left Nat.min t x
  end.

Definition mean_nat (l : list nat) : Q := Qmean (map Qnat l).

(** [series.value_counts().sort_index()] on a series of counts. *)
Definition value_counts_sorted (counts : list nat) : list (nat * nat) :=
  map (fun c => (c, length (filter (Nat.eqb c) counts)))
      (stable_sort Nat.leb (unique_by Nat.eqb [] counts)).

(** One group of [groupby(key)]: its key, the number of distinct
    instruments and the sum of the profits. *)
Definition group_summary (g : cell * list (string * Q)) : cell * nat * Q :=
  (fst g, length (unique_strings (map fst (snd g))), Qsum (map snd (snd g))).

(** [profit.groupby('Num_Instruments')[...].agg(['mean', 'sum', 'count'])]. *)
Definition profit_by_instruments (columns4 : list string) (summaries : list (cell * nat * Q))
  : DataFrame :=
  let counts := map (fun s => snd (fst s)) summaries in
  mkDataFrame columns4
    (map (fun c =>
            let ps := map snd (filter (fun s => snd (fst s) =? c) summaries) in
            [CNum (Qnat c); CNum (Qmean ps); CNum (Qsum ps); CNum (Qnat (length ps))])
         (stable_sort Nat.leb (unique_by Nat.eqb [] counts))).

(** The names listed for one of the keys with the most instruments. *)
Definition names_at (keys : list cell) (instruments : list string) (k : cell) : list string :=
  sorted_strings
    (unique_strings
       (map snd (filter (fun ki => cell_eqb (fst ki) k) (combine keys instruments)))).

(** One row of the table of details: key, names, profit and number of
    names. *)
Definition detail_row (g : cell * list (string * Q)) : row :=
  let names := join_names (sorted_strings (unique_strings (map fst (snd g)))) in
  [fst g; CStr names; CNum (Qsum (map snd (snd g))); CNum (Qnat (split_length names))].

Definition calculate_daily_instrument_stats (df : DataFrame) : result (report * DataFrame) :=
  if len df =? 0 then Ok ([], empty_frame)
  else
    entry <- times df "Entry time" ;;
    let dates := map (fun t => CDate (date_of t)) entry in
    instruments <- strings df "Instrument" ;;
    profits <- numbers df "Profit" ;;
    let groups := group_by dates (combine instruments profits) in
    let summaries := map group_summary groups in
    let counts := map (fun s => snd (fst s)) summaries in
    let daily_instruments :=
      mkDataFrame ["Date"; "Num_Instruments"]
        (map (fun s => [fst (fst s); CNum (Qnat (snd (fst s)))]) summaries) in
    let max_instruments := list_max counts in
    let avg_instruments := mean_nat counts in
    let min_instruments := list_min counts in
    let max_instrument_days :=
      map (fun s => fst (fst s))
          (filter (fun s => snd (fst s) =? max_instruments) summaries) in
    let max_day_instruments :=
      map (fun date => (date, names_at dates instruments date)) max_instrument_days in
    let instrument_count_distribution := value_counts_sorted counts in
    let daily_profit :=
      mkDataFrame ["Date"; "Daily_Profit"; "Num_Instruments"]
        (map (fun s => [fst (fst s); CNum (snd s); CNum (Qnat (snd (fst s)))]) summaries) in
    let avg_profit_by_instruments :=
      profit_by_instruments
        ["Num_Instruments"; "Avg_Daily_Profit"; "Total_Profit"; "Num_Days"] summaries in
    let daily_instrument_details :=
      mkDataFrame ["Date"; "Instruments"; "Daily_Profit"; "Num_Instruments"]
        (map detail_row groups) in
    let stats : report :=
      [ ("max_instruments", VCount max_instruments);
        ("avg_instruments", VNum avg_instruments);
        ("min_instruments", VCount min_instruments);
        ("total_trading_days", VCount (len daily_instruments));
        ("max_instrument_days", VTimes max_instrument_days);
        ("max_day_instruments", VNames max_day_instruments);
        ("distribution", VSeries instrument_count_distribution);
        ("daily_data", VFrame daily_profit);
        ("profit_by_instruments", VFrame avg_profit_by_instruments);
        ("daily_details", VFrame daily_instrument_details) ] in
    Ok (stats, daily_instruments).

Definition five_minutes : Z := 300000000000.

(** [timestamp.floor('5min')]. *)
Definition floor_5min (t : Z) : Z := (t - t mod five_minutes)%Z.

(** The number of names in a row of the table of details. *)
Definition detail_count (r : row) : cell := nth 3 r CNull.

Definition calculate_5min_window_stats (df : DataFrame) : result (report * DataFrame) :=
  if len df =? 0 then Ok ([], empty_frame)
  else
    entry <- times df "Entry time" ;;
    let windows := map (fun t => CTime (floor_5min t)) entry in
    instruments <- strings df "Instrument" ;;
    profits <- numbers df "Profit" ;;
    let groups := group_by windows (combine instruments profits) in
    let summaries := map group_summary groups in
    let counts := map (fun s => snd (fst s)) summaries in
    let window_instruments :=
      mkDataFrame ["Time_Window"; "Num_Instruments"]
        (map (fun s => [fst (fst s); CNum (Qnat (snd (fst s)))]) summaries) in
    let max_instruments := list_max counts in
    let avg_instruments := mean_nat counts in
    let min_instruments := list_min counts in
    let total_windows := len window_instruments in
    let max_instrument_windows :=
      map (fun s => fst (fst s))
          (filter (fun s => snd (fst s) =? max_instruments) summaries) in
    let max_window_instruments :=
      map (fun time_window => (time_window, names_at windows instruments time_window))
          (firstn 10 max_instrument_windows) in
    let instrument_count_distribution := value_counts_sorted counts in
    let window_profit :=
      mkDataFrame ["Time_Window"; "Window_Profit"; "Num_Instruments"]
        (map (fun s => [fst (fst s); CNum (snd s); CNum (Qnat (snd (fst s)))]) summaries) in
    let avg_profit_by_instruments :=
      profit_by_instruments
        ["Num_Instruments"; "Avg_Window_Profit"; "Total_Profit"; "Num_Windows"] summaries in
    let window_instrument_details :=
      mkDataFrame ["Time_Window"; "Instruments"; "Window_Profit"; "Num_Instruments"]
        (firstn 50
           (stable_sort (fun r1 r2 => cell_leb (detail_count r2) (detail_count r1))
              (map detail_row groups))) in
    let stats : report :=
      [ ("max_instruments", VCount max_instruments);
        ("avg_instruments", VNum avg_instruments);
        ("min_instruments", VCount min_instruments);
        ("total_windows", VCount total_windows);
        ("max_instrument_windows", VTimes (firstn 10 max_instrument_windows));
        ("max_window_instruments", VNames max_window_instruments);
        ("distribution", VSeries instrument_count_distribution);
        ("window_data", VFrame window_profit);
        ("profit_by_instruments", VFrame avg_profit_by_instruments);
        ("window_details", VFrame window_instrument_details) ] in
    Ok (stats, window_instruments).

(* ================================================================= *)
(** ** Trade processing: [trade_processor.py] *)

(** A start or end date: a [datetime], or text in the form dd/mm/yyyy. *)
Inductive date_arg : Type :=
| DateText (s : string)
| DateTime (t : Z).

(** What [pd.read_csv] does on a path. *)
Inductive read_outcome : Type :=
| ReadFrame (df : DataFrame)
| EmptyDataError
| ReadError (msg : string).

Fixpoint remove_char (c : ascii) (s : string) : string :=
  match s with
  | EmptyString => EmptyString
  | String a rest =>
      if Ascii.eqb a c then remove_char c rest else String a (remove_char c rest)
  end.

Fixpoint repeat_string (s : string) (n : nat) : string :=
  match n with
  | O => EmptyString
  | S k => (s ++ repeat_string s k)%string
  end.

Definition is_text (c : cell) : bool :=
  match c with
  | CStr _ => true
  | _ => false
  end.

(** [series.dtype == 'object']: [read_csv] gives a column this dtype when
    one of its cells is text. *)
Definition is_object_dtype (cells : list cell) : bool := existsb is_text cells.

(** [(df['Entry time'] >= start) & (df['Entry time'] < end)] on one cell:
    a comparison with NaT is false. *)
Definition in_range (start end_ : Z) (c : cell) : bool :=
  match c with
  | CTime t => ((start <=? t)%Z && (t <? end_)%Z)%bool
  | _ => false
  end.

Definition monetary_columns_loaded : list string :=
  ["Profit"; "MAE"; "MFE"; "ETD"; "Commission";
   "Clearing Fee"; "Exchange Fee"; "IP Fee"; "NFA Fee"; "Cum. net profit"].

Definition monetary_columns : list string :=
  ["Profit"; "MAE"; "MFE"; "ETD"; "Commission";
   "Clearing Fee"; "Exchange Fee"; "IP Fee"; "NFA Fee"].

(** [dict.get(key, default)] and [dict[key]] on a dict with text keys. *)
Fixpoint dict_get {V : Type} (d : list (string * V)) (key : string) : option V :=
  match d with
  | [] => None
  | (k, v) :: rest => if String.eqb k key then Some v else dict_get rest key
  end.

Definition dict_get_default {V : Type} (d : list (string * V)) (key : string) (default : V) : V :=
  match dict_get d key with
  | Some v => v
  | None => default
  end.

Definition dict_item {V : Type} (d : list (string * V)) (key : string) : result V :=
  match dict_get d key with
  | Some v => Ok v
  | None => Raise (KeyError key)
  end.

(** [d[key] = v]: a key already in the dict keeps its place. *)
Fixpoint dict_set {V : Type} (d : list (string * V)) (key : string) (v : V) : list (string * V) :=
  match d with
  | [] => [(key, v)]
  | (k, w) :: rest =>
      if String.eqb k key then (k, v) :: rest else (k, w) :: dict_set rest key v
  end.

(** [filter_trades_by_direction]. *)
Definition position_is (cols : list string) (position : string) (r : row) : bool :=
  cell_eqb (cell_of cols "Market pos." r) (CStr position).

Definition filter_trades_by_direction (df : DataFrame) (direction : string) : DataFrame :=
  if String.eqb direction "All" || negb (has_column df "Market pos.") then df
  else if String.eqb direction "Long Only" then
    select_rows df (position_is (columns df) "Long")
  else if String.eqb direction "Short Only" then
    select_rows df (position_is (columns df) "Short")
  else df.

(** [cell * multiplier]: a number is scaled, a NaN stays a NaN, text is
    repeated, and a date cannot be multiplied. *)
Definition mul_cell (col : string) (multiplier : Z) (c : cell) : result cell :=
  match c with
  | CNum q => Ok (CNum (q * inject_Z multiplier)%Q)
  | CNull => Ok CNull
  | CStr s => Ok (CStr (repeat_string s (Z.to_nat multiplier)))
  | CTime _ | CDate _ => Raise (TypeError col)
  end.

(** The body of the loop over [monetary_columns]. *)
Definition scale_column (multiplier : Z) (df : DataFrame) (col : string) : result DataFrame :=
  if has_column df col then
    cells <- get_column df col ;;
    scaled <- mapM (mul_cell col multiplier) cells ;;
    Ok (set_column df col scaled)
  else Ok df.

Fixpoint foldM {A B : Type} (f : A -> B -> result A) (l : list B) (a : A) : result A :=
  match l with
  | [] => Ok a
  | b :: t => a' <- f a b ;; foldM f t a'
  end.

Definition apply_contract_multiplier (df : DataFrame) (multiplier : Z) : result DataFrame :=
  if (multiplier =? 1)%Z || (len df =? 0) then Ok df
  else foldM (scale_column multiplier) monetary_columns df.

(** [pd.concat(frames, ignore_index=True)]: the columns in order of first
    appearance, and a null where a frame lacks a column. *)
Definition concat_frames (frames : list DataFrame) : DataFrame :=
  let cols := unique_strings (flat_map columns frames) in
  mkDataFrame cols
    (flat_map
       (fun df => map (fun r => map (fun c => cell_of (columns df) c r) cols) (rows df))
       frames).

(** The entry of [instruments_data] of one instrument. *)
Record instrument_data : Type := mkInstrumentData {
  data_trades : DataFrame;
  data_files : list (string * string);
  data_contracts : Z
}.

(** [selected_instruments]: a list of names, or a dict from names to
    booleans. *)
Inductive selection : Type :=
| SelectedList (names : list string)
| SelectedDict (flags : list (string * bool)).

Definition selected_list_of (selected_instruments : selection) : list string :=
  match selected_instruments with
  | SelectedDict flags => map fst (filter snd flags)
  | SelectedList names => names
  end.

Definition name_in (name : string) (names : list string) : bool :=
  existsb (String.eqb name) names.

Section Processor.

(** The library functions the module calls.  [pd_to_datetime] is
    [pd.to_datetime] with the format of the trade files on one text,
    [strptime] is [datetime.strptime] with the format dd/mm/yyyy and
    [strftime] is its inverse, [pd_to_numeric] is [pd.to_numeric] on one
    text; a parser that fails gives [None]. *)
Variable os_path_exists : string -> bool.
Variable pd_read_csv : string -> read_outcome.
Variable pd_to_datetime : string -> option Z.
Variable strptime : string -> option Z.
Variable strftime : Z -> string.
Variable pd_to_numeric : string -> option Q.

(** [pd.to_datetime(column, format=...)] on one cell: a null becomes NaT,
    text is parsed, a number does not match the format. *)
Definition to_datetime_cell (c : cell) : option cell :=
  match c with
  | CStr s => option_map CTime (pd_to_datetime s)
  | CNull => Some CNull
  | CTime t => Some (CTime t)
  | CNum _ | CDate _ => None
  end.

Fixpoint to_datetime_cells (cells : list cell) : option (list cell) :=
  match cells with
  | [] => Some []
  | c :: rest =>
      match to_datetime_cell c, to_datetime_cells rest with
      | Some c', Some rest' => Some (c' :: rest')
      | _, _ => None
      end
  end.

(** [df[col] = pd.to_datetime(df[col], format=...)] inside its [try].  The
    message of the program goes on with the text of the error of pandas,
    which the model leaves out. *)
Definition parse_time_column (df : DataFrame) (col : string) : result DataFrame :=
  cells <- get_column df col ;;
  match to_datetime_cells cells with
  | Some parsed => Ok (set_column df col parsed)
  | None =>
      Raise (ValueError ("Failed to parse '" ++ col ++
                         "' column. Expected format: dd/mm/yyyy HH:MM:SS.")%string)
  end.

(** The three [str] calls that clean one cell of a monetary column. *)
Definition clean_cell (c : cell) : cell :=
  match c with
  | CStr s =>
      match pd_to_numeric (remove_char "," (remove_char "$" s)) with
      | Some q => CNum q
      | None => CNull
      end
  | _ => c
  end.

(** The body of the loop over the monetary columns of the loader. *)
Definition clean_column (df : DataFrame) (col : string) : DataFrame :=
  if has_column df col then
    match get_column df col with
    | Ok cells =>
        if is_object_dtype cells then set_column df col (map clean_cell cells) else df
    | Raise _ => df
    end
  else df.

Definition start_of (start_date : date_arg) : result Z :=
  match start_date with
  | DateText s =>
      match strptime s with
      | Some t => Ok t
      | None =>
          Raise (ValueError ("Invalid start_date format: " ++ s ++
                             ". Expected: dd/mm/yyyy")%string)
      end
  | DateTime t => Ok t
  end.

Definition end_of (end_date : date_arg) : result Z :=
  match end_date with
  | DateText s =>
      match strptime s with
      | Some t => Ok (t + one_day)%Z
      | None =>
          Raise (ValueError ("Invalid end_date format: " ++ s ++
                             ". Expected: dd/mm/yyyy")%string)
      end
  | DateTime t => Ok (t + one_day)%Z
  end.

Definition load_and_filter_trades (trade_file : string) (start_date end_date : date_arg)
  : result DataFrame :=
  (* Validate file exists *)
  if negb (os_path_exists trade_file) then
    Raise (FileNotFoundError ("Trade file not found: " ++ trade_file)%string)
  else
    (* Load CSV *)
    df <- match pd_read_csv trade_file with
          | ReadFrame df => Ok df
          | EmptyDataError =>
              Raise (ValueError ("CSV file is empty: " ++ trade_file)%string)
          | ReadError msg =>
              Raise (ValueError ("Failed to read CSV file " ++ trade_file ++
                                 ": " ++ msg)%string)
          end ;;
    (* Validate required columns *)
    let required_columns := ["Entry time"; "Exit time"] in
    let missing_columns := filter (fun col => negb (has_column df col)) required_columns in
    if negb (length missing_columns =? 0) then
      Raise (ValueError ("CSV missing required columns: " ++
                         String.concat ", " missing_columns ++
                         ". Available columns: " ++
                         String.concat ", " (columns df))%string)
    else if len df =? 0 then
      Raise (ValueError ("CSV file contains no data rows: " ++ trade_file)%string)
    else
      (* Parse dates with error handling *)
      df <- parse_time_column df "Entry time" ;;
      df <- parse_time_column df "Exit time" ;;
      (* Convert start_date and end_date to datetime if they're strings *)
      start <- start_of start_date ;;
      end_ <- end_of end_date ;;
      (* Filter by date range *)
      let df_filtered :=
        select_rows df (fun r => in_range start end_ (cell_of (columns df) "Entry time" r)) in
      (* Clean all monetary columns *)
      let df_filtered := fold_left clean_column monetary_columns_loaded df_filtered in
      (* Sort by entry time *)
      sort_values df_filtered "Entry time".

(** The [try] block of the loop of [load_and_process_trades], up to the
    test on the length of the frame. *)
Definition process_instrument
    (instrument_filters : list (string * string))
    (instrument_contracts : list (string * Z))
    (start_str end_str : date_arg)
    (name : string) (files : list (string * string)) : result (DataFrame * Z) :=
  trade_file <- dict_item files "trades" ;;
  df <- load_and_filter_trades trade_file start_str end_str ;;
  (* Apply Long/Short filter *)
  let filter_option := dict_get_default instrument_filters name "All" in
  let df := filter_trades_by_direction df filter_option in
  (* Apply contract multiplier *)
  let contracts := dict_get_default instrument_contracts name 1%Z in
  df <- apply_contract_multiplier df contracts ;;
  Ok (df, contracts).

(** One iteration of the loop over [instruments.items()], on the pair
    [(all_trades, instruments_data)]: an exception of the [try] block is
    caught, and the loop goes on. *)
Definition process_step
    (selected_list : list string)
    (instrument_filters : list (string * string))
    (instrument_contracts : list (string * Z))
    (start_str end_str : date_arg)
    (st : list DataFrame * list (string * instrument_data))
    (item : string * list (string * string))
  : list DataFrame * list (string * instrument_data) :=
  let '(all_trades, instruments_data) := st in
  let '(name, files) := item in
  if name_in name selected_list then
    match process_instrument instrument_filters instrument_contracts
                             start_str end_str name files with
    | Ok (df, contracts) =>
        if 0 <? len df then
          let df := set_column_scalar df "Instrument" (CStr name) in
          let df := set_column_scalar df "Contracts" (CNum (inject_Z contracts)) in
          (all_trades ++ [df],
           dict_set instruments_data name (mkInstrumentData df files contracts))
        else st
    | Raise _ => st
    end
  else st.

Definition date_as_text (d : date_arg) : date_arg :=
  match d with
  | DateTime t => DateText (strftime t)
  | DateText s => DateText s
  end.

Definition load_and_process_trades
    (instruments : list (string * list (string * string)))
    (selected_instruments : selection)
    (instrument_filters : list (string * string))
    (instrument_contracts : list (string * Z))
    (start_date end_date : date_arg)
  : result (list (string * instrument_data) * DataFrame) :=
  (* Convert dates to string format if they're datetime objects *)
  let start_str := date_as_text start_date in
  let end_str := date_as_text end_date in
  (* Handle both list and dict formats for selected_instruments *)
  let selected_list := selected_list_of selected_instruments in
  let '(all_trades, instruments_data) :=
    fold_left
      (process_step selected_list instrument_filters instrument_contracts start_str end_str)
      instruments ([], []) in
  if length all_trades =? 0 then Ok ([], empty_frame)
  else
    let combined_df := concat_frames all_trades in
    combined_df <- sort_values combined_df "Entry time" ;;
    Ok (instruments_data, combined_df).

End Processor.

(* ================================================================= *)
(** ** What the theorems speak of *)

(** A frame is well formed when its column names are distinct and every row
    has one cell per column. *)
Definition frame_ok (df : DataFrame) : Prop :=
  NoDup (columns df) /\ Forall (fun r => length r = length (columns df)) (rows df).

(** A cell of a monetary column after loading: a number or a null. *)
Definition money_cell (c : cell) : Prop :=
  match c with
  | CNum _ | CNull => True
  | _ => False
  end.

Definition money_frame (df : DataFrame) : Prop :=
  Forall (fun r =>
            Forall (fun cx => name_in (fst cx) monetary_columns = true -> money_cell (snd cx))
                   (combine (columns df) r))
         (rows df).

(** In the columns named [scaled], every cell of the frame is a number or a
    null. *)
Definition money_in (scaled : list string) (df : DataFrame) : Prop :=
  Forall (fun r =>
            Forall (fun cx => name_in (fst cx) scaled = true -> money_cell (snd cx))
                   (combine (columns df) r))
         (rows df).

(** A monetary cell scaled by a multiplier. *)
Definition scaled_cell (multiplier : Z) (c : cell) : cell :=
  match c with
  | CNum q => CNum (q * inject_Z multiplier)%Q
  | _ => c
  end.

(** A row in which the cells of the columns [scaled] are scaled and the
    others are kept. *)
Definition scaled_row (scaled cols : list string) (multiplier : Z) (r : row) : row :=
  map (fun cx => if name_in (fst cx) scaled then scaled_cell multiplier (snd cx) else snd cx)
      (combine cols r).

(** The bar counts can be averaged: the column is absent, or it holds
    numbers and nulls with one number at least. *)
Definition bars_readable (df : DataFrame) : Prop :=
  has_column df "Bars" = false \/ exists avg_bars, mean_skipna df "Bars" = Ok avg_bars.


(** The weekdays, from Monday to Sunday, on which a trade was entered, and
    the profits of the trades entered on a weekday. *)
Definition traded_days (entry : list Z) : list nat :=
  filter (fun day_num => existsb (fun t => dayofweek t =? day_num) entry) (seq 0 7).

Definition day_profits (day_num : nat) (entry : list Z) (profits : list Q) : list Q :=
  map snd (filter (fun tp => dayofweek (fst tp) =? day_num) (combine entry profits)).

(** The row of the breakdown for a weekday. *)
Definition day_row (entry : list Z) (profits : list Q) (day_num : nat) : row :=
  map snd (day_stats_entry day_num (length (day_profits day_num entry profits))
             (day_profits day_num entry profits)).

Definition day_columns : list string :=
  ["DayOfWeek"; "DayName"; "Total Net Profit"; "Number of Trades";
   "Number of Winning Trades"; "Number of Losing Trades"; "Percent Profitable";
   "Avg Trade"; "Avg Winning Trade"; "Avg Losing Trade"; "Gross Profit";
   "Gross Loss"; "Profit Factor"].

(** The instant a start or end date stands for. *)
Definition date_value (strptime : string -> option Z) (d : date_arg) : option Z :=
  match d with
  | DateText s => strptime s
  | DateTime t => Some t
  end.

(** The entry time of a row lies in the interval from [start] to [stop],
    [start] included and [stop] excluded. *)
Definition entered_in (cols : list string) (start stop : Z) (r : row) : Prop :=
  exists t, cell_of cols "Entry time" r = CTime t /\ (start <= t < stop)%Z.

(** The entry time of the first row is not after that of the second. *)
Definition entered_before (cols : list string) (r1 r2 : row) : Prop :=
  exists t1 t2,
    cell_of cols "Entry time" r1 = CTime t1 /\
    cell_of cols "Entry time" r2 = CTime t2 /\ (t1 <= t2)%Z.



(* ================================================================= *)
(** ** Sample inputs *)

Definition sample_positions : DataFrame :=
  mkDataFrame ["Market pos."; "Profit"]
    [[CStr "Long"; CNum 10]; [CStr "Short"; CNum (-4)]].

(** Two trades: a long one that wins 100 and, two days after its exit, a
    short one that loses 20. *)
Definition sample_trades : DataFrame :=
  mkDataFrame ["Entry time"; "Exit time"; "Market pos."; "Profit"; "Commission"; "Bars"]
    [ [CTime (4 * one_day); CTime (4 * one_day + 3600000000000);
       CStr "Long"; CNum 100; CNum (5 # 2); CNum 12];
      [CTime (6 * one_day + 3600000000000); CTime (6 * one_day + 7200000000000);
       CStr "Short"; CNum (-20); CNum (5 # 2); CNum 7] ].

(** Three intervals, the second starting at the very end of the first. *)
Definition touching_intervals : list (Z * Z) := [(0, 10); (10, 20); (50, 60)]%Z.

Definition sample_empty : DataFrame :=
  mkDataFrame ["Entry time"; "Exit time"; "Profit"] [].

(** A trade file with three rows, and library functions that know its
    texts. *)
Definition sample_raw : DataFrame :=
  mkDataFrame ["Entry time"; "Exit time"; "Market pos."; "Profit"]
    [ [CStr "07/01/1970 01:00:00"; CStr "07/01/1970 02:00:00"; CStr "Short"; CStr "-$20.00"];
      [CStr "09/01/1970 00:00:00"; CStr "09/01/1970 01:00:00"; CStr "Long"; CStr "$1,234.00"];
      [CStr "05/01/1970 00:00:00"; CStr "05/01/1970 01:00:00"; CStr "Long"; CStr "$100.00"] ].

Definition sample_exists (path : string) : bool := String.eqb path "ES-trades.csv".

Definition sample_read_csv (path : string) : read_outcome :=
  if String.eqb path "ES-trades.csv" then ReadFrame sample_raw
  else ReadError "No such file".

Definition sample_to_datetime (s : string) : option Z :=
  dict_get [ ("05/01/1970 00:00:00", 4 * one_day);
             ("05/01/1970 01:00:00", 4 * one_day + 3600000000000);
             ("07/01/1970 01:00:00", 6 * one_day + 3600000000000);
             ("07/01/1970 02:00:00", 6 * one_day + 7200000000000);
             ("09/01/1970 00:00:00", 8 * one_day);
             ("09/01/1970 01:00:00", 8 * one_day + 3600000000000) ]%Z s.

Definition sample_strptime (s : string) : option Z :=
  dict_get [("05/01/1970", 4 * one_day); ("07/01/1970", 6 * one_day)]%Z s.

Definition sample_strftime (t : Z) : string :=
  if (t <? 6 * one_day)%Z then "05/01/1970" else "07/01/1970".

Definition sample_to_numeric (s : string) : option Q :=
  dict_get [("100.00", 100); ("1234.00", 1234); ("-20.00", -20)]%Q s.

Definition sample_instruments : list (string * list (string * string)) :=
  [ ("ES", [("summary", "ES-summary.csv"); ("trades", "ES-trades.csv")]);
    ("NQ", [("summary", "NQ-summary.csv"); ("trades", "NQ-trades.csv")]) ].

(** The two trades of the file that are entered from 5 to 7 January 1970,
    in the order of their entry times, with their profits as numbers. *)
Definition sample_loaded : DataFrame :=
  mkDataFrame ["Entry time"; "Exit time"; "Market pos."; "Profit"]
    [ [CTime (4 * one_day); CTime (4 * one_day + 3600000000000); CStr "Long"; CNum 100];
      [CTime (6 * one_day + 3600000000000); CTime (6 * one_day + 7200000000000);
       CStr "Short"; CNum (-20)] ].

(** The same trades with the name of their instrument and one contract. *)
Definition sample_tagged : DataFrame :=
  mkDataFrame ["Entry time"; "Exit time"; "Market pos."; "Profit"; "Instrument"; "Contracts"]
    [ [CTime (4 * one_day); CTime (4 * one_day + 3600000000000); CStr "Long"; CNum 100;
       CStr "ES"; CNum 1];
      [CTime (6 * one_day + 3600000000000); CTime (6 * one_day + 7200000000000);
       CStr "Short"; CNum (-20); CStr "ES"; CNum 1] ].

(** The trades of [sample_trades] with three contracts: the profits and
    the commissions are tripled, the bars are not. *)
Definition sample_scaled : DataFrame :=
  mkDataFrame ["Entry time"; "Exit time"; "Market pos."; "Profit"; "Commission"; "Bars"]
    [ [CTime (4 * one_day); CTime (4 * one_day + 3600000000000);
       CStr "Long"; CNum 300; CNum (15 # 2); CNum 12];
      [CTime (6 * one_day + 3600000000000); CTime (6 * one_day + 7200000000000);
       CStr "Short"; CNum (-60); CNum (15 # 2); CNum 7] ].

(* ================================================================= *)
(** ** Equity highs *)

(** The rows of [eq_df] at which the equity is above every equity before:
    the new equity highs, the first row being one. *)
Fixpoint equity_highs_from (peak : Q) (eq_df : list (Z * Q)) : list (Z * Q) :=
  match eq_df with
  | [] => []
  | (time, equity) :: rest =>
      if Qgtb equity peak then (time, equity) :: equity_highs_from equity rest
      else equity_highs_from peak rest
  end.

Definition equity_highs (eq_df : list (Z * Q)) : list (Z * Q) :=
  match eq_df with
  | [] => []
  | (time, equity) :: rest => (time, equity) :: equity_highs_from equity rest
  end.

(** The durations between consecutive instants. *)
Fixpoint durations (instants : list Z) : list Z :=
  match instants with
  | [] => []
  | t :: rest =>
      match rest with
      | [] => []
      | t' :: _ => (t' - t)%Z :: durations rest
      end
  end.

(** Three trades of one Monday, two of one instrument and one of another,
    as a combined set. *)
Definition sample_combined : DataFrame :=
  mkDataFrame ["Entry time"; "Exit time"; "Profit"; "Instrument"]
    [ [CTime (4 * one_day + 34200000000000); CTime (4 * one_day + 34500000000000);
       CNum 100; CStr "ES"];
      [CTime (4 * one_day + 34320000000000); CTime (4 * one_day + 34800000000000);
       CNum (-20); CStr "NQ"];
      [CTime (4 * one_day + 36000000000000); CTime (4 * one_day + 36600000000000);
       CNum 50; CStr "ES"] ].

(* ================================================================= *)
(** ** Cells of a column *)

(** Every cell of the column [col], when the frame has it, has the property
    [P]. *)
Definition column_cells (P : cell -> Prop) (df : DataFrame) (col : string) : Prop :=
  forall i, col_index col (columns df) = Some i ->
            Forall (fun r => P (nth i r CNull)) (rows df).

(** A cell as [read_csv] gives it: text, a number or a null. *)
Definition csv_cell (c : cell) : Prop :=
  match c with
  | CStr _ | CNum _ | CNull => True
  | _ => False
  end.

Definition csv_frame (df : DataFrame) : Prop := Forall (Forall csv_cell) (rows df).

(* ================================================================= *)
(** ** Frames of the combiner *)

(** A cell that holds an instant. *)
Definition is_time (c : cell) : Prop :=
  match c with
  | CTime _ => True
  | _ => False
  end.

(** The frame of an instrument as the loop of [load_and_process_trades]
    stores it: with the columns Instrument and Contracts written. *)
Definition tagged (df : DataFrame) (name : string) (contracts : Z) : DataFrame :=
  set_column_scalar (set_column_scalar df "Instrument" (CStr name))
                    "Contracts" (CNum (inject_Z contracts)).

(** A row that carries the name and the number of contracts of an entry of
    [instruments_data]. *)
Definition row_of_entry (cols : list string) (data : list (string * instrument_data))
           (r : row) : Prop :=
  exists name d,
    In (name, d) data /\
    cell_of cols "Instrument" r = CStr name /\
    cell_of cols "Contracts" r = CNum (inject_Z (data_contracts d)).

(* ================================================================= *)
(** ** Texts *)

(** [str.lower()] and [str.upper()] on ASCII text, the text of the names of
    the trade files: the letters from A to Z and from a to z are mapped,
    and every other character is kept. *)
Definition is_upper (c : ascii) : bool :=
  (65 <=? nat_of_ascii c) && (nat_of_ascii c <=? 90).

Definition is_lower (c : ascii) : bool :=
  (97 <=? nat_of_ascii c) && (nat_of_ascii c <=? 122).

Definition lower_char (c : ascii) : ascii :=
  if is_upper c then ascii_of_nat (nat_of_ascii c + 32) else c.

Definition upper_char (c : ascii) : ascii :=
  if is_lower c then ascii_of_nat (nat_of_ascii c - 32) else c.

Fixpoint map_chars (f : ascii -> ascii) (s : string) : string :=
  match s with
  | EmptyString => EmptyString
  | String c rest => String (f c) (map_chars f rest)
  end.

Definition lower (s : string) : string := map_chars lower_char s.

Definition upper (s : string) : string := map_chars upper_char s.

(** Every character of the text passes the test. *)
Fixpoint all_chars (p : ascii -> bool) (s : string) : bool :=
  match s with
  | EmptyString => true
  | String c rest => p c && all_chars p rest
  end.

Definition is_ascii (c : ascii) : bool := nat_of_ascii c <? 128.

Definition ascii_text (s : string) : Prop := all_chars is_ascii s = true.

(** [s.endswith(suffix)]. *)
Fixpoint endswith (s suffix : string) : bool :=
  String.eqb s suffix ||
  match s with
  | EmptyString => false
  | String _ rest => endswith rest suffix
  end.

(** [s[:stop]] and [s[:-n]]; [s[:-0]] is the empty text. *)
Fixpoint slice_to (stop : nat) (s : string) : string :=
  match stop, s with
  | S k, String c rest => String c (slice_to k rest)
  | _, _ => EmptyString
  end.

Definition slice_to_last (n : nat) (s : string) : string :=
  if n =? 0 then EmptyString else slice_to (String.length s - n) s.

(** [s.replace(old, new)] for a text [old] that is not empty: the
    occurrences of [old] are replaced from left to right, and [skip] counts
    the characters of an occurrence that remain to be passed. *)
Fixpoint replace_from (old new : string) (skip : nat) (s : string) : string :=
  match s with
  | EmptyString => EmptyString
  | String c rest =>
      match skip with
      | S k => replace_from old new k rest
      | O =>
          if String.prefix old s
          then (new ++ replace_from old new (String.length old - 1) rest)%string
          else String c (replace_from old new 0 rest)
      end
  end.

Definition replace (old new s : string) : string := replace_from old new 0 s.

(** The truth value of a text, and of a name that may be [None]. *)
Definition truthy (s : string) : bool := negb (String.eqb s "").

Definition truthy_name (name : option string) : bool :=
  match name with
  | Some s => truthy s
  | None => false
  end.

(** Replacing one character by a text. *)
Fixpoint replace_char (c : ascii) (new s : string) : string :=
  match s with
  | EmptyString => EmptyString
  | String x rest =>
      if Ascii.eqb x c then (new ++ replace_char c new rest)%string
      else String x (replace_char c new rest)
  end.

(* ================================================================= *)
(** ** Discovery of the instruments: [find_instruments] *)

Definition trade_suffixes : list string := ["-trades.csv"; "-Trades.csv"].

Definition summary_suffixes : list string := ["-summary.csv"; "-Summary.csv"].

(** The loop over the suffixes, with its [break], for a lowered file name:
    the prefix of the name when it ends with one of the suffixes. *)
Fixpoint prefix_of (fl : string) (suffixes : list string) : option string :=
  match suffixes with
  | [] => None
  | suf :: rest =>
      if endswith fl (lower suf) then Some (slice_to_last (String.length suf) fl)
      else prefix_of fl rest
  end.

(** [set.add]. *)
Definition set_add (x : string) (s : list string) : list string :=
  if name_in x s then s else s ++ [x].

(** The body of the loop over the files. *)
Definition collect_prefixes (st : list string * list string) (f : string)
  : list string * list string :=
  let '(trade_prefixes, summary_prefixes) := st in
  let fl := lower f in
  let trade_prefixes :=
    match prefix_of fl trade_suffixes with
    | Some p => set_add p trade_prefixes
    | None => trade_prefixes
    end in
  let summary_prefixes :=
    match prefix_of fl summary_suffixes with
    | Some p => set_add p summary_prefixes
    | None => summary_prefixes
    end in
  (trade_prefixes, summary_prefixes).

(** The loop over the suffixes, with its [break], for a matched prefix: the
    name of the file whose lowered name is the lowered candidate. *)
Fixpoint actual_name (lower_to_actual : list (string * string)) (prefix : string)
         (suffixes : list string) : option string :=
  match suffixes with
  | [] => None
  | suf :: rest =>
      let candidate := (prefix ++ suf)%string in
      match dict_get lower_to_actual (lower candidate) with
      | Some actual => Some actual
      | None => actual_name lower_to_actual prefix rest
      end
  end.

(** The short name of an instrument: ROA305-GC-55 gives GC55. *)
Definition clean_name (prefix : string) : string :=
  upper (replace "-" "" (replace "roa305-" "" (replace "ROA305-" "" prefix))).

Section Discovery.

(** [os.path.exists], [os.listdir] on a folder that can be listed, and
    [os.path.join]; and the order in which a set of texts is iterated,
    which Python does not fix. *)
Variable os_path_exists : string -> bool.
Variable os_listdir : string -> list string.
Variable os_path_join : string -> string -> string.
Variable set_order : list string -> list string.

(** The body of the loop over the matched prefixes. *)
Definition add_instrument (folder : string) (lower_to_actual : list (string * string))
           (instruments : list (string * list (string * string))) (prefix : string)
  : list (string * list (string * string)) :=
  let trade_name := actual_name lower_to_actual prefix trade_suffixes in
  let summary_name := actual_name lower_to_actual prefix summary_suffixes in
  if truthy_name trade_name && truthy_name summary_name then
    match trade_name, summary_name with
    | Some trade_name, Some summary_name =>
        dict_set instruments (clean_name prefix)
                 [ ("summary", os_path_join folder summary_name);
                   ("trades", os_path_join folder trade_name) ]
    | _, _ => instruments
    end
  else instruments.

Definition find_instruments (folder : string) : list (string * list (string * string)) :=
  if negb (os_path_exists folder) then []
  else
    let files := os_listdir folder in
    (* Normalize filenames for case-insensitive matching *)
    let lower_to_actual := fold_left (fun d f => dict_set d (lower f) f) files [] in
    let '(trade_prefixes, summary_prefixes) := fold_left collect_prefixes files ([], []) in
    let matched_prefixes := filter (fun p => name_in p summary_prefixes) trade_prefixes in
    fold_left (add_instrument folder lower_to_actual) (set_order matched_prefixes) [].

End Discovery.

(** A folder with the two files of one instrument, a trade file without
    summary, and another file. *)
Definition sample_listdir (folder : string) : list string :=
  ["ROA305-GC-55-Trades.csv"; "notes.txt"; "ROA305-GC-55-Summary.csv"; "NQ-trades.csv"].

Definition sample_join (folder name : string) : string := (folder ++ "/" ++ name)%string.

(** The entry of an instrument: the two paths of its files. *)
Definition instrument_files (os_path_join : string -> string -> string)
           (folder trade_name summary_name : string) : list (string * string) :=
  [ ("summary", os_path_join folder summary_name);
    ("trades", os_path_join folder trade_name) ].

(** The files [trade_name] and [summary_name] of a folder are the two files
    of the prefix. *)
Definition file_pair (listing : list string) (prefix trade_name summary_name : string)
  : Prop :=
  In trade_name listing /\ In summary_name listing /\
  lower trade_name = (prefix ++ "-trades.csv")%string /\
  lower summary_name = (prefix ++ "-summary.csv")%string.

Definition sample_folder_exists (path : string) : bool := String.eqb path "data".

(* ================================================================= *)
(** ** The selection of the instruments in [get_filtered_data] *)

Definition DEVELOPER_DEFAULT_INSTRUMENTS : list string :=
  ["gc3010"; "gc55"; "ho305"; "qi305"; "qo3010"; "rty3015"; "si305"; "ym305"; "qm55"].

(** [[inst for inst in DEVELOPER_DEFAULT_INSTRUMENTS if inst in instrument_names]]. *)
Definition default_selection (instrument_names : list string) : list string :=
  filter (fun inst => name_in inst instrument_names) DEVELOPER_DEFAULT_INSTRUMENTS.

(** [a or b] on lists. *)
Definition list_or (a b : list string) : list string :=
  match a with
  | [] => b
  | _ => a
  end.

Section Selection.

(** [str.strip]. *)
Variable str_strip : string -> string.

(** The list of selected instruments, from the values of the request
    parameter [instruments] and the names of the instruments found. *)
Definition selected_instruments_list (requested instrument_names : list string)
  : list string :=
  (* Filter out empty strings and validate against available instruments *)
  let selected := filter (fun inst => truthy inst && truthy (str_strip inst)) requested in
  (* If empty list after filtering, default to developer's instruments or all *)
  let selected :=
    match selected with
    | [] => list_or (default_selection instrument_names) instrument_names
    | _ => selected
    end in
  (* Validate selected instruments - only include instruments that actually exist *)
  let selected := filter (fun name => name_in name instrument_names) selected in
  (* If no valid instruments selected, default to developer's instruments or all *)
  match selected with
  | [] => list_or (default_selection instrument_names) instrument_names
  | _ => selected
  end.

(** The requested names that are not blank and name an instrument. *)
Definition valid_requested (requested instrument_names : list string) : list string :=
  filter (fun inst => truthy inst && truthy (str_strip inst) && name_in inst instrument_names)
         requested.

End Selection.

(* ================================================================= *)
(** ** The keys of a report in the templates: [clean_stats_keys] *)

(** The key of a statistic as the templates name it. *)
Definition clean_key (k : string) : string :=
  replace "%" "Percent"
    (replace ")" "" (replace "(" "" (replace "/" "_" (replace " " "_" k)))).

(** The dict comprehension over [stats.items()]: a key that comes twice
    keeps its first place and takes the last value. *)
Definition clean_stats_dict {V : Type} (stats : list (string * V)) : list (string * V) :=
  fold_left (fun d kv => dict_set d (clean_key (fst kv)) (snd kv)) stats [].

(** An argument of [clean_stats_keys]: a dict, a list, or another value. *)
#[warnings="-register-all"] Inductive stats_arg (V : Type) : Type :=
| StatsDict (d : list (string * V))
| StatsList (l : list (stats_arg V))
| StatsOther (v : V).

Arguments StatsDict {V} d.
Arguments StatsList {V} l.
Arguments StatsOther {V} v.

Fixpoint clean_stats_keys {V : Type} (stats : stats_arg V) : stats_arg V :=
  match stats with
  | StatsDict d => StatsDict (clean_stats_dict d)
  | StatsList l => StatsList (map clean_stats_keys l)
  | StatsOther v => StatsOther v
  end.

(** A character that a cleaned key does not hold. *)
Definition is_special (c : ascii) : bool :=
  Ascii.eqb c " " || Ascii.eqb c "/" || Ascii.eqb c "(" || Ascii.eqb c ")" || Ascii.eqb c "%".

(** The texts of a list are distinct. *)
Fixpoint distinct (l : list string) : bool :=
  match l with
  | [] => true
  | x :: rest => negb (name_in x rest) && distinct rest
  end.

(** The keys of the report of [calculate_comprehensive_stats]. *)
Definition report_keys : list string :=
  [ "Instrument"; "Total Net Profit"; "Gross Profit"; "Gross Loss"; "Number of Trades";
    "Number of Winning Trades"; "Number of Losing Trades"; "Percent Profitable";
    "Avg Trade"; "Avg Winning Trade"; "Avg Losing Trade"; "Ratio Avg Win/Avg Loss";
    "Profit Factor"; "Largest Winning Trade"; "Largest Losing Trade"; "Max Drawdown";
    "Max Consecutive Winners"; "Max Consecutive Losers"; "Expectancy";
    "Avg Time in Market (minutes)"; "Avg Bars in Trade"; "Sharpe Ratio";
    "Max Time to Recover"; "Max Flat Period"; "Avg Flat Period"; "Time in Market %" ].

(* ================================================================= *)
(** ** Reading one file: [load_trade_file] and [load_summary_file] *)

Section Files.

Variable os_path_exists : string -> bool.
Variable pd_read_csv : string -> read_outcome.

Definition load_trade_file (file_path : string) : result DataFrame :=
  if negb (os_path_exists file_path) then
    Raise (FileNotFoundError ("Trade file not found: " ++ file_path)%string)
  else
    df <- match pd_read_csv file_path with
          | ReadFrame df => Ok df
          | EmptyDataError =>
              Raise (ValueError ("CSV file is empty: " ++ file_path)%string)
          | ReadError msg =>
              Raise (ValueError ("Failed to read CSV file " ++ file_path ++
                                 ": " ++ msg)%string)
          end ;;
    if len df =? 0 then
      Raise (ValueError ("CSV file contains no data rows: " ++ file_path)%string)
    else Ok df.

Definition load_summary_file (file_path : string) : result DataFrame :=
  if negb (os_path_exists file_path) then
    Raise (FileNotFoundError ("Summary file not found: " ++ file_path)%string)
  else
    df <- match pd_read_csv file_path with
          | ReadFrame df => Ok df
          | EmptyDataError =>
              Raise (ValueError ("CSV file is empty: " ++ file_path)%string)
          | ReadError msg =>
              Raise (ValueError ("Failed to read CSV file " ++ file_path ++
                                 ": " ++ msg)%string)
          end ;;
    Ok df.

End Files.

(* ================================================================= *)
(** * Theorems *)

Lemma streak_fold_spec (direction : Z) (profits : list Q) (m c : nat) :
  fst (fold_left (streak_step direction) profits (m, c)) =
  Nat.max m (list_max (running_counter direction c profits)).
Proof.
  revert m c. induction profits as [|p t IH]; intros m c; simpl.
  - now rewrite Nat.max_0_r.
  - rewrite Nat.add_1_r.
    destruct (streak_match direction p); rewrite IH; lia.
Qed.

(** C3: the streak counter returns the largest value taken by a running
    counter that is incremented on a trade of the requested direction and
    reset to 0 on any other trade; on the profits 5, -3, 2, 2, 2, -1 it
    returns 3 for winners and 1 for losers. *)
Theorem calculate_max_consecutive_spec :
  (forall (profits : list Q) (direction : Z),
      calculate_max_consecutive profits direction =
      list_max (running_counter direction 0 profits)) /\
  calculate_max_consecutive example_profits 1 = 3 /\
  calculate_max_consecutive example_profits (-1) = 1.
Proof.
  split; [|split; reflexivity].
  intros profits direction. unfold calculate_max_consecutive.
  destruct profits as [|p t]; [reflexivity|].
  cbn [length Nat.eqb]. rewrite streak_fold_spec. reflexivity.
Qed.

(* ----------------------------------------------------------------- *)
(** ** Empty trade sets *)

Section EmptyInput.

Variable np_sqrt : Q -> Q.

(** C8: on a trade set without rows the statistics function returns the
    empty report with an empty equity curve and an empty drawdown series,
    the day-of-week breakdown returns the empty frame, and the daily and the
    5-minute concurrency functions return the empty report with the empty
    frame; none of them raises. *)
Theorem empty_trade_set_reports (df : DataFrame) (instrument_name : string) :
  len df = 0 ->
  calculate_comprehensive_stats np_sqrt df instrument_name = Ok ([], [], []) /\
  calculate_day_of_week_stats df = Ok empty_frame /\
  calculate_daily_instrument_stats df = Ok ([], empty_frame) /\
  calculate_5min_window_stats df = Ok ([], empty_frame).
Proof.
  intros Hlen.
  unfold calculate_comprehensive_stats, calculate_day_of_week_stats,
    calculate_daily_instrument_stats, calculate_5min_window_stats.
  rewrite Hlen. repeat split; reflexivity.
Qed.

End EmptyInput.

Lemma empty_trade_set_reports_witness :
  len sample_empty = 0 /\
  calculate_comprehensive_stats (fun q => q) sample_empty "ES" = Ok ([], [], []) /\
  calculate_day_of_week_stats sample_empty = Ok empty_frame /\
  calculate_daily_instrument_stats sample_empty = Ok ([], empty_frame) /\
  calculate_5min_window_stats sample_empty = Ok ([], empty_frame).
Proof.
  split; [reflexivity|].
  apply (empty_trade_set_reports (fun q => q) sample_empty "ES").
  reflexivity.
Defined.

(* ----------------------------------------------------------------- *)
(** ** Direction filter *)

(** C10: with a direction that is neither Long Only nor Short Only (All and
    every unknown text), or on a frame without the column Market pos., the
    direction filter returns the frame it was given. *)
Theorem filter_trades_by_direction_unchanged (df : DataFrame) (direction : string) :
  (direction <> "Long Only" /\ direction <> "Short Only") \/
  has_column df "Market pos." = false ->
  filter_trades_by_direction df direction = df.
Proof.
  intros H. unfold filter_trades_by_direction.
  destruct (String.eqb direction "All" || negb (has_column df "Market pos.")) eqn:E;
    [reflexivity|].
  destruct H as [[Hl Hs]|Hc].
  - apply String.eqb_neq in Hl. apply String.eqb_neq in Hs.
    rewrite Hl, Hs. reflexivity.
  - rewrite Hc in E. rewrite orb_true_r in E. discriminate.
Qed.

Lemma filter_trades_by_direction_unchanged_witness :
  filter_trades_by_direction sample_positions "Sideways" = sample_positions.
Proof.
  apply (filter_trades_by_direction_unchanged sample_positions "Sideways").
  left. split; discriminate.
Defined.

(* ----------------------------------------------------------------- *)
(** ** Lists and results *)

Lemma mapM_map {A B : Type} (f : A -> result B) (g : A -> B) (l : list A) :
  Forall (fun a => f a = Ok (g a)) l -> mapM f l = Ok (map g l).
Proof.
  induction 1 as [|a t Ha _ IH]; simpl; [reflexivity|].
  rewrite Ha, IH. reflexivity.
Qed.

Lemma mapM_length {A B : Type} (f : A -> result B) (l : list A) (out : list B) :
  mapM f l = Ok out -> length out = length l.
Proof.
  revert out. induction l as [|a t IH]; simpl; intros out H.
  - injection H as <-. reflexivity.
  - destruct (f a); [|discriminate]. simpl in H.
    destruct (mapM f t); [|discriminate]. simpl in H.
    injection H as <-. simpl. f_equal. now apply IH.
Qed.

Lemma combine_map_r {A B : Type} (g : A -> B) (l : list A) :
  combine l (map g l) = map (fun a => (a, g a)) l.
Proof. induction l; simpl; congruence. Qed.

Lemma col_index_lt (col : string) (cols : list string) (i : nat) :
  col_index col cols = Some i -> i < length cols.
Proof.
  revert i. induction cols as [|c t IH]; simpl; intros i H; [discriminate|].
  destruct (String.eqb c col).
  - injection H as <-. lia.
  - destruct (col_index col t); [|discriminate].
    injection H as <-. specialize (IH _ eq_refl). lia.
Qed.

Lemma col_index_none (col : string) (cols : list string) :
  col_index col cols = None -> ~ In col cols.
Proof.
  induction cols as [|c t IH]; simpl; intros H; [tauto|].
  destruct (String.eqb c col) eqn:E; [discriminate|].
  destruct (col_index col t); [discriminate|].
  apply String.eqb_neq in E. intros [Hc|Hc]; [congruence|]. now apply IH.
Qed.

Lemma name_in_In (name : string) (names : list string) :
  name_in name names = true <-> In name names.
Proof.
  unfold name_in. rewrite existsb_exists. split.
  - intros (x & Hx & E). apply String.eqb_eq in E. now subst.
  - intros H. exists name. split; [assumption|apply String.eqb_refl].
Qed.

(* ----------------------------------------------------------------- *)
(** ** Contract multiplier *)

Lemma scaled_row_cons (l : list string) (c : string) (cols : list string)
      (m : Z) (x : cell) (r : row) :
  scaled_row l (c :: cols) m (x :: r) =
  (if name_in c l then scaled_cell m x else x) :: scaled_row l cols m r.
Proof. reflexivity. Qed.

Lemma scaled_row_length (l cols : list string) (m : Z) (r : row) :
  length r = length cols -> length (scaled_row l cols m r) = length cols.
Proof.
  intros H. unfold scaled_row. rewrite length_map, length_combine. lia.
Qed.

Lemma scaled_row_absent (l cols : list string) (m : Z) (r : row) :
  (forall c, In c cols -> name_in c l = false) ->
  length r = length cols ->
  scaled_row l cols m r = r.
Proof.
  revert r. induction cols as [|c t IH]; intros [|x r] Habs Hlen;
    try discriminate; [reflexivity|].
  rewrite scaled_row_cons, Habs by (now left).
  f_equal. apply IH; [|simpl in Hlen; lia].
  intros c' Hc'. apply Habs. now right.
Qed.

Lemma scaled_row_compose (a : string) (l cols : list string) (m : Z) (r : row) :
  ~ In a l ->
  scaled_row l cols m (scaled_row [a] cols m r) = scaled_row (a :: l) cols m r.
Proof.
  intros Ha. revert r. induction cols as [|c t IH]; intros [|x r]; try reflexivity.
  rewrite !scaled_row_cons, IH. f_equal.
  unfold name_in at 2 3. simpl. rewrite orb_false_r.
  destruct (String.eqb c a) eqn:E; simpl.
  - apply String.eqb_eq in E. subst c.
    destruct (name_in a l) eqn:El; [|reflexivity].
    apply name_in_In in El. contradiction.
  - reflexivity.
Qed.

Lemma set_nth_scaled (cols : list string) (r : row) (i : nat) (col : string) (m : Z) :
  NoDup cols -> length r = length cols -> col_index col cols = Some i ->
  set_nth i (scaled_cell m (nth i r CNull)) r = scaled_row [col] cols m r.
Proof.
  revert r i. induction cols as [|c t IH]; intros [|x r] i Hnd Hlen Hi;
    try discriminate.
  simpl in Hi. rewrite scaled_row_cons. inversion Hnd as [|? ? Hnotin Hnd']; subst.
  unfold name_in. simpl. rewrite orb_false_r.
  destruct (String.eqb c col) eqn:E.
  - injection Hi as <-. simpl. f_equal. symmetry.
    apply String.eqb_eq in E. subst c.
    apply scaled_row_absent; [|simpl in Hlen; lia].
    intros c' Hc'. unfold name_in. simpl. rewrite orb_false_r.
    apply String.eqb_neq. intros ->. contradiction.
  - destruct (col_index col t) as [j|] eqn:Ej; [|discriminate].
    injection Hi as <-. simpl. f_equal.
    apply IH; [assumption|simpl in Hlen; lia|reflexivity].
Qed.

Lemma col_index_combine (cols : list string) (r : row) (i : nat) (col : string) :
  length r = length cols -> col_index col cols = Some i ->
  In (col, nth i r CNull) (combine cols r).
Proof.
  revert r i. induction cols as [|c t IH]; intros [|x r] i Hlen Hi; try discriminate.
  simpl in Hi. destruct (String.eqb c col) eqn:E.
  - injection Hi as <-. apply String.eqb_eq in E. subst. now left.
  - destruct (col_index col t) as [j|]; [|discriminate].
    injection Hi as Hi. subst i. simpl. right.
    apply IH; [simpl in Hlen; lia|reflexivity].
Qed.

Lemma mul_cell_money (col : string) (m : Z) (c : cell) :
  money_cell c -> mul_cell col m c = Ok (scaled_cell m c).
Proof. destruct c; simpl; intros H; try contradiction; reflexivity. Qed.

Lemma scaled_cell_money (m : Z) (c : cell) : money_cell c -> money_cell (scaled_cell m c).
Proof. destruct c; simpl; trivial. Qed.

Lemma scaled_row_money (l cols : list string) (m : Z) (r : row) :
  Forall (fun cx => name_in (fst cx) monetary_columns = true -> money_cell (snd cx))
         (combine cols r) ->
  Forall (fun cx => name_in (fst cx) monetary_columns = true -> money_cell (snd cx))
         (combine cols (scaled_row l cols m r)).
Proof.
  revert r. induction cols as [|c t IH]; intros [|x r] H; try constructor.
  - simpl in H. inversion H as [|? ? Hx Ht]; subst. simpl in *.
    intros Hc. destruct (name_in c l); [apply scaled_cell_money|]; auto.
  - simpl in H. inversion H; subst. now apply IH.
Qed.

Lemma scale_column_ok (m : Z) (df : DataFrame) (col : string) :
  frame_ok df -> money_frame df -> name_in col monetary_columns = true ->
  scale_column m df col =
  Ok (mkDataFrame (columns df) (map (scaled_row [col] (columns df) m) (rows df))).
Proof.
  intros [Hnd Hlen] Hmoney Hcol. unfold scale_column, has_column, get_column.
  destruct (col_index col (columns df)) as [i|] eqn:Ei.
  - cbn [bind].
    rewrite (mapM_map _ (scaled_cell m)).
    + cbn [bind]. unfold set_column. rewrite Ei. do 2 f_equal.
      rewrite map_map, combine_map_r, map_map. cbn [fst snd].
      apply map_ext_in. intros r Hr.
      rewrite Forall_forall in Hlen.
      apply set_nth_scaled; auto.
    + rewrite Forall_map, Forall_forall. intros r Hr.
      apply mul_cell_money.
      unfold money_frame in Hmoney. rewrite Forall_forall in Hmoney, Hlen.
      specialize (Hmoney r Hr). rewrite Forall_forall in Hmoney.
      apply (Hmoney (col, nth i r CNull)); [|exact Hcol].
      apply col_index_combine; auto.
  - destruct df as [cols rs]. simpl in *. do 2 f_equal.
    rewrite <- (map_id rs) at 1. apply map_ext_in. intros r Hr.
    rewrite Forall_forall in Hlen. symmetry.
    apply scaled_row_absent; [|auto].
    intros c Hc. unfold name_in. simpl. rewrite orb_false_r.
    apply String.eqb_neq. intros ->.
    apply col_index_none in Ei. contradiction.
Qed.

Lemma scaled_frame_ok (l : list string) (m : Z) (df : DataFrame) :
  frame_ok df ->
  frame_ok (mkDataFrame (columns df) (map (scaled_row l (columns df) m) (rows df))).
Proof.
  intros [Hnd Hlen]. split; [exact Hnd|]. simpl.
  rewrite Forall_map. rewrite Forall_forall in *. intros r Hr.
  apply scaled_row_length. auto.
Qed.

Lemma scaled_money_frame (l : list string) (m : Z) (df : DataFrame) :
  money_frame df ->
  money_frame (mkDataFrame (columns df) (map (scaled_row l (columns df) m) (rows df))).
Proof.
  unfold money_frame. simpl. intros H.
  rewrite Forall_map. rewrite Forall_forall in *. intros r Hr.
  apply scaled_row_money. auto.
Qed.

Lemma foldM_scale_columns (m : Z) (l : list string) :
  NoDup l ->
  (forall c, In c l -> name_in c monetary_columns = true) ->
  forall df, frame_ok df -> money_frame df ->
  foldM (scale_column m) l df =
  Ok (mkDataFrame (columns df) (map (scaled_row l (columns df) m) (rows df))).
Proof.
  induction l as [|a l IH]; intros Hnd Hin df Hok Hmoney.
  - simpl. destruct df as [cols rs]. simpl. do 2 f_equal.
    rewrite <- (map_id rs) at 1. apply map_ext_in. intros r Hr.
    destruct Hok as [_ Hlen]. simpl in Hlen. rewrite Forall_forall in Hlen.
    symmetry. apply scaled_row_absent; auto.
  - inversion Hnd as [|? ? Ha Hnd']; subst.
    cbn [foldM]. rewrite scale_column_ok by (auto; apply Hin; now left).
    cbn [bind]. rewrite IH; auto.
    + simpl. do 2 f_equal. rewrite map_map. apply map_ext.
      intros r. now apply scaled_row_compose.
    + intros c Hc. apply Hin. now right.
    + now apply scaled_frame_ok.
    + now apply scaled_money_frame.
Qed.

Lemma monetary_columns_NoDup : NoDup monetary_columns.
Proof.
  unfold monetary_columns.
  repeat (constructor; [simpl; intros H; repeat (destruct H as [H|H]; [discriminate|]); exact H|]).
  constructor.
Qed.


(** C6: with the multiplier 1, or on a frame without rows, the contract
    multiplier returns the frame it was given; with any other multiplier, on
    a well-formed frame with rows in which the cells of the columns Profit,
    MAE, MFE, ETD, Commission, Clearing Fee, Exchange Fee, IP Fee and NFA
    Fee are numbers or nulls, it returns the frame in which every number of
    these nine columns is multiplied by the multiplier and every other cell
    is kept. *)
Theorem apply_contract_multiplier_spec (df : DataFrame) (multiplier : Z) :
  (multiplier = 1%Z \/ len df = 0 -> apply_contract_multiplier df multiplier = Ok df) /\
  (multiplier <> 1%Z -> len df <> 0 -> frame_ok df ->
   money_in ["Profit"; "MAE"; "MFE"; "ETD"; "Commission";
             "Clearing Fee"; "Exchange Fee"; "IP Fee"; "NFA Fee"] df ->
   apply_contract_multiplier df multiplier =
   Ok (mkDataFrame (columns df)
         (map (scaled_row ["Profit"; "MAE"; "MFE"; "ETD"; "Commission";
                           "Clearing Fee"; "Exchange Fee"; "IP Fee"; "NFA Fee"]
                          (columns df) multiplier)
              (rows df)))).
Proof.
  unfold apply_contract_multiplier. split.
  - intros [-> | ->]; [reflexivity|]. now rewrite orb_true_r.
  - intros Hm Hl Hok Hmoney.
    apply Z.eqb_neq in Hm. apply Nat.eqb_neq in Hl. rewrite Hm, Hl. cbn [orb].
    apply (foldM_scale_columns multiplier monetary_columns);
      auto using monetary_columns_NoDup.
    intros c Hc. now apply name_in_In.
Qed.

Lemma apply_contract_multiplier_spec_witness :
  apply_contract_multiplier sample_trades 1 = Ok sample_trades /\
  apply_contract_multiplier sample_trades 3 = Ok sample_scaled.
Proof.
  split.
  - apply (proj1 (apply_contract_multiplier_spec sample_trades 1)).
    left. reflexivity.
  - refine (proj2 (apply_contract_multiplier_spec sample_trades 3) _ _ _ _).
    + discriminate.
    + discriminate.
    + split.
      * repeat (constructor;
                [simpl; intros H; repeat (destruct H as [H|H]; [discriminate|]); exact H|]).
        constructor.
      * repeat constructor.
    + repeat constructor; simpl; trivial; discriminate.
Defined.

(* ----------------------------------------------------------------- *)
(** ** Sorting *)

Section Sorting.

Context {A : Type} (leb : A -> A -> bool).

Lemma insert_sorted_perm (x : A) (l : list A) :
  Permutation (insert_sorted leb x l) (x :: l).
Proof.
  induction l as [|y t IH]; simpl; [reflexivity|].
  destruct (leb x y); [reflexivity|].
  rewrite IH. apply perm_swap.
Qed.

Lemma stable_sort_perm (l : list A) : Permutation (stable_sort leb l) l.
Proof.
  induction l as [|x t IH]; simpl; [reflexivity|].
  rewrite insert_sorted_perm. now constructor.
Qed.

Lemma stable_sort_length (l : list A) : length (stable_sort leb l) = length l.
Proof. apply Permutation_length, stable_sort_perm. Qed.

(** The order needs to be total and transitive only on the values that are
    sorted, those with the property [P]. *)
Variable P : A -> Prop.
Hypothesis leb_total : forall a b, P a -> P b -> leb a b = true \/ leb b a = true.
Hypothesis leb_trans :
  forall a b c, P a -> P b -> P c -> leb a b = true -> leb b c = true -> leb a c = true.

Lemma insert_sorted_sorted (x : A) (l : list A) :
  P x -> Forall P l ->
  StronglySorted (fun a b => leb a b = true) l ->
  StronglySorted (fun a b => leb a b = true) (insert_sorted leb x l).
Proof.
  intros Px Pl. induction 1 as [|y t Hs IH Hy]; simpl.
  - repeat constructor.
  - inversion Pl as [|? ? Py Pt]; subst.
    destruct (leb x y) eqn:E.
    + constructor; [now constructor|].
      constructor; [exact E|].
      rewrite Forall_forall in *. intros z Hz. eapply (leb_trans x y z); eauto.
    + constructor; [now apply IH|].
      rewrite Forall_forall in *. intros z Hz.
      apply (Permutation_in _ (insert_sorted_perm x t)) in Hz.
      destruct Hz as [<-|Hz]; [|auto].
      destruct (leb_total x y Px Py) as [H|H]; [congruence|exact H].
Qed.

Lemma stable_sort_sorted (l : list A) :
  Forall P l -> StronglySorted (fun a b => leb a b = true) (stable_sort leb l).
Proof.
  induction 1 as [|x t Px Pt IH]; simpl; [constructor|].
  apply insert_sorted_sorted; [exact Px| |exact IH].
  rewrite Forall_forall in *. intros y Hy. apply Pt.
  now apply (Permutation_in _ (stable_sort_perm t)).
Qed.

End Sorting.

(** A list that is already in order is left as it is. *)
Lemma stable_sort_id {A : Type} (leb : A -> A -> bool) (l : list A) :
  StronglySorted (fun a b => leb a b = true) l -> stable_sort leb l = l.
Proof.
  induction 1 as [|x t Hs IH Hx]; simpl; [reflexivity|].
  rewrite IH. destruct t as [|y t']; [reflexivity|].
  simpl. inversion Hx as [|? ? Hxy _]; subst. now rewrite Hxy.
Qed.

(* ----------------------------------------------------------------- *)
(** ** Busy intervals and flat periods *)

Lemma merge_loop_head (rest : list (Z * Z)) (cs ce : Z) :
  exists ce' tl, merge_loop cs ce rest = (cs, ce') :: tl /\ (ce <= ce')%Z.
Proof.
  revert cs ce. induction rest as [|[ns ne] rest IH]; intros cs ce; simpl.
  - exists ce, []. split; [reflexivity|lia].
  - destruct (ns <? ce)%Z.
    + destruct (IH cs (Z.max ce ne)) as (ce' & tl & -> & Hle).
      exists ce', tl. split; [reflexivity|lia].
    + exists ce, (merge_loop ns ne rest). split; [reflexivity|lia].
Qed.

(** Consecutive busy intervals do not overlap: no flat period is negative. *)
Lemma merge_loop_gaps (rest : list (Z * Z)) (cs ce : Z) :
  Forall (fun gap => (0 <= gap)%Z) (flat_gaps (merge_loop cs ce rest)).
Proof.
  revert cs ce. induction rest as [|[ns ne] rest IH]; intros cs ce; simpl.
  - constructor.
  - destruct (ns <? ce)%Z eqn:E; [apply IH|].
    specialize (IH ns ne).
    destruct (merge_loop_head rest ns ne) as (ce' & tl & Heq & _).
    rewrite Heq in *. constructor; [|exact IH].
    apply Z.ltb_ge in E. lia.
Qed.

(** Every interval read by the merge lies inside one of the busy
    intervals, when the intervals come in the order of their starts. *)
Lemma merge_loop_covers (rest : list (Z * Z)) (cs ce : Z) :
  Forall (fun i => (cs <= fst i)%Z) rest ->
  StronglySorted (fun a b => (fst a <=? fst b)%Z = true) rest ->
  forall s e, In (s, e) ((cs, ce) :: rest) ->
  exists bs be, In (bs, be) (merge_loop cs ce rest) /\ (bs <= s)%Z /\ (e <= be)%Z.
Proof.
  revert cs ce. induction rest as [|[ns ne] rest IH]; intros cs ce Hcs Hs s e Hin.
  - destruct Hin as [[= <- <-]|[]]. exists cs, ce. simpl. split; [now left|lia].
  - inversion Hcs as [|? ? Hns Hcs']; subst. simpl in Hns.
    inversion Hs as [|? ? Hs' Hall]; subst.
    simpl. destruct (ns <? ce)%Z eqn:E.
    + assert (Hin' : In (s, e) ((cs, Z.max ce ne) :: rest) \/
                     ((cs <= s)%Z /\ (e <= Z.max ce ne)%Z)).
      { destruct Hin as [[= <- <-]|[[= <- <-]|Hin]].
        - right. lia.
        - right. lia.
        - left. now right. }
      destruct Hin' as [Hin'|[H1 H2]].
      * apply (IH cs (Z.max ce ne)); assumption.
      * destruct (merge_loop_head rest cs (Z.max ce ne)) as (ce' & tl & Heq & Hle).
        exists cs, ce'. rewrite Heq. split; [now left|lia].
    + destruct Hin as [[= <- <-]|Hin].
      * exists cs, ce. split; [now left|lia].
      * assert (Hall' : Forall (fun i => (ns <= fst i)%Z) rest).
        { rewrite Forall_forall in *. intros i Hi.
          specialize (Hall i Hi). simpl in Hall. now apply Z.leb_le. }
        destruct (IH ns ne Hall' Hs' s e Hin) as (bs & be & Hb & H1 & H2).
        exists bs, be. split; [now right|lia].
Qed.

Lemma sort_intervals_sorted (intervals : list (Z * Z)) :
  StronglySorted (fun a b => (fst a <=? fst b)%Z = true) (sort_intervals intervals).
Proof.
  apply (stable_sort_sorted _ (fun _ => True)).
  - intros a b _ _. rewrite !Z.leb_le. lia.
  - intros a b c _ _ _. rewrite !Z.leb_le. lia.
  - rewrite Forall_forall. trivial.
Qed.

Lemma busy_intervals_covers (intervals : list (Z * Z)) (s e : Z) :
  In (s, e) intervals ->
  exists bs be, In (bs, be) (busy_intervals intervals) /\ (bs <= s)%Z /\ (e <= be)%Z.
Proof.
  intros Hin.
  assert (Hperm : Permutation intervals (sort_intervals intervals))
    by (symmetry; apply stable_sort_perm).
  apply (Permutation_in _ Hperm) in Hin.
  pose proof (sort_intervals_sorted intervals) as Hs.
  unfold busy_intervals, merge_intervals.
  destruct (sort_intervals intervals) as [|[cs ce] rest]; [contradiction|].
  inversion Hs as [|? ? Hs' Hall]; subst.
  apply merge_loop_covers; [|assumption|assumption].
  rewrite Forall_forall in *. intros i Hi.
  specialize (Hall i Hi). simpl in Hall. now apply Z.leb_le.
Qed.

Lemma flat_periods_nonneg (intervals : list (Z * Z)) :
  Forall (fun gap => (0 <= gap)%Z) (flat_periods_of intervals).
Proof.
  unfold flat_periods_of, busy_intervals, merge_intervals.
  destruct (sort_intervals intervals) as [|[cs ce] rest]; [constructor|].
  apply merge_loop_gaps.
Qed.

(** Two intervals of which the second starts at or after the end of the
    first are both kept, in the order of their starts, whatever the order in
    which they are given. *)
Lemma busy_intervals_two (e1 x1 e2 x2 : Z) (intervals : list (Z * Z)) :
  (e1 <= x1)%Z -> (x1 <= e2)%Z -> (e1 < e2)%Z ->
  intervals = [(e1, x1); (e2, x2)] \/ intervals = [(e2, x2); (e1, x1)] ->
  busy_intervals intervals = [(e1, x1); (e2, x2)].
Proof.
  intros H1 H2 H3 [-> | ->]; unfold busy_intervals, sort_intervals; simpl.
  - replace (e1 <=? e2)%Z with true by (symmetry; apply Z.leb_le; lia).
    simpl. replace (e2 <? x1)%Z with false by (symmetry; apply Z.ltb_ge; lia).
    reflexivity.
  - replace (e2 <=? e1)%Z with false by (symmetry; apply Z.leb_gt; lia).
    simpl. replace (e2 <? x1)%Z with false by (symmetry; apply Z.ltb_ge; lia).
    reflexivity.
Qed.

Lemma get_column_length (df : DataFrame) (col : string) (cells : list cell) :
  get_column df col = Ok cells -> length cells = len df.
Proof.
  unfold get_column. destruct (col_index col (columns df)); [|discriminate].
  intros [= <-]. apply length_map.
Qed.

Lemma times_length (df : DataFrame) (col : string) (l : list Z) :
  times df col = Ok l -> length l = len df.
Proof.
  unfold times. destruct (get_column df col) as [cells|] eqn:E; [|discriminate].
  cbn [bind]. intros H. apply mapM_length in H.
  apply get_column_length in E. congruence.
Qed.

Lemma numbers_length (df : DataFrame) (col : string) (l : list Q) :
  numbers df col = Ok l -> length l = len df.
Proof.
  unfold numbers. destruct (get_column df col) as [cells|] eqn:E; [|discriminate].
  cbn [bind]. intros H. apply mapM_length in H.
  apply get_column_length in E. congruence.
Qed.

Lemma flat_gaps_length (merged : list (Z * Z)) :
  length (flat_gaps merged) = length merged - 1.
Proof.
  induction merged as [|[s e] rest IH]; [reflexivity|].
  destruct rest as [|[s' e'] rest']; [reflexivity|].
  change (flat_gaps ((s, e) :: (s', e') :: rest'))
    with ((s' - e)%Z :: flat_gaps ((s', e') :: rest')).
  simpl length in *. lia.
Qed.

Lemma flat_gaps_nth (merged : list (Z * Z)) (i : nat) :
  S i < length merged ->
  nth i (flat_gaps merged) 0%Z =
  (fst (nth (S i) merged (0, 0)) - snd (nth i merged (0, 0)))%Z.
Proof.
  revert i. induction merged as [|[s e] rest IH]; intros i Hi; [simpl in Hi; lia|].
  destruct rest as [|[s' e'] rest']; [simpl in Hi; lia|].
  change (flat_gaps ((s, e) :: (s', e') :: rest'))
    with ((s' - e)%Z :: flat_gaps ((s', e') :: rest')).
  destruct i as [|i]; [reflexivity|].
  change (nth (S i) ((s' - e)%Z :: flat_gaps ((s', e') :: rest')) 0%Z)
    with (nth i (flat_gaps ((s', e') :: rest')) 0%Z).
  rewrite IH by (simpl in *; lia). reflexivity.
Qed.

(** C1, as amended: the busy intervals are built from the intervals sorted
    by start by extending the current interval whenever the next one starts
    strictly before its end, an interval that starts at or after that end
    opening a new busy interval; so two intervals that touch stay apart.
    Every given interval lies inside a busy interval, the flat periods are
    the differences between the start of a busy interval and the end of the
    one before it, and none is negative.  For two trades, the second entered
    exactly two days after the exit of the first, the maximum flat period is
    exactly two days. *)
Theorem flat_periods_spec :
  (forall cs ce ns ne rest,
      merge_loop cs ce ((ns, ne) :: rest) =
      if (ns <? ce)%Z then merge_loop cs (Z.max ce ne) rest
      else (cs, ce) :: merge_loop ns ne rest) /\
  (forall a b c, (a <= b)%Z -> busy_intervals [(a, b); (b, c)] = [(a, b); (b, c)]) /\
  (forall intervals s e,
      In (s, e) intervals ->
      exists bs be, In (bs, be) (busy_intervals intervals) /\ (bs <= s)%Z /\ (e <= be)%Z) /\
  (forall intervals,
      length (flat_periods_of intervals) = length (busy_intervals intervals) - 1 /\
      Forall (fun gap => (0 <= gap)%Z) (flat_periods_of intervals) /\
      forall i, S i < length (busy_intervals intervals) ->
                nth i (flat_periods_of intervals) 0%Z =
                (fst (nth (S i) (busy_intervals intervals) (0, 0)) -
                 snd (nth i (busy_intervals intervals) (0, 0)))%Z) /\
  (forall df equity_curve entry exit e1 x1 e2 x2,
      times df "Entry time" = Ok entry ->
      times df "Exit time" = Ok exit ->
      (entry = [e1; e2] /\ exit = [x1; x2]) \/ (entry = [e2; e1] /\ exit = [x2; x1]) ->
      length equity_curve = 2 ->
      (e1 <= x1)%Z ->
      e2 = (x1 + 2 * one_day)%Z ->
      exists max_time_to_recover avg_flat_period pct_time_in_market,
        calculate_recovery_and_flat_periods df equity_curve =
        Ok (max_time_to_recover, (2 * one_day)%Z, avg_flat_period, pct_time_in_market)).
Proof.
  split; [reflexivity|]. split; [|split; [|split]].
  - intros a b c Hab. unfold busy_intervals, sort_intervals. simpl.
    replace (a <=? b)%Z with true by (symmetry; now apply Z.leb_le).
    simpl. now rewrite Z.ltb_irrefl.
  - apply busy_intervals_covers.
  - intros intervals. split; [apply flat_gaps_length|].
    split; [apply flat_periods_nonneg|].
    intros i Hi. now apply flat_gaps_nth.
  - intros df equity_curve entry exit e1 x1 e2 x2 Hentry Hexit Horder Hlen H1 H2.
    assert (Hday : (0 < one_day)%Z) by reflexivity.
    assert (Hdf : len df = 2).
    { apply times_length in Hentry. destruct Horder as [[-> _]|[-> _]]; now rewrite <- Hentry. }
    assert (Hexit2 : length exit = 2) by (destruct Horder as [[_ ->]|[_ ->]]; reflexivity).
    unfold calculate_recovery_and_flat_periods.
    rewrite Hdf, Hlen, Hentry, Hexit. cbn [Nat.eqb orb bind]. rewrite Hexit2.
    cbn [Nat.eqb negb].
    do 3 eexists. do 4 f_equal.
    unfold flat_periods_of.
    assert (Hbusy : busy_intervals (combine entry exit) = [(e1, x1); (e2, x2)]).
    { apply busy_intervals_two; try lia.
      destruct Horder as [[-> ->]|[-> ->]]; [now left|now right]. }
    rewrite Hbusy. cbn [flat_gaps max_flat_period_of Zmaximum fold_left]. subst e2. lia.
Qed.

Lemma flat_periods_spec_witness :
  exists max_time_to_recover avg_flat_period pct_time_in_market,
    calculate_recovery_and_flat_periods sample_trades [100; 80]%Q =
    Ok (max_time_to_recover, (2 * one_day)%Z, avg_flat_period, pct_time_in_market).
Proof.
  apply (proj2 (proj2 (proj2 (proj2 flat_periods_spec)))
           sample_trades [100; 80]%Q
           [(4 * one_day)%Z; (6 * one_day + 3600000000000)%Z]
           [(4 * one_day + 3600000000000)%Z; (6 * one_day + 7200000000000)%Z]
           (4 * one_day)%Z (4 * one_day + 3600000000000)%Z
           (6 * one_day + 3600000000000)%Z (6 * one_day + 7200000000000)%Z).
  - reflexivity.
  - reflexivity.
  - left. split; reflexivity.
  - reflexivity.
  - vm_compute. discriminate.
  - reflexivity.
Defined.

(** An interval that starts exactly at the end of the current one is not
    merged into it, where the merge worded with "before or at" merges the
    two: the busy intervals differ, and so does the mean flat period. *)
Lemma touching_intervals_counterexample :
  busy_intervals touching_intervals = [(0, 10); (10, 20); (50, 60)]%Z /\
  spec_busy_intervals touching_intervals = [(0, 20); (50, 60)]%Z /\
  busy_intervals touching_intervals <> spec_busy_intervals touching_intervals /\
  avg_flat_period_of (flat_periods_of touching_intervals) = (30 # 2)%Q /\
  avg_flat_period_of (flat_gaps (spec_busy_intervals touching_intervals)) = (30 # 1)%Q.
Proof.
  repeat split; try reflexivity. vm_compute. discriminate.
Qed.

(* ----------------------------------------------------------------- *)
(** ** The statistics report *)

Lemma times_has_column (df : DataFrame) (col : string) (l : list Z) :
  times df col = Ok l -> has_column df col = true.
Proof.
  unfold times, get_column, has_column.
  destruct (col_index col (columns df)); [reflexivity|discriminate].
Qed.

Lemma Qsum_guard (l : list Q) : (if 0 <? length l then Qsum l else 0%Q) = Qsum l.
Proof. destruct l; reflexivity. Qed.

Lemma cumsum_from_length (l : list Q) (acc : Q) : length (cumsum_from acc l) = length l.
Proof. revert acc. induction l; intros acc; simpl; auto. Qed.

Lemma cumsum_length (l : list Q) : length (cumsum l) = length l.
Proof. destruct l; simpl; [reflexivity|]. now rewrite cumsum_from_length. Qed.

Lemma calculate_recovery_and_flat_periods_ok
      (df : DataFrame) (equity_curve : list Q) (entry exit : list Z) :
  len df <> 0 ->
  length equity_curve = len df ->
  times df "Entry time" = Ok entry ->
  times df "Exit time" = Ok exit ->
  calculate_recovery_and_flat_periods df equity_curve =
  Ok (max_time_to_recover_of (combine exit equity_curve),
      max_flat_period_of (flat_periods_of (combine entry exit)),
      avg_flat_period_of (flat_periods_of (combine entry exit)),
      pct_time_in_market_of entry exit).
Proof.
  intros Hdf Hlen Hentry Hexit. unfold calculate_recovery_and_flat_periods.
  rewrite Hlen. apply Nat.eqb_neq in Hdf. rewrite Hdf. cbn [orb].
  rewrite Hentry, Hexit. cbn [bind].
  apply times_length in Hexit. rewrite Hexit, Nat.eqb_refl. reflexivity.
Qed.

Section Report.

Variable np_sqrt : Q -> Q.

Lemma calculate_comprehensive_stats_ok
      (df : DataFrame) (instrument_name : string) (profits : list Q) (entry exit : list Z) :
  len df <> 0 ->
  numbers df "Profit" = Ok profits ->
  times df "Entry time" = Ok entry ->
  times df "Exit time" = Ok exit ->
  bars_readable df ->
  exists stats,
    calculate_comprehensive_stats np_sqrt df instrument_name =
    Ok (stats, cumsum profits,
        series_sub (cumsum profits) (expanding_max (cumsum profits))) /\
    report_get "Gross Profit" stats = Some (VNum (Qsum (winners profits))) /\
    report_get "Gross Loss" stats = Some (VNum (Qsum (losers profits))) /\
    report_get "Profit Factor" stats =
    Some (VNum (reported_factor
                  (profit_factor_of (Qsum (winners profits)) (Qsum (losers profits))))).
Proof.
  intros Hdf Hprofits Hentry Hexit Hbars.
  unfold calculate_comprehensive_stats.
  pose proof Hdf as Hdf'. apply Nat.eqb_neq in Hdf'. rewrite Hdf'.
  rewrite Hprofits. cbn [bind]. cbv zeta.
  rewrite (times_has_column _ _ _ Hentry), (times_has_column _ _ _ Hexit).
  cbn [andb]. rewrite Hentry, Hexit. cbn [bind].
  rewrite (calculate_recovery_and_flat_periods_ok df (cumsum profits) entry exit);
    auto; [|rewrite cumsum_length; eapply numbers_length; eassumption].
  rewrite !Qsum_guard.
  destruct Hbars as [Hb|[avg_bars Hb]];
    [rewrite Hb|rewrite Hb; destruct (has_column df "Bars")];
    cbn [bind]; eexists; (split; [reflexivity|]); repeat split; reflexivity.
Qed.

End Report.

(* ----------------------------------------------------------------- *)
(** ** Equity curve and drawdown *)

Lemma fold_left_Qplus (l : list Q) (a : Q) : (fold_left Qplus l a == a + Qsum l)%Q.
Proof.
  unfold Qsum. revert a. induction l as [|x t IH]; intros a; simpl.
  - lra.
  - rewrite IH, (IH (0 + x)%Q). lra.
Qed.

Lemma Qsum_cons (x : Q) (l : list Q) : (Qsum (x :: l) == x + Qsum l)%Q.
Proof. unfold Qsum at 1. simpl. rewrite fold_left_Qplus. lra. Qed.

Lemma cumsum_from_nth (l : list Q) (acc : Q) (i : nat) :
  i < length l ->
  (nth i (cumsum_from acc l) 0 == acc + Qsum (firstn (S i) l))%Q.
Proof.
  revert acc i. induction l as [|x t IH]; intros acc i Hi; [simpl in Hi; lia|].
  destruct i as [|i].
  - simpl. unfold Qsum. simpl. lra.
  - change (nth (S i) (cumsum_from acc (x :: t)) 0%Q)
      with (nth i (cumsum_from (acc + x) t) 0%Q).
    rewrite IH by (simpl in Hi; lia).
    change (firstn (S (S i)) (x :: t)) with (x :: firstn (S i) t).
    rewrite Qsum_cons. lra.
Qed.

Lemma cumsum_nth (l : list Q) (i : nat) :
  i < length l -> (nth i (cumsum l) 0 == Qsum (firstn (S i) l))%Q.
Proof.
  destruct l as [|x t]; intros Hi; [simpl in Hi; lia|].
  destruct i as [|i].
  - simpl. unfold Qsum. simpl. lra.
  - change (nth (S i) (cumsum (x :: t)) 0%Q) with (nth i (cumsum_from x t) 0%Q).
    rewrite cumsum_from_nth by (simpl in Hi; lia).
    change (firstn (S (S i)) (x :: t)) with (x :: firstn (S i) t).
    rewrite Qsum_cons. lra.
Qed.

Lemma expanding_max_from_length (l : list Q) (m : Q) :
  length (expanding_max_from m l) = length l.
Proof. revert m. induction l; intros m; simpl; auto. Qed.

Lemma expanding_max_length (l : list Q) : length (expanding_max l) = length l.
Proof. destruct l; simpl; [reflexivity|]. now rewrite expanding_max_from_length. Qed.

(** The running maximum after [i + 1] more values, starting from [m], is
    above [m] and above each of these values, and is [m] or one of them. *)
Lemma expanding_max_from_nth (l : list Q) (m : Q) (i : nat) :
  i < length l ->
  (m <= nth i (expanding_max_from m l) 0)%Q /\
  (forall j, j <= i -> (nth j l 0 <= nth i (expanding_max_from m l) 0)%Q) /\
  ((nth i (expanding_max_from m l) 0 == m)%Q \/
   exists j, j <= i /\ (nth i (expanding_max_from m l) 0 == nth j l 0)%Q).
Proof.
  revert m i. induction l as [|x t IH]; intros m i Hi; [simpl in Hi; lia|].
  destruct i as [|i].
  - simpl. split; [apply Q.le_max_l|]. split.
    + intros j Hj. replace j with 0 by lia. apply Q.le_max_r.
    + destruct (Q.max_spec m x) as [[_ H]|[_ H]].
      * right. exists 0. split; [lia|exact H].
      * left. exact H.
  - change (nth (S i) (expanding_max_from m (x :: t)) 0%Q)
      with (nth i (expanding_max_from (Qmax m x) t) 0%Q).
    destruct (IH (Qmax m x) i) as (H1 & H2 & H3); [simpl in Hi; lia|].
    split; [eapply Qle_trans; [apply Q.le_max_l|exact H1]|]. split.
    + intros [|j] Hj.
      * simpl. eapply Qle_trans; [apply Q.le_max_r|exact H1].
      * simpl. apply H2. lia.
    + destruct H3 as [H3|(j & Hj & H3)].
      * destruct (Q.max_spec m x) as [[_ H]|[_ H]].
        -- right. exists 0. split; [lia|]. simpl. now rewrite H3.
        -- left. now rewrite H3.
      * right. exists (S j). split; [lia|exact H3].
Qed.

(** The running maximum of a series at [i] is above the values up to [i]
    and is one of them. *)
Lemma expanding_max_nth (l : list Q) (i : nat) :
  i < length l ->
  (forall j, j <= i -> (nth j l 0 <= nth i (expanding_max l) 0)%Q) /\
  exists j, j <= i /\ (nth i (expanding_max l) 0 == nth j l 0)%Q.
Proof.
  destruct l as [|x t]; intros Hi; [simpl in Hi; lia|].
  destruct i as [|i].
  - simpl. split.
    + intros j Hj. replace j with 0 by lia. apply Qle_refl.
    + exists 0. split; [lia|reflexivity].
  - change (nth (S i) (expanding_max (x :: t)) 0%Q)
      with (nth i (expanding_max_from x t) 0%Q).
    destruct (expanding_max_from_nth t x i) as (H1 & H2 & H3); [simpl in Hi; lia|].
    split.
    + intros [|j] Hj; [exact H1|]. simpl. apply H2. lia.
    + destruct H3 as [H3|(j & Hj & H3)].
      * exists 0. split; [lia|exact H3].
      * exists (S j). split; [lia|exact H3].
Qed.

Lemma series_sub_length (a b : list Q) :
  length a = length b -> length (series_sub a b) = length a.
Proof.
  intros H. unfold series_sub. rewrite length_map, length_combine. lia.
Qed.

Lemma series_sub_nth (a b : list Q) (i : nat) :
  length a = length b -> i < length a ->
  (nth i (series_sub a b) 0 == nth i a 0 - nth i b 0)%Q.
Proof.
  revert b i. induction a as [|x a IH]; intros [|y b] i Hlen Hi;
    simpl in *; try lia.
  destruct i as [|i]; [reflexivity|].
  apply IH; lia.
Qed.

Section EquityCurve.

Variable np_sqrt : Q -> Q.

(** C4: for a trade set with rows, the statistics function returns an
    equity curve and a drawdown series with one value per trade; the equity
    at [i] is the sum of the first [i + 1] profits in the order of the set;
    the drawdown at [i] is the equity at [i] minus the largest equity up to
    [i], it is never positive, and it is zero exactly when no earlier equity
    is above the equity at [i]. *)
Theorem equity_curve_and_drawdown
        (df : DataFrame) (instrument_name : string) (profits : list Q) (entry exit : list Z) :
  len df <> 0 ->
  numbers df "Profit" = Ok profits ->
  times df "Entry time" = Ok entry ->
  times df "Exit time" = Ok exit ->
  bars_readable df ->
  exists stats equity_curve drawdown,
    calculate_comprehensive_stats np_sqrt df instrument_name =
    Ok (stats, equity_curve, drawdown) /\
    length equity_curve = len df /\
    length drawdown = len df /\
    forall i, i < len df ->
      (nth i equity_curve 0 == Qsum (firstn (S i) profits))%Q /\
      (nth i drawdown 0 ==
       nth i equity_curve 0 - nth i (expanding_max equity_curve) 0)%Q /\
      (nth i drawdown 0 <= 0)%Q /\
      ((nth i drawdown 0 == 0)%Q <->
       forall j, j <= i -> (nth j equity_curve 0 <= nth i equity_curve 0)%Q).
Proof.
  intros Hdf Hprofits Hentry Hexit Hbars.
  destruct (calculate_comprehensive_stats_ok np_sqrt df instrument_name
              profits entry exit Hdf Hprofits Hentry Hexit Hbars)
    as (stats & Hstats & _).
  exists stats, (cumsum profits),
    (series_sub (cumsum profits) (expanding_max (cumsum profits))).
  pose proof (numbers_length _ _ _ Hprofits) as Hlen.
  assert (Heq : length (cumsum profits) = len df)
    by (now rewrite cumsum_length).
  assert (Hmx : length (cumsum profits) = length (expanding_max (cumsum profits)))
    by (now rewrite expanding_max_length).
  split; [exact Hstats|]. split; [exact Heq|].
  split; [now rewrite series_sub_length|].
  intros i Hi.
  assert (Hi' : i < length (cumsum profits)) by lia.
  destruct (expanding_max_nth (cumsum profits) i Hi') as (Habove & j & Hj & Hone).
  pose proof (series_sub_nth _ _ i Hmx Hi') as Hsub.
  pose proof (Habove i (Nat.le_refl i)) as Hself.
  split; [apply cumsum_nth; lia|]. split; [exact Hsub|]. split; [lra|].
  split.
  - intros Hzero k Hk. specialize (Habove k Hk). lra.
  - intros Hmax. specialize (Hmax j Hj). lra.
Qed.

End EquityCurve.

Lemma equity_curve_and_drawdown_witness :
  exists stats equity_curve drawdown,
    calculate_comprehensive_stats (fun q => q) sample_trades "ES" =
    Ok (stats, equity_curve, drawdown) /\
    length equity_curve = len sample_trades /\
    length drawdown = len sample_trades /\
    forall i, i < len sample_trades ->
      (nth i equity_curve 0 == Qsum (firstn (S i) [100; -20]))%Q /\
      (nth i drawdown 0 ==
       nth i equity_curve 0 - nth i (expanding_max equity_curve) 0)%Q /\
      (nth i drawdown 0 <= 0)%Q /\
      ((nth i drawdown 0 == 0)%Q <->
       forall j, j <= i -> (nth j equity_curve 0 <= nth i equity_curve 0)%Q).
Proof.
  apply (equity_curve_and_drawdown (fun q => q) sample_trades "ES" [100; -20]%Q
           [(4 * one_day)%Z; (6 * one_day + 3600000000000)%Z]
           [(4 * one_day + 3600000000000)%Z; (6 * one_day + 7200000000000)%Z]).
  - discriminate.
  - reflexivity.
  - reflexivity.
  - reflexivity.
  - right. exists (Qmean [12; 7]%Q). reflexivity.
Defined.

(* ----------------------------------------------------------------- *)
(** ** Day-of-week breakdown *)

Lemma mapM_as_time (col : string) (cells : list cell) (l : list Z) :
  mapM (as_time col) cells = Ok l -> cells = map CTime l.
Proof.
  revert l. induction cells as [|c t IH]; simpl; intros l H.
  - injection H as <-. reflexivity.
  - destruct c; try discriminate. simpl in H.
    destruct (mapM (as_time col) t); [|discriminate]. simpl in H.
    injection H as <-. simpl. f_equal. now apply IH.
Qed.

Lemma mapM_as_number (col : string) (cells : list cell) (l : list Q) :
  mapM (as_number col) cells = Ok l -> cells = map CNum l.
Proof.
  revert l. induction cells as [|c t IH]; simpl; intros l H.
  - injection H as <-. reflexivity.
  - destruct c; try discriminate. simpl in H.
    destruct (mapM (as_number col) t); [|discriminate]. simpl in H.
    injection H as <-. simpl. f_equal. now apply IH.
Qed.

Lemma times_cells (df : DataFrame) (col : string) (l : list Z) :
  times df col = Ok l -> get_column df col = Ok (map CTime l).
Proof.
  unfold times. destruct (get_column df col) as [cells|]; [|discriminate].
  cbn [bind]. intros H. apply mapM_as_time in H. now subst.
Qed.

Lemma numbers_cells (df : DataFrame) (col : string) (l : list Q) :
  numbers df col = Ok l ->
  exists i, col_index col (columns df) = Some i /\
            map (fun r => nth i r CNull) (rows df) = map CNum l.
Proof.
  unfold numbers, get_column.
  destruct (col_index col (columns df)) as [i|]; [|discriminate].
  cbn [bind]. intros H. apply mapM_as_number in H. now exists i.
Qed.

Lemma dayofweek_lt (t : Z) : dayofweek t < 7.
Proof.
  unfold dayofweek.
  pose proof (Z.mod_pos_bound (date_of t + 3) 7 eq_refl). lia.
Qed.

Lemma keep_some_map {A B : Type} (p : A -> bool) (f : A -> B) (l : list A) :
  keep_some (map (fun a => if p a then Some (f a) else None) l) = map f (filter p l).
Proof.
  induction l as [|a t IH]; simpl; [reflexivity|].
  destruct (p a); simpl; congruence.
Qed.

(** The rows and the profits of one weekday. *)
Lemma day_numbers (col : string) (i : nat) (day_num : nat)
      (entry : list Z) (rs : list row) (profits : list Q) :
  map (fun r => nth i r CNull) rs = map CNum profits ->
  length entry = length rs ->
  let day_rows := rows_of_day day_num (map (fun t => Some (dayofweek t)) entry) rs in
  mapM (as_number col) (map (fun r => nth i r CNull) day_rows) =
  Ok (day_profits day_num entry profits) /\
  length day_rows = length (day_profits day_num entry profits) /\
  (length day_rows =? 0) = negb (existsb (fun t => dayofweek t =? day_num) entry).
Proof.
  revert rs profits. induction entry as [|t entry IH]; intros [|r rs] [|q profits] Hmap Hlen;
    try discriminate; [repeat split|].
  simpl in Hmap. injection Hmap as Hr Hmap. simpl in Hlen. injection Hlen as Hlen.
  destruct (IH rs profits Hmap Hlen) as (H1 & H2 & H3). clear IH.
  unfold rows_of_day, day_profits in *. simpl.
  destruct (dayofweek t =? day_num); simpl.
  - rewrite Hr. simpl. rewrite H1. simpl. repeat split. now rewrite H2.
  - auto.
Qed.

Lemma day_record_ok (df : DataFrame) (entry : list Z) (profits : list Q) (day_num : nat) :
  times df "Entry time" = Ok entry ->
  numbers df "Profit" = Ok profits ->
  day_record df (map (fun t => Some (dayofweek t)) entry) day_num =
  Ok (if existsb (fun t => dayofweek t =? day_num) entry
      then Some (day_stats_entry day_num (length (day_profits day_num entry profits))
                                 (day_profits day_num entry profits))
      else None).
Proof.
  intros Hentry Hprofits.
  pose proof (times_length _ _ _ Hentry) as Hlen.
  destruct (numbers_cells _ _ _ Hprofits) as (i & Hi & Hmap).
  destruct (day_numbers "Profit" i day_num entry (rows df) profits Hmap Hlen)
    as (H1 & H2 & H3).
  unfold day_record. cbv zeta. unfold len at 1. cbn [rows].
  rewrite H3. destruct (existsb _ entry); cbn [negb]; [|reflexivity].
  unfold numbers, get_column. cbn [columns rows]. rewrite Hi. cbn [bind].
  rewrite H1. cbn [bind]. unfold len. cbn [rows]. rewrite H2. reflexivity.
Qed.

Lemma strongly_sorted_filter {A : Type} (R : A -> A -> Prop) (p : A -> bool) (l : list A) :
  StronglySorted R l -> StronglySorted R (filter p l).
Proof.
  induction 1 as [|x t Hs IH Hx]; simpl; [constructor|].
  destruct (p x); [|exact IH].
  constructor; [exact IH|].
  rewrite Forall_forall in *. intros y Hy. apply filter_In in Hy. apply Hx, Hy.
Qed.

Lemma strongly_sorted_seq (start n : nat) : StronglySorted lt (seq start n).
Proof.
  revert start. induction n as [|n IH]; intros start; simpl; constructor; [apply IH|].
  rewrite Forall_forall. intros y Hy. apply in_seq in Hy. lia.
Qed.

Lemma strongly_sorted_map {A B : Type} (R : A -> A -> Prop) (S' : B -> B -> Prop)
      (f : A -> B) (l : list A) :
  (forall a b, R a b -> S' (f a) (f b)) ->
  StronglySorted R l -> StronglySorted S' (map f l).
Proof.
  intros Hf. induction 1 as [|x t Hs IH Hx]; simpl; constructor; [exact IH|].
  rewrite Forall_map. rewrite Forall_forall in *. auto.
Qed.

Lemma Qnat_le (a b : nat) : a <= b -> Qle_bool (Qnat a) (Qnat b) = true.
Proof.
  intros H. apply Qle_bool_iff. unfold Qnat. rewrite <- Zle_Qle. lia.
Qed.

Lemma calculate_day_of_week_stats_ok (df : DataFrame) (entry : list Z) (profits : list Q) :
  len df <> 0 ->
  times df "Entry time" = Ok entry ->
  numbers df "Profit" = Ok profits ->
  calculate_day_of_week_stats df =
  Ok (mkDataFrame day_columns (map (day_row entry profits) (traded_days entry))).
Proof.
  intros Hdf Hentry Hprofits.
  unfold calculate_day_of_week_stats.
  pose proof Hdf as Hdf'. apply Nat.eqb_neq in Hdf'. rewrite Hdf'.
  rewrite (times_cells _ _ _ Hentry). cbn [bind].
  assert (Hdays : mapM (dayofweek_cell "Entry time") (map CTime entry) =
                  Ok (map (fun t => Some (dayofweek t)) entry)).
  { clear. induction entry as [|t entry IH]; [reflexivity|].
    simpl. rewrite IH. reflexivity. }
  rewrite Hdays. cbn [bind].
  rewrite (mapM_map _ (fun day_num =>
             if existsb (fun t => dayofweek t =? day_num) entry
             then Some (day_stats_entry day_num
                          (length (day_profits day_num entry profits))
                          (day_profits day_num entry profits))
             else None))
    by (rewrite Forall_forall; intros d _; now apply day_record_ok).
  cbn [bind]. rewrite keep_some_map. fold (traded_days entry).
  assert (Hne : traded_days entry <> []).
  { destruct entry as [|t entry'].
    - apply times_length in Hentry. simpl in Hentry. congruence.
    - intros Hnil.
      assert (Hin : In (dayofweek t) (traded_days (t :: entry'))).
      { apply filter_In. split.
        - apply in_seq. pose proof (dayofweek_lt t). lia.
        - simpl. now rewrite Nat.eqb_refl. }
      rewrite Hnil in Hin. contradiction. }
  destruct (traded_days entry) as [|d ds] eqn:Ed; [congruence|].
  unfold frame_of_records. cbn [map].
  change (map fst (day_stats_entry d (length (day_profits d entry profits))
                     (day_profits d entry profits))) with day_columns.
  unfold sort_values. cbn [columns rows col_index day_columns String.eqb Ascii.eqb Bool.eqb].
  do 2 f_equal.
  change (map snd (day_stats_entry d (length (day_profits d entry profits))
                     (day_profits d entry profits)) ::
          map (map snd)
            (map (fun day_num =>
                    day_stats_entry day_num (length (day_profits day_num entry profits))
                                    (day_profits day_num entry profits)) ds))
    with (map (map snd)
            (map (fun day_num =>
                    day_stats_entry day_num (length (day_profits day_num entry profits))
                                    (day_profits day_num entry profits)) (d :: ds))).
  rewrite map_map. fold (day_row entry profits d).
  change (map (fun x => map snd (day_stats_entry x (length (day_profits x entry profits))
                                   (day_profits x entry profits))) (d :: ds))
    with (map (day_row entry profits) (d :: ds)).
  apply stable_sort_id.
  apply (strongly_sorted_map lt _ (day_row entry profits) (d :: ds)).
  - intros a b Hab. simpl. apply Qnat_le. lia.
  - rewrite <- Ed. unfold traded_days.
    apply strongly_sorted_filter, strongly_sorted_seq.
Qed.

Lemma traded_days_spec (entry : list Z) (day_num : nat) :
  In day_num (traded_days entry) <->
  day_num < 7 /\ exists t, In t entry /\ dayofweek t = day_num.
Proof.
  unfold traded_days. rewrite filter_In, in_seq, existsb_exists. split.
  - intros (Hd & t & Ht & E). apply Nat.eqb_eq in E. split; [lia|eauto].
  - intros (Hd & t & Ht & E). split; [lia|]. exists t. split; [exact Ht|].
    now apply Nat.eqb_eq.
Qed.

(** C9: the day-of-week breakdown of a trade set has one row for each
    weekday on which a trade of the set was entered and no other row (a
    weekday without a trade has none), and its rows go from Monday to
    Sunday. *)
Theorem day_of_week_rows (df : DataFrame) (entry : list Z) (profits : list Q) :
  times df "Entry time" = Ok entry ->
  numbers df "Profit" = Ok profits ->
  exists out,
    calculate_day_of_week_stats df = Ok out /\
    map (cell_of (columns out) "DayOfWeek") (rows out) =
    map (fun day_num => CNum (Qnat day_num)) (traded_days entry) /\
    map (cell_of (columns out) "DayName") (rows out) =
    map (fun day_num => CStr (nth day_num day_names "")) (traded_days entry) /\
    (forall day_num,
        In day_num (traded_days entry) <->
        day_num < 7 /\ exists t, In t entry /\ dayofweek t = day_num) /\
    StronglySorted lt (traded_days entry).
Proof.
  intros Hentry Hprofits.
  assert (Hsorted : StronglySorted lt (traded_days entry))
    by apply strongly_sorted_filter, strongly_sorted_seq.
  destruct (Nat.eq_dec (len df) 0) as [Hz|Hnz].
  - exists empty_frame.
    assert (entry = []) as ->.
    { apply times_length in Hentry. rewrite Hz in Hentry.
      now destruct entry. }
    unfold calculate_day_of_week_stats. rewrite Hz.
    split; [reflexivity|]. split; [reflexivity|]. split; [reflexivity|].
    split; [apply traded_days_spec|exact Hsorted].
  - eexists.
    split; [exact (calculate_day_of_week_stats_ok df entry profits Hnz Hentry Hprofits)|].
    cbn [columns rows]. rewrite !map_map.
    split; [reflexivity|]. split; [reflexivity|].
    split; [apply traded_days_spec|exact Hsorted].
Qed.

Lemma day_of_week_rows_witness :
  exists out,
    calculate_day_of_week_stats sample_trades = Ok out /\
    map (cell_of (columns out) "DayOfWeek") (rows out) = [CNum 0; CNum 2] /\
    map (cell_of (columns out) "DayName") (rows out) = [CStr "Monday"; CStr "Wednesday"].
Proof.
  destruct (day_of_week_rows sample_trades
              [(4 * one_day)%Z; (6 * one_day + 3600000000000)%Z] [100; -20]%Q
              eq_refl eq_refl) as (out & H1 & H2 & H3 & _).
  exists out. split; [exact H1|]. split; [exact H2|exact H3].
Defined.

(* ----------------------------------------------------------------- *)
(** ** Profit factor *)



Section ProfitFactor.

Variable np_sqrt : Q -> Q.


End ProfitFactor.


(* ----------------------------------------------------------------- *)
(** ** Columns of a frame *)

Lemma nth_set_nth_other {A : Type} (i j : nat) (v d : A) (l : list A) :
  i <> j -> nth j (set_nth i v l) d = nth j l d.
Proof.
  revert i j. induction l as [|x t IH]; intros [|i] [|j] H; simpl; try reflexivity;
    try congruence.
  apply IH. congruence.
Qed.

Lemma nth_set_nth_same {A : Type} (i : nat) (v d : A) (l : list A) :
  i < length l -> nth i (set_nth i v l) d = v.
Proof.
  revert i. induction l as [|x t IH]; intros [|i] H; simpl in *; try lia; [reflexivity|].
  apply IH. lia.
Qed.

Lemma set_nth_short {A : Type} (i : nat) (v : A) (l : list A) :
  length l <= i -> set_nth i v l = l.
Proof.
  revert i. induction l as [|x t IH]; intros [|i] H; simpl in *; try lia; try reflexivity.
  f_equal. apply IH. lia.
Qed.

Lemma col_index_inj (c1 c2 : string) (cols : list string) (i : nat) :
  col_index c1 cols = Some i -> col_index c2 cols = Some i -> c1 = c2.
Proof.
  revert i. induction cols as [|c t IH]; simpl; intros i H1 H2; [discriminate|].
  destruct (String.eqb c c1) eqn:E1, (String.eqb c c2) eqn:E2.
  - apply String.eqb_eq in E1, E2. congruence.
  - destruct (col_index c2 t); [|discriminate]. injection H1 as <-. discriminate.
  - destruct (col_index c1 t); [|discriminate]. injection H2 as <-. discriminate.
  - destruct (col_index c1 t) as [i1|]; [|discriminate].
    destruct (col_index c2 t) as [i2|]; [|discriminate].
    injection H1 as <-. injection H2 as H2. subst i2. now apply (IH i1).
Qed.

Lemma has_column_index (df : DataFrame) (col : string) :
  has_column df col = true -> exists i, col_index col (columns df) = Some i.
Proof.
  unfold has_column. destruct (col_index col (columns df)) as [i|]; [eauto|discriminate].
Qed.

(** Writing the cells [g (nth i r)] in column [i]. *)
Lemma set_column_map (df : DataFrame) (col : string) (i : nat) (g : cell -> cell) :
  col_index col (columns df) = Some i ->
  set_column df col (map g (map (fun r => nth i r CNull) (rows df))) =
  mkDataFrame (columns df) (map (fun r => set_nth i (g (nth i r CNull)) r) (rows df)).
Proof.
  intros Hi. unfold set_column. rewrite Hi. f_equal.
  rewrite map_map, combine_map_r, map_map. reflexivity.
Qed.

Lemma set_nth_cell_other (cols : list string) (col col' : string) (i : nat) (v : cell) (r : row) :
  col_index col cols = Some i -> col' <> col ->
  cell_of cols col' (set_nth i v r) = cell_of cols col' r.
Proof.
  intros Hi Hne. unfold cell_of.
  destruct (col_index col' cols) as [j|] eqn:Ej; [|reflexivity].
  apply nth_set_nth_other. intros ->. apply Hne. eapply col_index_inj; eauto.
Qed.

Lemma sort_values_ok (df : DataFrame) (col : string) (i : nat) :
  col_index col (columns df) = Some i ->
  sort_values df col =
  Ok (mkDataFrame (columns df)
        (stable_sort (fun r1 r2 => cell_leb (nth i r1 CNull) (nth i r2 CNull)) (rows df))).
Proof. intros Hi. unfold sort_values. now rewrite Hi. Qed.

Lemma sort_values_has_column (df out : DataFrame) (col : string) :
  sort_values df col = Ok out -> has_column out col = true.
Proof.
  unfold sort_values, has_column.
  destruct (col_index col (columns df)) as [i|] eqn:Ei; [|discriminate].
  intros [= <-]. cbn [columns]. now rewrite Ei.
Qed.

Lemma strongly_sorted_on {A : Type} (P : A -> Prop) (R R' : A -> A -> Prop) (l : list A) :
  Forall P l ->
  (forall a b, P a -> P b -> R a b -> R' a b) ->
  StronglySorted R l -> StronglySorted R' l.
Proof.
  intros HP Himp. induction 1 as [|x t Hs IH Hx]; constructor.
  - apply IH. now inversion HP.
  - inversion HP as [|? ? Px Pt]; subst.
    rewrite Forall_forall in *. intros y Hy. apply Himp; auto.
Qed.

(* ----------------------------------------------------------------- *)
(** ** Loading and filtering *)


Section Loading.

Variable os_path_exists : string -> bool.
Variable pd_read_csv : string -> read_outcome.
Variable pd_to_datetime : string -> option Z.
Variable strptime : string -> option Z.
Variable pd_to_numeric : string -> option Q.

Lemma parse_time_column_columns (df out : DataFrame) (col : string) :
  parse_time_column pd_to_datetime df col = Ok out -> columns out = columns df.
Proof.
  unfold parse_time_column, get_column, set_column.
  destruct (col_index col (columns df)) as [i|]; [|discriminate]. cbn [bind].
  destruct (to_datetime_cells _ _); [|discriminate].
  intros [= <-]. reflexivity.
Qed.




(** Cleaning a monetary column keeps the columns of the frame and the
    cells of every other column. *)
Lemma clean_column_other (df : DataFrame) (col col' : string) :
  col' <> col ->
  columns (clean_column pd_to_numeric df col) = columns df /\
  map (cell_of (columns df) col') (rows (clean_column pd_to_numeric df col)) =
  map (cell_of (columns df) col') (rows df).
Proof.
  intros Hne. unfold clean_column, has_column, get_column.
  destruct (col_index col (columns df)) as [i|] eqn:Ei; [|split; reflexivity].
  destruct (is_object_dtype _); [|split; reflexivity].
  rewrite (set_column_map df col i (clean_cell pd_to_numeric) Ei). cbn [columns rows].
  split; [reflexivity|]. rewrite map_map. apply map_ext. intros r.
  now apply set_nth_cell_other with (col := col).
Qed.

Lemma clean_columns_other (l : list string) (df : DataFrame) (col' : string) :
  ~ In col' l ->
  columns (fold_left (clean_column pd_to_numeric) l df) = columns df /\
  map (cell_of (columns df) col') (rows (fold_left (clean_column pd_to_numeric) l df)) =
  map (cell_of (columns df) col') (rows df).
Proof.
  revert df. induction l as [|c l IH]; intros df Hnot; [split; reflexivity|].
  simpl. destruct (clean_column_other df c col') as [Hc Hr].
  { intros ->. apply Hnot. now left. }
  destruct (IH (clean_column pd_to_numeric df c)) as [Hc' Hr'].
  { intros H. apply Hnot. now right. }
  rewrite Hc in *. split; [exact Hc'|]. now rewrite Hr'.
Qed.

Lemma entry_not_monetary : ~ In "Entry time" monetary_columns_loaded.
Proof.
  simpl. intros H. repeat (destruct H as [H|H]; [discriminate|]). exact H.
Qed.

Lemma in_range_entered (cols : list string) (start stop : Z) (r : row) :
  in_range start stop (cell_of cols "Entry time" r) = true <->
  entered_in cols start stop r.
Proof.
  unfold entered_in. split.
  - destruct (cell_of cols "Entry time" r) as [| |t| |]; simpl; try discriminate.
    intros H. apply andb_true_iff in H. destruct H as [H1 H2].
    apply Z.leb_le in H1. apply Z.ltb_lt in H2. eauto.
  - intros (t & -> & H1 & H2). simpl.
    apply andb_true_iff. split; [now apply Z.leb_le|now apply Z.ltb_lt].
Qed.



End Loading.

(* ----------------------------------------------------------------- *)
(** ** Combining the instruments *)

Lemma col_index_In (col : string) (cols : list string) :
  In col cols -> exists i, col_index col cols = Some i.
Proof.
  induction cols as [|c t IH]; simpl; intros H; [contradiction|].
  destruct (String.eqb c col) eqn:E; [eauto|].
  destruct H as [H|H]; [subst; rewrite String.eqb_refl in E; discriminate|].
  destruct (IH H) as [i ->]. simpl. eauto.
Qed.

Lemma col_index_Some_In (col : string) (cols : list string) (i : nat) :
  col_index col cols = Some i -> In col cols.
Proof.
  intros H. destruct (in_dec string_dec col cols) as [Hin|Hnot]; [exact Hin|].
  destruct (col_index col cols) eqn:E; [|discriminate].
  exfalso. clear H. revert n E. induction cols as [|c t IH]; simpl; intros n E;
    [discriminate|].
  destruct (String.eqb c col) eqn:Ec.
  - apply String.eqb_eq in Ec. apply Hnot. now left.
  - destruct (col_index col t) eqn:Et; [|discriminate].
    apply (IH (fun H => Hnot (or_intror H)) n0 eq_refl).
Qed.

Lemma has_column_In (df : DataFrame) (col : string) :
  has_column df col = true <-> In col (columns df).
Proof.
  unfold has_column. split.
  - destruct (col_index col (columns df)) eqn:E; [|discriminate].
    intros _. eapply col_index_Some_In; eauto.
  - intros H. destruct (col_index_In _ _ H) as [i ->]. reflexivity.
Qed.

Lemma unique_strings_In (seen l : list string) (x : string) :
  In x (unique_by String.eqb seen l) <-> In x l /\ ~ In x seen.
Proof.
  revert seen. induction l as [|y t IH]; intros seen; simpl; [tauto|].
  destruct (existsb (String.eqb y) seen) eqn:E.
  - rewrite IH. apply (proj1 (name_in_In y seen)) in E. split.
    + intros [H1 H2]. tauto.
    + intros [[->|H1] H2]; [contradiction|tauto].
  - assert (Hy : ~ In y seen).
    { intros H. apply (proj2 (name_in_In y seen)) in H. unfold name_in in H. congruence. }
    simpl. rewrite IH. simpl. split.
    + intros [->|[H1 H2]]; [tauto|]. tauto.
    + intros [[->|H1] H2]; [now left|].
      destruct (string_dec y x) as [->|Hne]; [now left|]. right. tauto.
Qed.

Lemma set_column_has (df : DataFrame) (col c : string) (values : list cell) :
  has_column df c = true -> has_column (set_column df col values) c = true.
Proof.
  rewrite !has_column_In. unfold set_column.
  destruct (col_index col (columns df)); cbn [columns]; [auto|].
  intros H. apply in_or_app. now left.
Qed.

Lemma filter_trades_by_direction_columns (df : DataFrame) (direction : string) :
  columns (filter_trades_by_direction df direction) = columns df.
Proof.
  unfold filter_trades_by_direction.
  destruct (_ || _); [reflexivity|].
  destruct (String.eqb direction "Long Only"); [reflexivity|].
  destruct (String.eqb direction "Short Only"); reflexivity.
Qed.

Lemma scale_column_columns (m : Z) (df out : DataFrame) (col : string) :
  scale_column m df col = Ok out -> columns out = columns df.
Proof.
  unfold scale_column, has_column, get_column, set_column.
  destruct (col_index col (columns df)); [|now intros [= <-]].
  cbn [bind]. destruct (mapM _ _); [|discriminate]. cbn [bind].
  now intros [= <-].
Qed.

Lemma apply_contract_multiplier_columns (df out : DataFrame) (m : Z) :
  apply_contract_multiplier df m = Ok out -> columns out = columns df.
Proof.
  unfold apply_contract_multiplier. destruct (_ || _); [now intros [= <-]|].
  generalize monetary_columns. intros l. revert df.
  induction l as [|c l IH]; intros df; simpl; [now intros [= <-]|].
  destruct (scale_column m df c) as [df'|] eqn:E; [|discriminate]. cbn [bind].
  intros H. apply IH in H. apply scale_column_columns in E. congruence.
Qed.

Section Combining.

Variable os_path_exists : string -> bool.
Variable pd_read_csv : string -> read_outcome.
Variable pd_to_datetime : string -> option Z.
Variable strptime : string -> option Z.
Variable strftime : Z -> string.
Variable pd_to_numeric : string -> option Q.

Local Abbreviation loader :=
  (load_and_filter_trades os_path_exists pd_read_csv pd_to_datetime strptime pd_to_numeric).

Local Abbreviation pipeline :=
  (process_instrument os_path_exists pd_read_csv pd_to_datetime strptime pd_to_numeric).

Local Abbreviation step :=
  (process_step os_path_exists pd_read_csv pd_to_datetime strptime pd_to_numeric).

Local Abbreviation combiner :=
  (load_and_process_trades os_path_exists pd_read_csv pd_to_datetime strptime strftime
                           pd_to_numeric).

(** A loaded frame has the column of the entry times. *)
Lemma load_and_filter_trades_entry (trade_file : string) (start_date end_date : date_arg)
      (out : DataFrame) :
  loader trade_file start_date end_date = Ok out ->
  has_column out "Entry time" = true.
Proof.
  unfold load_and_filter_trades.
  destruct (negb (os_path_exists trade_file)); [discriminate|].
  destruct (pd_read_csv trade_file) as [raw| |]; cbn [bind]; try discriminate.
  cbv zeta. destruct (negb _); [discriminate|].
  destruct (len raw =? 0); [discriminate|].
  destruct (parse_time_column _ raw _) as [d1|]; cbn [bind]; [|discriminate].
  destruct (parse_time_column _ d1 _) as [d2|]; cbn [bind]; [|discriminate].
  destruct (start_of _ _) as [start|]; cbn [bind]; [|discriminate].
  destruct (end_of _ _) as [end_|]; cbn [bind]; [|discriminate].
  apply sort_values_has_column.
Qed.

Lemma process_instrument_entry
      (filters : list (string * string)) (contracts : list (string * Z))
      (start_str end_str : date_arg) (name : string) (files : list (string * string))
      (df : DataFrame) (n : Z) :
  pipeline filters contracts start_str end_str name files = Ok (df, n) ->
  has_column df "Entry time" = true.
Proof.
  unfold process_instrument.
  destruct (dict_item files "trades") as [path|]; cbn [bind]; [|discriminate].
  destruct (loader path start_str end_str) as [d0|] eqn:E0; cbn [bind]; [|discriminate].
  cbv zeta.
  destruct (apply_contract_multiplier _ _) as [d1|] eqn:E1; cbn [bind]; [|discriminate].
  intros [= <- <-].
  apply apply_contract_multiplier_columns in E1.
  apply load_and_filter_trades_entry in E0.
  rewrite has_column_In in *.
  now rewrite E1, filter_trades_by_direction_columns.
Qed.

(** Every frame collected by the loop has the column of the entry times. *)
Lemma process_step_entry
      (selected : list string) (filters : list (string * string))
      (contracts : list (string * Z)) (start_str end_str : date_arg)
      (st : list DataFrame * list (string * instrument_data))
      (item : string * list (string * string)) :
  Forall (fun df => has_column df "Entry time" = true) (fst st) ->
  Forall (fun df => has_column df "Entry time" = true)
         (fst (step selected filters contracts start_str end_str st item)).
Proof.
  destruct st as [all_trades data], item as [name files]. cbn [fst]. intros H.
  unfold process_step.
  destruct (name_in name selected); [|exact H].
  destruct (pipeline filters contracts start_str end_str name files) as [[df n]|] eqn:E;
    [|exact H].
  destruct (0 <? len df); [|exact H].
  cbn [fst]. apply Forall_app. split; [exact H|].
  constructor; [|constructor].
  unfold set_column_scalar. apply set_column_has, set_column_has.
  eapply process_instrument_entry; eauto.
Qed.

Lemma process_fold_entry
      (selected : list string) (filters : list (string * string))
      (contracts : list (string * Z)) (start_str end_str : date_arg)
      (instruments : list (string * list (string * string)))
      (st : list DataFrame * list (string * instrument_data)) :
  Forall (fun df => has_column df "Entry time" = true) (fst st) ->
  Forall (fun df => has_column df "Entry time" = true)
         (fst (fold_left (step selected filters contracts start_str end_str) instruments st)).
Proof.
  revert st. induction instruments as [|item rest IH]; intros st H; [exact H|].
  simpl. apply IH. now apply process_step_entry.
Qed.

Lemma concat_frames_entry (frames : list DataFrame) :
  frames <> [] ->
  Forall (fun df => has_column df "Entry time" = true) frames ->
  has_column (concat_frames frames) "Entry time" = true.
Proof.
  intros Hne H. apply has_column_In. unfold concat_frames. cbn [columns].
  unfold unique_strings. apply unique_strings_In. split; [|tauto].
  destruct frames as [|df rest]; [congruence|].
  inversion H as [|? ? Hdf _]; subst.
  simpl. apply in_or_app. left. now apply has_column_In.
Qed.

(** A step on an instrument that is not selected, or whose processing
    raises, leaves the state of the loop as it was. *)
Lemma process_step_skip
      (selected : list string) (filters : list (string * string))
      (contracts : list (string * Z)) (start_str end_str : date_arg)
      (st : list DataFrame * list (string * instrument_data))
      (name : string) (files : list (string * string)) :
  name_in name selected = false \/
  (exists e, pipeline filters contracts start_str end_str name files = Raise e) ->
  step selected filters contracts start_str end_str st (name, files) = st.
Proof.
  destruct st as [all_trades data]. unfold process_step.
  intros [->|[e ->]]; [reflexivity|].
  destruct (name_in name selected); reflexivity.
Qed.


End Combining.




(* ================================================================= *)
(** * Further properties of the metrics *)

(* ----------------------------------------------------------------- *)
(** ** The streak counter and runs of trades *)

Lemma calculate_max_consecutive_trace (profits : list Q) (direction : Z) :
  calculate_max_consecutive profits direction =
  list_max (running_counter direction 0 profits).
Proof.
  unfold calculate_max_consecutive.
  destruct profits as [|p t]; [reflexivity|].
  cbn [length Nat.eqb]. now rewrite streak_fold_spec.
Qed.

Lemma list_max_In (l : list nat) : l <> [] -> In (list_max l) l.
Proof.
  induction l as [|a t IH]; [congruence|]. intros _.
  destruct t as [|b t'].
  - simpl. left. lia.
  - specialize (IH ltac:(discriminate)).
    change (list_max (a :: b :: t')) with (Nat.max a (list_max (b :: t'))).
    destruct (Nat.max_spec a (list_max (b :: t'))) as [[_ ->]|[_ ->]];
      [now right|now left].
Qed.

Lemma list_max_ge (l : list nat) (v : nat) : In v l -> v <= list_max l.
Proof.
  induction l as [|a t IH]; [contradiction|].
  change (list_max (a :: t)) with (Nat.max a (list_max t)).
  intros [->|H]; [lia|]. specialize (IH H). lia.
Qed.

(** Every value of the running counter is the length of a run of matching
    trades: a run inside the list, or a run at its start that prolongs the
    [current] trades counted before. *)
Lemma running_counter_run (direction : Z) (profits : list Q) (current v : nat) :
  In v (running_counter direction current profits) ->
  (exists before run after,
      profits = before ++ run ++ after /\ length run = v /\
      Forall (fun p => streak_match direction p = true) run) \/
  (exists run after,
      profits = run ++ after /\ v = current + length run /\
      Forall (fun p => streak_match direction p = true) run).
Proof.
  revert current. induction profits as [|p t IH]; intros current Hin; [contradiction|].
  simpl in Hin. destruct Hin as [Hv|Hin].
  - destruct (streak_match direction p) eqn:E.
    + right. exists [p], t. split; [reflexivity|]. split; [simpl; lia|].
      now constructor.
    + left. exists [], [], (p :: t). split; [reflexivity|]. split; [now subst|constructor].
  - destruct (IH _ Hin) as [(b & run & a & -> & Hl & Hrun)|(run & a & -> & Hv & Hrun)].
    + left. exists (p :: b), run, a. auto.
    + destruct (streak_match direction p) eqn:E.
      * right. exists (p :: run), a. split; [reflexivity|]. split; [simpl; lia|].
        now constructor.
      * left. exists [p], run, a. split; [reflexivity|]. split; [lia|exact Hrun].
Qed.

Lemma last_cons_default {A : Type} (x : A) (l : list A) (d d' : A) :
  last (x :: l) d = last (x :: l) d'.
Proof.
  revert x. induction l as [|y t IH]; intros x; [reflexivity|].
  change (last (x :: y :: t) d) with (last (y :: t) d).
  change (last (x :: y :: t) d') with (last (y :: t) d'). apply IH.
Qed.

(** The counter after a list of trades. *)
Lemma running_counter_app (direction : Z) (l1 l2 : list Q) (current : nat) :
  running_counter direction current (l1 ++ l2) =
  running_counter direction current l1 ++
  running_counter direction (last (running_counter direction current l1) current) l2.
Proof.
  revert current. induction l1 as [|p t IH]; intros current; [reflexivity|].
  simpl. rewrite IH. f_equal. f_equal. f_equal.
  destruct (running_counter direction _ t); [reflexivity|apply last_cons_default].
Qed.

Lemma running_counter_matching (direction : Z) (run : list Q) (current : nat) :
  run <> [] ->
  Forall (fun p => streak_match direction p = true) run ->
  In (current + length run) (running_counter direction current run).
Proof.
  revert current. induction run as [|p t IH]; intros current Hne Hrun; [congruence|].
  inversion Hrun as [|? ? Hp Ht]; subst. simpl. rewrite Hp.
  destruct t as [|q t'].
  - left. simpl. lia.
  - right. replace (current + S (length (q :: t'))) with (S current + length (q :: t')) by lia.
    apply IH; [discriminate|exact Ht].
Qed.

(** The streak counter returns the length of the longest run of consecutive
    trades of the requested direction: such a run exists in the list, and no
    run of matching trades is longer. *)
Theorem calculate_max_consecutive_longest_run (profits : list Q) (direction : Z) :
  (exists before run after,
      profits = before ++ run ++ after /\
      length run = calculate_max_consecutive profits direction /\
      Forall (fun p => streak_match direction p = true) run) /\
  (forall before run after,
      profits = before ++ run ++ after ->
      Forall (fun p => streak_match direction p = true) run ->
      length run <= calculate_max_consecutive profits direction).
Proof.
  rewrite calculate_max_consecutive_trace. split.
  - destruct (running_counter direction 0 profits) as [|c cs] eqn:E.
    + exists [], [], profits. split; [reflexivity|]. split; [reflexivity|constructor].
    + assert (Hin : In (list_max (c :: cs)) (running_counter direction 0 profits)).
      { rewrite E. apply list_max_In. discriminate. }
      destruct (running_counter_run _ _ _ _ Hin)
        as [(b & run & a & H1 & H2 & H3)|(run & a & H1 & H2 & H3)].
      * exists b, run, a. auto.
      * exists [], run, a. auto.
  - intros before run after -> Hrun.
    destruct run as [|p run']; [simpl; lia|].
    rewrite running_counter_app.
    set (c := last (running_counter direction 0 before) 0).
    rewrite running_counter_app.
    assert (Hin : In (c + length (p :: run')) (running_counter direction c (p :: run')))
      by (apply running_counter_matching; [discriminate|exact Hrun]).
    apply Nat.le_trans with (c + length (p :: run')); [lia|].
    apply list_max_ge, in_or_app. right. apply in_or_app. now left.
Qed.

(* ----------------------------------------------------------------- *)
(** ** Invariants of the statistics report *)

Lemma Qltb_lt (x y : Q) : Qltb x y = true <-> (x < y)%Q.
Proof.
  unfold Qltb. destruct (Qle_bool y x) eqn:E; simpl.
  - apply Qle_bool_iff in E. split; [discriminate|]. intros H. lra.
  - split; [|reflexivity]. intros _.
    destruct (Qlt_le_dec x y) as [H|H]; [exact H|].
    apply Qle_bool_iff in H. congruence.
Qed.

Lemma winners_positive (profits : list Q) : Forall (fun p => (0 < p)%Q) (winners profits).
Proof.
  unfold winners. rewrite Forall_forall. intros p Hp.
  apply filter_In in Hp. destruct Hp as [_ Hp]. now apply Qltb_lt in Hp.
Qed.

Lemma losers_negative (profits : list Q) : Forall (fun p => (p < 0)%Q) (losers profits).
Proof.
  unfold losers. rewrite Forall_forall. intros p Hp.
  apply filter_In in Hp. destruct Hp as [_ Hp]. now apply Qltb_lt in Hp.
Qed.

(** A trade is a winner, a loser or neither, never both. *)
Lemma winners_losers_length (profits : list Q) :
  length (winners profits) + length (losers profits) <= length profits.
Proof.
  unfold winners, losers. induction profits as [|p t IH]; simpl; [lia|].
  destruct (Qgtb p 0) eqn:Ew, (Qltb p 0) eqn:El; simpl; try lia.
  unfold Qgtb in Ew. apply Qltb_lt in Ew, El. lra.
Qed.

Lemma Qsum_nonneg (l : list Q) : Forall (fun p => (0 < p)%Q) l -> (0 <= Qsum l)%Q.
Proof.
  induction 1 as [|p t Hp _ IH]; [apply Qle_refl|]. rewrite Qsum_cons. lra.
Qed.

Lemma Qsum_nonpos (l : list Q) : Forall (fun p => (p < 0)%Q) l -> (Qsum l <= 0)%Q.
Proof.
  induction 1 as [|p t Hp _ IH]; [apply Qle_refl|]. rewrite Qsum_cons. lra.
Qed.

Lemma Qsum_pos (l : list Q) :
  l <> [] -> Forall (fun p => (0 < p)%Q) l -> (0 < Qsum l)%Q.
Proof.
  intros Hne H. destruct H as [|p t Hp Ht]; [congruence|].
  rewrite Qsum_cons. pose proof (Qsum_nonneg t Ht). lra.
Qed.

Lemma Qsum_neg (l : list Q) :
  l <> [] -> Forall (fun p => (p < 0)%Q) l -> (Qsum l < 0)%Q.
Proof.
  intros Hne H. destruct H as [|p t Hp Ht]; [congruence|].
  rewrite Qsum_cons. pose proof (Qsum_nonpos t Ht). lra.
Qed.

Section ReportFields.

Variable np_sqrt : Q -> Q.

(** The entries of the report that the invariants speak of. *)
Lemma calculate_comprehensive_stats_fields
      (df : DataFrame) (instrument_name : string) (profits : list Q) (entry exit : list Z) :
  len df <> 0 ->
  numbers df "Profit" = Ok profits ->
  times df "Entry time" = Ok entry ->
  times df "Exit time" = Ok exit ->
  bars_readable df ->
  exists stats,
    calculate_comprehensive_stats np_sqrt df instrument_name =
    Ok (stats, cumsum profits,
        series_sub (cumsum profits) (expanding_max (cumsum profits))) /\
    report_get "Total Net Profit" stats = Some (VNum (Qsum profits)) /\
    report_get "Gross Profit" stats = Some (VNum (Qsum (winners profits))) /\
    report_get "Gross Loss" stats = Some (VNum (Qsum (losers profits))) /\
    report_get "Number of Trades" stats = Some (VCount (len df)) /\
    report_get "Number of Winning Trades" stats = Some (VCount (length (winners profits))) /\
    report_get "Number of Losing Trades" stats = Some (VCount (length (losers profits))) /\
    report_get "Percent Profitable" stats =
    Some (VNum (Qnat (length (winners profits)) / Qnat (len df) * 100)) /\
    report_get "Avg Trade" stats = Some (VNum (Qmean profits)) /\
    report_get "Largest Winning Trade" stats = Some (VNum (Qmaximum profits)) /\
    report_get "Largest Losing Trade" stats = Some (VNum (Qminimum profits)) /\
    report_get "Max Drawdown" stats =
    Some (VNum (Qminimum (series_sub (cumsum profits) (expanding_max (cumsum profits))))) /\
    report_get "Expectancy" stats =
    Some (VNum
            (Qnat (length (winners profits)) / Qnat (len df) * 100 / 100 *
             (if 0 <? length (winners profits) then Qmean (winners profits) else 0) -
             (100 - Qnat (length (winners profits)) / Qnat (len df) * 100) / 100 *
             Qabs (if 0 <? length (losers profits) then Qmean (losers profits) else 0))).
Proof.
  intros Hdf Hprofits Hentry Hexit Hbars.
  unfold calculate_comprehensive_stats.
  pose proof Hdf as Hdf'. apply Nat.eqb_neq in Hdf'. rewrite Hdf'.
  assert (Hpos : (0 <? len df) = true) by (apply Nat.ltb_lt; lia).
  rewrite Hprofits. cbn [bind]. cbv zeta.
  rewrite (times_has_column _ _ _ Hentry), (times_has_column _ _ _ Hexit).
  cbn [andb]. rewrite Hentry, Hexit. cbn [bind].
  rewrite (calculate_recovery_and_flat_periods_ok df (cumsum profits) entry exit);
    auto; [|rewrite cumsum_length; eapply numbers_length; eassumption].
  rewrite !Qsum_guard, Hpos.
  destruct Hbars as [Hb|[avg_bars Hb]];
    [rewrite Hb|rewrite Hb; destruct (has_column df "Bars")];
    cbn [bind]; eexists; (split; [reflexivity|]); repeat split; reflexivity.
Qed.

End ReportFields.

Lemma fold_left_Qmin_spec (l : list Q) (a : Q) :
  (fold_left Qmin l a <= a)%Q /\
  Forall (fun x => (fold_left Qmin l a <= x)%Q) l /\
  ((fold_left Qmin l a == a)%Q \/ exists x, In x l /\ (fold_left Qmin l a == x)%Q).
Proof.
  revert a. induction l as [|y t IH]; intros a; simpl.
  - split; [apply Qle_refl|]. split; [constructor|left; reflexivity].
  - destruct (IH (Qmin a y)) as (H1 & H2 & H3).
    pose proof (Q.le_min_l a y). pose proof (Q.le_min_r a y).
    split; [lra|]. split; [constructor; [lra|exact H2]|].
    destruct H3 as [H3|(x & Hx & H3)].
    + destruct (Q.min_spec a y) as [[_ Hm]|[_ Hm]].
      * left. lra.
      * right. exists y. split; [now left|lra].
    + right. exists x. split; [now right|exact H3].
Qed.

Lemma fold_left_Qmax_spec (l : list Q) (a : Q) :
  (a <= fold_left Qmax l a)%Q /\
  Forall (fun x => (x <= fold_left Qmax l a)%Q) l /\
  ((fold_left Qmax l a == a)%Q \/ exists x, In x l /\ (fold_left Qmax l a == x)%Q).
Proof.
  revert a. induction l as [|y t IH]; intros a; simpl.
  - split; [apply Qle_refl|]. split; [constructor|left; reflexivity].
  - destruct (IH (Qmax a y)) as (H1 & H2 & H3).
    pose proof (Q.le_max_l a y). pose proof (Q.le_max_r a y).
    split; [lra|]. split; [constructor; [lra|exact H2]|].
    destruct H3 as [H3|(x & Hx & H3)].
    + destruct (Q.max_spec a y) as [[_ Hm]|[_ Hm]].
      * right. exists y. split; [now left|lra].
      * left. lra.
    + right. exists x. split; [now right|exact H3].
Qed.

(** The minimum and the maximum of a list with a value are values of the
    list that bound all the others. *)
Lemma Qminimum_spec (l : list Q) :
  l <> [] ->
  Forall (fun x => (Qminimum l <= x)%Q) l /\ exists x, In x l /\ (Qminimum l == x)%Q.
Proof.
  destruct l as [|a t]; [congruence|]. intros _. simpl.
  destruct (fold_left_Qmin_spec t a) as (H1 & H2 & H3). split.
  - constructor; assumption.
  - destruct H3 as [H3|(x & Hx & H3)]; [exists a|exists x]; auto.
Qed.

Lemma Qmaximum_spec (l : list Q) :
  l <> [] ->
  Forall (fun x => (x <= Qmaximum l)%Q) l /\ exists x, In x l /\ (Qmaximum l == x)%Q.
Proof.
  destruct l as [|a t]; [congruence|]. intros _. simpl.
  destruct (fold_left_Qmax_spec t a) as (H1 & H2 & H3). split.
  - constructor; assumption.
  - destruct H3 as [H3|(x & Hx & H3)]; [exists a|exists x]; auto.
Qed.

Lemma Qnat_nonneg (n : nat) : (0 <= Qnat n)%Q.
Proof. unfold Qnat. change 0%Q with (inject_Z 0). rewrite <- Zle_Qle. lia. Qed.

Lemma Qnat_pos (n : nat) : n <> 0 -> (0 < Qnat n)%Q.
Proof. intros H. unfold Qnat. change 0%Q with (inject_Z 0). rewrite <- Zlt_Qlt. lia. Qed.

Lemma Qnat_le_iff (a b : nat) : a <= b -> (Qnat a <= Qnat b)%Q.
Proof. intros H. unfold Qnat. rewrite <- Zle_Qle. lia. Qed.

Section ReportInvariants.

Variable np_sqrt : Q -> Q.

(** In the report of a trade set with rows, the winning and the losing
    trades together are at most the trades (a trade with profit 0 is
    neither), and the percentage of winning trades lies between 0 and
    100. *)
Theorem report_trade_counts
        (df : DataFrame) (instrument_name : string) (profits : list Q) (entry exit : list Z) :
  len df <> 0 ->
  numbers df "Profit" = Ok profits ->
  times df "Entry time" = Ok entry ->
  times df "Exit time" = Ok exit ->
  bars_readable df ->
  exists stats equity_curve drawdown num_winners num_losers win_rate,
    calculate_comprehensive_stats np_sqrt df instrument_name =
    Ok (stats, equity_curve, drawdown) /\
    report_get "Number of Trades" stats = Some (VCount (len df)) /\
    report_get "Number of Winning Trades" stats = Some (VCount num_winners) /\
    report_get "Number of Losing Trades" stats = Some (VCount num_losers) /\
    report_get "Percent Profitable" stats = Some (VNum win_rate) /\
    num_winners + num_losers <= len df /\
    (0 <= win_rate <= 100)%Q.
Proof.
  intros Hdf Hprofits Hentry Hexit Hbars.
  destruct (calculate_comprehensive_stats_fields np_sqrt df instrument_name
              profits entry exit Hdf Hprofits Hentry Hexit Hbars)
    as (stats & Hs & _ & _ & _ & Hn & Hw & Hl & Hr & _).
  do 6 eexists. split; [exact Hs|]. split; [exact Hn|]. split; [exact Hw|].
  split; [exact Hl|]. split; [exact Hr|].
  pose proof (winners_losers_length profits) as Hwl.
  rewrite (numbers_length _ _ _ Hprofits) in Hwl. split; [exact Hwl|].
  pose proof (Qnat_pos (len df) Hdf) as Hpos.
  pose proof (Qnat_nonneg (length (winners profits))) as Hw0.
  assert (Hle : (Qnat (length (winners profits)) <= Qnat (len df))%Q)
    by (apply Qnat_le_iff; lia).
  assert (Hq : (0 <= Qnat (length (winners profits)) / Qnat (len df) <= 1)%Q).
  { split.
    - apply Qle_shift_div_l; [exact Hpos|]. lra.
    - apply Qle_shift_div_r; [exact Hpos|]. lra. }
  lra.
Qed.

(** The gross profit of a report is not negative, and it is positive
    exactly when the report counts a winning trade; the gross loss is not
    positive, and it is negative exactly when the report counts a losing
    trade. *)
Theorem report_gross_signs
        (df : DataFrame) (instrument_name : string) (profits : list Q) (entry exit : list Z) :
  len df <> 0 ->
  numbers df "Profit" = Ok profits ->
  times df "Entry time" = Ok entry ->
  times df "Exit time" = Ok exit ->
  bars_readable df ->
  exists stats equity_curve drawdown gross_profit gross_loss num_winners num_losers,
    calculate_comprehensive_stats np_sqrt df instrument_name =
    Ok (stats, equity_curve, drawdown) /\
    report_get "Gross Profit" stats = Some (VNum gross_profit) /\
    report_get "Gross Loss" stats = Some (VNum gross_loss) /\
    report_get "Number of Winning Trades" stats = Some (VCount num_winners) /\
    report_get "Number of Losing Trades" stats = Some (VCount num_losers) /\
    (0 <= gross_profit)%Q /\ (gross_loss <= 0)%Q /\
    ((0 < gross_profit)%Q <-> 0 < num_winners) /\
    ((gross_loss < 0)%Q <-> 0 < num_losers).
Proof.
  intros Hdf Hprofits Hentry Hexit Hbars.
  destruct (calculate_comprehensive_stats_fields np_sqrt df instrument_name
              profits entry exit Hdf Hprofits Hentry Hexit Hbars)
    as (stats & Hs & _ & Hgp & Hgl & _ & Hw & Hl & _).
  do 7 eexists. split; [exact Hs|]. split; [exact Hgp|]. split; [exact Hgl|].
  split; [exact Hw|]. split; [exact Hl|].
  pose proof (winners_positive profits) as Hwp.
  pose proof (losers_negative profits) as Hln.
  split; [now apply Qsum_nonneg|]. split; [now apply Qsum_nonpos|]. split.
  - destruct (winners profits) as [|w ws] eqn:E.
    + simpl. split; [intros H; exfalso; revert H; apply Qlt_irrefl|lia].
    + split; [simpl; lia|]. intros _. apply Qsum_pos; [discriminate|exact Hwp].
  - destruct (losers profits) as [|w ws] eqn:E.
    + simpl. split; [intros H; exfalso; revert H; apply Qlt_irrefl|lia].
    + split; [simpl; lia|]. intros _. apply Qsum_neg; [discriminate|exact Hln].
Qed.

End ReportInvariants.

Section ReportExtremes.

Variable np_sqrt : Q -> Q.

(** The maximum drawdown of the report is the least value of the drawdown
    series, and it is never positive. *)
Theorem report_max_drawdown
        (df : DataFrame) (instrument_name : string) (profits : list Q) (entry exit : list Z) :
  len df <> 0 ->
  numbers df "Profit" = Ok profits ->
  times df "Entry time" = Ok entry ->
  times df "Exit time" = Ok exit ->
  bars_readable df ->
  exists stats equity_curve drawdown max_drawdown,
    calculate_comprehensive_stats np_sqrt df instrument_name =
    Ok (stats, equity_curve, drawdown) /\
    report_get "Max Drawdown" stats = Some (VNum max_drawdown) /\
    (max_drawdown <= 0)%Q /\
    Forall (fun d => (max_drawdown <= d)%Q) drawdown /\
    exists d, In d drawdown /\ (max_drawdown == d)%Q.
Proof.
  intros Hdf Hprofits Hentry Hexit Hbars.
  destruct (calculate_comprehensive_stats_fields np_sqrt df instrument_name
              profits entry exit Hdf Hprofits Hentry Hexit Hbars)
    as (stats & Hs & _ & _ & _ & _ & _ & _ & _ & _ & _ & _ & Hdd & _).
  do 4 eexists. split; [exact Hs|]. split; [exact Hdd|].
  destruct profits as [|p t].
  { apply numbers_length in Hprofits. simpl in Hprofits. congruence. }
  assert (Hhead : exists rest,
             series_sub (cumsum (p :: t)) (expanding_max (cumsum (p :: t))) =
             (p - p)%Q :: rest) by (eexists; reflexivity).
  destruct Hhead as [rest Hhead]. rewrite Hhead.
  destruct (Qminimum_spec ((p - p)%Q :: rest) ltac:(discriminate)) as [Hall Hone].
  split; [|split; [exact Hall|exact Hone]].
  inversion Hall as [|d0 ? Hd0 _]; subst. lra.
Qed.

(** The entries for the largest winning and the largest losing trade are
    the greatest and the least profit of the set, whatever their sign. *)
Theorem report_largest_trades
        (df : DataFrame) (instrument_name : string) (profits : list Q) (entry exit : list Z) :
  len df <> 0 ->
  numbers df "Profit" = Ok profits ->
  times df "Entry time" = Ok entry ->
  times df "Exit time" = Ok exit ->
  bars_readable df ->
  exists stats equity_curve drawdown largest_win largest_loss,
    calculate_comprehensive_stats np_sqrt df instrument_name =
    Ok (stats, equity_curve, drawdown) /\
    report_get "Largest Winning Trade" stats = Some (VNum largest_win) /\
    report_get "Largest Losing Trade" stats = Some (VNum largest_loss) /\
    Forall (fun p => (largest_loss <= p <= largest_win)%Q) profits /\
    (exists p, In p profits /\ (largest_win == p)%Q) /\
    (exists p, In p profits /\ (largest_loss == p)%Q).
Proof.
  intros Hdf Hprofits Hentry Hexit Hbars.
  destruct (calculate_comprehensive_stats_fields np_sqrt df instrument_name
              profits entry exit Hdf Hprofits Hentry Hexit Hbars)
    as (stats & Hs & _ & _ & _ & _ & _ & _ & _ & _ & Hhi & Hlo & _).
  do 5 eexists. split; [exact Hs|]. split; [exact Hhi|]. split; [exact Hlo|].
  assert (Hne : profits <> []).
  { intros ->. apply numbers_length in Hprofits. simpl in Hprofits. congruence. }
  destruct (Qminimum_spec profits Hne) as [Hmin Hmin1].
  destruct (Qmaximum_spec profits Hne) as [Hmax Hmax1].
  split; [|split; assumption].
  rewrite Forall_forall in *. intros p Hp. split; auto.
Qed.

End ReportExtremes.

Lemma report_gross_signs_witness :
  exists stats equity_curve drawdown gross_profit gross_loss num_winners num_losers,
    calculate_comprehensive_stats (fun q => q) sample_trades "ES" =
    Ok (stats, equity_curve, drawdown) /\
    report_get "Gross Profit" stats = Some (VNum gross_profit) /\
    report_get "Gross Loss" stats = Some (VNum gross_loss) /\
    report_get "Number of Winning Trades" stats = Some (VCount num_winners) /\
    report_get "Number of Losing Trades" stats = Some (VCount num_losers) /\
    (0 <= gross_profit)%Q /\ (gross_loss <= 0)%Q /\
    ((0 < gross_profit)%Q <-> 0 < num_winners) /\
    ((gross_loss < 0)%Q <-> 0 < num_losers).
Proof.
  apply (report_gross_signs (fun q => q) sample_trades "ES" [100; -20]%Q
           [(4 * one_day)%Z; (6 * one_day + 3600000000000)%Z]
           [(4 * one_day + 3600000000000)%Z; (6 * one_day + 7200000000000)%Z]).
  - discriminate.
  - reflexivity.
  - reflexivity.
  - reflexivity.
  - right. exists (Qmean [12; 7]%Q). reflexivity.
Defined.

Lemma report_trade_counts_witness :
  exists stats equity_curve drawdown num_winners num_losers win_rate,
    calculate_comprehensive_stats (fun q => q) sample_trades "ES" =
    Ok (stats, equity_curve, drawdown) /\
    report_get "Number of Trades" stats = Some (VCount (len sample_trades)) /\
    report_get "Number of Winning Trades" stats = Some (VCount num_winners) /\
    report_get "Number of Losing Trades" stats = Some (VCount num_losers) /\
    report_get "Percent Profitable" stats = Some (VNum win_rate) /\
    num_winners + num_losers <= len sample_trades /\
    (0 <= win_rate <= 100)%Q.
Proof.
  apply (report_trade_counts (fun q => q) sample_trades "ES" [100; -20]%Q
           [(4 * one_day)%Z; (6 * one_day + 3600000000000)%Z]
           [(4 * one_day + 3600000000000)%Z; (6 * one_day + 7200000000000)%Z]).
  - discriminate.
  - reflexivity.
  - reflexivity.
  - reflexivity.
  - right. exists (Qmean [12; 7]%Q). reflexivity.
Defined.


Lemma report_max_drawdown_witness :
  exists stats equity_curve drawdown max_drawdown,
    calculate_comprehensive_stats (fun q => q) sample_trades "ES" =
    Ok (stats, equity_curve, drawdown) /\
    report_get "Max Drawdown" stats = Some (VNum max_drawdown) /\
    (max_drawdown <= 0)%Q /\
    Forall (fun d => (max_drawdown <= d)%Q) drawdown /\
    exists d, In d drawdown /\ (max_drawdown == d)%Q.
Proof.
  apply (report_max_drawdown (fun q => q) sample_trades "ES" [100; -20]%Q
           [(4 * one_day)%Z; (6 * one_day + 3600000000000)%Z]
           [(4 * one_day + 3600000000000)%Z; (6 * one_day + 7200000000000)%Z]).
  - discriminate.
  - reflexivity.
  - reflexivity.
  - reflexivity.
  - right. exists (Qmean [12; 7]%Q). reflexivity.
Defined.

Lemma report_largest_trades_witness :
  exists stats equity_curve drawdown largest_win largest_loss,
    calculate_comprehensive_stats (fun q => q) sample_trades "ES" =
    Ok (stats, equity_curve, drawdown) /\
    report_get "Largest Winning Trade" stats = Some (VNum largest_win) /\
    report_get "Largest Losing Trade" stats = Some (VNum largest_loss) /\
    Forall (fun p => (largest_loss <= p <= largest_win)%Q) [100; -20]%Q /\
    (exists p, In p [100; -20]%Q /\ (largest_win == p)%Q) /\
    (exists p, In p [100; -20]%Q /\ (largest_loss == p)%Q).
Proof.
  apply (report_largest_trades (fun q => q) sample_trades "ES" [100; -20]%Q
           [(4 * one_day)%Z; (6 * one_day + 3600000000000)%Z]
           [(4 * one_day + 3600000000000)%Z; (6 * one_day + 7200000000000)%Z]).
  - discriminate.
  - reflexivity.
  - reflexivity.
  - reflexivity.
  - right. exists (Qmean [12; 7]%Q). reflexivity.
Defined.

(* ----------------------------------------------------------------- *)
(** ** Missing columns *)

Lemma has_column_false_get (df : DataFrame) (col : string) :
  has_column df col = false -> get_column df col = Raise (KeyError col).
Proof.
  unfold has_column, get_column.
  destruct (col_index col (columns df)); [discriminate|reflexivity].
Qed.

Section MissingColumns.

Variable np_sqrt : Q -> Q.

(** On a trade set with rows the statistics function raises a KeyError
    when the profit column is missing, and also when a time column is
    missing: the average holding time is guarded by a test on the two time
    columns, but the recovery and flat periods are computed without one. *)
Theorem calculate_comprehensive_stats_missing_column
        (df : DataFrame) (instrument_name : string) :
  len df <> 0 ->
  (has_column df "Profit" = false ->
   calculate_comprehensive_stats np_sqrt df instrument_name = Raise (KeyError "Profit")) /\
  (forall profits,
      numbers df "Profit" = Ok profits -> bars_readable df ->
      has_column df "Entry time" = false ->
      calculate_comprehensive_stats np_sqrt df instrument_name =
      Raise (KeyError "Entry time")) /\
  (forall profits entry,
      numbers df "Profit" = Ok profits -> bars_readable df ->
      times df "Entry time" = Ok entry ->
      has_column df "Exit time" = false ->
      calculate_comprehensive_stats np_sqrt df instrument_name =
      Raise (KeyError "Exit time")).
Proof.
  intros Hdf. pose proof Hdf as Hdf'. apply Nat.eqb_neq in Hdf'.
  split; [|split].
  - intros Hp. unfold calculate_comprehensive_stats, numbers.
    rewrite Hdf', (has_column_false_get _ _ Hp). reflexivity.
  - intros profits Hprofits Hbars Hentry.
    unfold calculate_comprehensive_stats.
    rewrite Hdf', Hprofits. cbn [bind]. cbv zeta. rewrite Hentry. cbn [andb bind].
    assert (Hrec : calculate_recovery_and_flat_periods df (cumsum profits) =
                   Raise (KeyError "Entry time")).
    { unfold calculate_recovery_and_flat_periods, times.
      rewrite Hdf', cumsum_length, (numbers_length _ _ _ Hprofits), Hdf'.
      cbn [orb]. rewrite (has_column_false_get _ _ Hentry). reflexivity. }
    rewrite Hrec.
    destruct Hbars as [Hb|[avg_bars Hb]];
      [rewrite Hb|rewrite Hb; destruct (has_column df "Bars")]; reflexivity.
  - intros profits entry Hprofits Hbars Hentry Hexit.
    unfold calculate_comprehensive_stats.
    rewrite Hdf', Hprofits. cbn [bind]. cbv zeta.
    rewrite Hexit, andb_false_r. cbn [bind].
    assert (Hrec : calculate_recovery_and_flat_periods df (cumsum profits) =
                   Raise (KeyError "Exit time")).
    { unfold calculate_recovery_and_flat_periods.
      rewrite Hdf', cumsum_length, (numbers_length _ _ _ Hprofits), Hdf'.
      cbn [orb]. rewrite Hentry. cbn [bind]. unfold times.
      rewrite (has_column_false_get _ _ Hexit). reflexivity. }
    rewrite Hrec.
    destruct Hbars as [Hb|[avg_bars Hb]];
      [rewrite Hb|rewrite Hb; destruct (has_column df "Bars")]; reflexivity.
Qed.

End MissingColumns.

Lemma calculate_comprehensive_stats_missing_column_witness :
  calculate_comprehensive_stats (fun q => q) sample_positions "ES" =
  Raise (KeyError "Entry time").
Proof.
  apply (proj1 (proj2 (calculate_comprehensive_stats_missing_column
                         (fun q => q) sample_positions "ES" ltac:(discriminate)))
           [10; -4]%Q).
  - reflexivity.
  - left. reflexivity.
  - reflexivity.
Defined.

(* ----------------------------------------------------------------- *)
(** ** Time to recover *)

Lemma peak_fold_highs (eq_df : list (Z * Q)) (m : Z) (peak : Q) (pt : Z) :
  fst (fst (fold_left peak_step eq_df (m, Some peak, Some pt))) =
  fold_left Z.max (durations (pt :: map fst (equity_highs_from peak eq_df))) m.
Proof.
  revert m peak pt. induction eq_df as [|[t e] rest IH]; intros m peak pt; [reflexivity|].
  cbn [fold_left peak_step equity_highs_from].
  destruct (Qgtb e peak).
  - rewrite IH. cbn [map fst].
    change (durations (pt :: t :: map fst (equity_highs_from e rest)))
      with ((t - pt)%Z :: durations (t :: map fst (equity_highs_from e rest))).
    cbn [fold_left]. f_equal.
    destruct (t - pt >? m)%Z eqn:E.
    + apply Z.gtb_lt in E. lia.
    + rewrite Z.gtb_ltb in E. apply Z.ltb_ge in E. lia.
  - apply IH.
Qed.

Lemma fold_left_Zmax_ge (l : list Z) (m : Z) : (m <= fold_left Z.max l m)%Z.
Proof.
  revert m. induction l as [|x t IH]; intros m; simpl; [lia|].
  specialize (IH (Z.max m x)). lia.
Qed.

(** The maximum time to recover is the longest duration between two
    consecutive new highs of the equity, each taken at the exit time of its
    trade, and 0 when the equity has a single high; it is never negative. *)
Theorem max_time_to_recover_between_highs (eq_df : list (Z * Q)) :
  max_time_to_recover_of eq_df =
  fold_left Z.max (durations (map fst (equity_highs eq_df))) 0%Z /\
  (0 <= max_time_to_recover_of eq_df)%Z /\
  (forall time equity rest,
      eq_df = (time, equity) :: rest ->
      Forall (fun row => (snd row <= equity)%Q) rest ->
      max_time_to_recover_of eq_df = 0%Z).
Proof.
  assert (Heq : max_time_to_recover_of eq_df =
                fold_left Z.max (durations (map fst (equity_highs eq_df))) 0%Z).
  { unfold max_time_to_recover_of. destruct eq_df as [|[t e] rest]; [reflexivity|].
    cbn [fold_left peak_step equity_highs map fst]. apply peak_fold_highs. }
  split; [exact Heq|]. split.
  - rewrite Heq. apply fold_left_Zmax_ge.
  - intros time equity rest -> Hrest. rewrite Heq. cbn [equity_highs].
    assert (Hnone : equity_highs_from equity rest = []).
    { clear Heq. induction Hrest as [|[t e] r He _ IH]; [reflexivity|].
      cbn [equity_highs_from]. simpl in He.
      destruct (Qgtb e equity) eqn:E; [|exact IH].
      unfold Qgtb in E. apply Qltb_lt in E. lra. }
    rewrite Hnone. reflexivity.
Qed.

Lemma max_time_to_recover_between_highs_witness :
  max_time_to_recover_of [(10%Z, 100%Q); (20%Z, 80%Q); (35%Z, 100%Q)] = 0%Z.
Proof.
  apply (proj2 (proj2 (max_time_to_recover_between_highs
                         [(10%Z, 100%Q); (20%Z, 80%Q); (35%Z, 100%Q)]))
           10%Z 100%Q [(20%Z, 80%Q); (35%Z, 100%Q)]).
  - reflexivity.
  - repeat constructor; simpl; discriminate.
Defined.

(* ----------------------------------------------------------------- *)
(** ** The weekdays share out the trades *)

Lemma list_sum_map_add {A : Type} (f g : A -> nat) (l : list A) :
  list_sum (map (fun a => f a + g a) l) = list_sum (map f l) + list_sum (map g l).
Proof. induction l as [|a t IH]; simpl; lia. Qed.

Lemma list_sum_indicator (x : nat) (classes : list nat) :
  NoDup classes -> In x classes ->
  list_sum (map (fun c => if x =? c then 1 else 0) classes) = 1.
Proof.
  induction 1 as [|c cs Hc Hcs IH]; [contradiction|]. simpl.
  destruct (x =? c) eqn:E.
  - intros _. apply Nat.eqb_eq in E. subst c.
    assert (Hz : list_sum (map (fun c => if x =? c then 1 else 0) cs) = 0).
    { clear IH Hcs. induction cs as [|d ds IHd]; [reflexivity|]. simpl.
      destruct (x =? d) eqn:E'.
      - apply Nat.eqb_eq in E'. subst d. exfalso. apply Hc. now left.
      - apply IHd. intros H. apply Hc. now right. }
    lia.
  - intros [H|H]; [apply Nat.eqb_neq in E; congruence|]. now apply IH.
Qed.

(** Each element of a list falls in exactly one of the classes of a list of
    distinct classes that holds its class. *)
Lemma classes_partition {A : Type} (class : A -> nat) (classes : list nat) (l : list A) :
  NoDup classes ->
  Forall (fun a => In (class a) classes) l ->
  list_sum (map (fun c => length (filter (fun a => class a =? c) l)) classes) = length l.
Proof.
  intros Hnd. induction 1 as [|a t Ha _ IH].
  - simpl. clear Hnd. induction classes; simpl; auto.
  - simpl length. rewrite <- IH.
    rewrite (map_ext _ (fun c => (if class a =? c then 1 else 0) +
                                 length (filter (fun x => class x =? c) t))).
    + rewrite list_sum_map_add, list_sum_indicator by assumption. reflexivity.
    + intros c. simpl. destruct (class a =? c); reflexivity.
Qed.

Lemma day_profits_length (day_num : nat) (entry : list Z) (profits : list Q) :
  length entry = length profits ->
  length (day_profits day_num entry profits) =
  length (filter (fun t => dayofweek t =? day_num) entry).
Proof.
  unfold day_profits. rewrite length_map. revert profits.
  induction entry as [|t entry IH]; intros [|p profits] Hlen; try discriminate;
    [reflexivity|].
  simpl. destruct (dayofweek t =? day_num); simpl; rewrite IH; auto.
Qed.

Lemma list_sum_filter_zero {A : Type} (f : A -> nat) (p : A -> bool) (l : list A) :
  (forall a, In a l -> p a = false -> f a = 0) ->
  list_sum (map f (filter p l)) = list_sum (map f l).
Proof.
  induction l as [|a t IH]; intros H; [reflexivity|]. simpl.
  destruct (p a) eqn:E; simpl.
  - rewrite IH; [reflexivity|]. intros b Hb. apply H. now right.
  - rewrite IH, (H a); [reflexivity|now left|exact E|].
    intros b Hb. apply H. now right.
Qed.

(** The rows of the day-of-week breakdown count every trade of the set
    once: their numbers of trades are positive and add up to the number of
    trades of the set. *)
Theorem day_of_week_counts_all_trades (df : DataFrame) (entry : list Z) (profits : list Q) :
  times df "Entry time" = Ok entry ->
  numbers df "Profit" = Ok profits ->
  exists out counts,
    calculate_day_of_week_stats df = Ok out /\
    map (cell_of (columns out) "Number of Trades") (rows out) =
    map (fun n => CNum (Qnat n)) counts /\
    Forall (fun n => 0 < n) counts /\
    list_sum counts = len df.
Proof.
  intros Hentry Hprofits.
  pose proof (times_length _ _ _ Hentry) as Hle.
  pose proof (numbers_length _ _ _ Hprofits) as Hlp.
  set (count := fun d => length (filter (fun t => dayofweek t =? d) entry)).
  assert (Hsum : list_sum (map count (traded_days entry)) = len df).
  { unfold traded_days. rewrite list_sum_filter_zero.
    - rewrite <- Hle. apply (classes_partition dayofweek (seq 0 7) entry).
      + apply seq_NoDup.
      + rewrite Forall_forall. intros t _. apply in_seq.
        pose proof (dayofweek_lt t). lia.
    - intros d _ Hd. unfold count.
      destruct (filter (fun t => dayofweek t =? d) entry) as [|t ts] eqn:E; [reflexivity|].
      assert (Hin : In t (filter (fun t => dayofweek t =? d) entry)) by (rewrite E; now left).
      apply filter_In in Hin. destruct Hin as [Hin Ht].
      assert (Hex : existsb (fun t => dayofweek t =? d) entry = true)
        by (apply existsb_exists; eauto).
      congruence. }
  assert (Hpos : Forall (fun n => 0 < n) (map count (traded_days entry))).
  { rewrite Forall_map, Forall_forall. intros d Hd.
    apply traded_days_spec in Hd. destruct Hd as (_ & t & Ht & Hd). unfold count.
    assert (Hin : In t (filter (fun t => dayofweek t =? d) entry)).
    { apply filter_In. split; [exact Ht|now apply Nat.eqb_eq]. }
    destruct (filter _ entry); [contradiction|simpl; lia]. }
  destruct (Nat.eq_dec (len df) 0) as [Hz|Hnz].
  - exists empty_frame, []. unfold calculate_day_of_week_stats. rewrite Hz.
    split; [reflexivity|]. split; [reflexivity|]. split; [constructor|reflexivity].
  - exists (mkDataFrame day_columns (map (day_row entry profits) (traded_days entry))),
      (map count (traded_days entry)).
    split; [exact (calculate_day_of_week_stats_ok df entry profits Hnz Hentry Hprofits)|].
    split; [|split; assumption].
    cbn [columns rows]. rewrite !map_map. apply map_ext. intros d.
    unfold count. rewrite <- (day_profits_length d entry profits) by congruence.
    reflexivity.
Qed.

Lemma day_of_week_counts_all_trades_witness :
  exists out counts,
    calculate_day_of_week_stats sample_trades = Ok out /\
    map (cell_of (columns out) "Number of Trades") (rows out) =
    map (fun n => CNum (Qnat n)) counts /\
    Forall (fun n => 0 < n) counts /\
    list_sum counts = len sample_trades.
Proof.
  apply (day_of_week_counts_all_trades sample_trades
           [(4 * one_day)%Z; (6 * one_day + 3600000000000)%Z] [100; -20]%Q).
  - reflexivity.
  - reflexivity.
Defined.

(* ----------------------------------------------------------------- *)
(** ** Concurrency of instruments *)

Lemma unique_by_incl {A : Type} (eqb : A -> A -> bool) (seen l : list A) (x : A) :
  In x (unique_by eqb seen l) -> In x l.
Proof.
  revert seen. induction l as [|y t IH]; intros seen; simpl; [tauto|].
  destruct (existsb (eqb y) seen).
  - intros H. right. eapply IH; eauto.
  - intros [->|H]; [now left|]. right. eapply IH; eauto.
Qed.

Lemma unique_by_nonempty {A : Type} (eqb : A -> A -> bool) (l : list A) :
  l <> [] -> unique_by eqb [] l <> [].
Proof. destruct l as [|x t]; [congruence|]. intros _. simpl. discriminate. Qed.

Lemma unique_cells_dates (seen l : list Z) :
  unique_by cell_eqb (map CDate seen) (map CDate l) = map CDate (unique_by Z.eqb seen l).
Proof.
  revert seen. induction l as [|x t IH]; intros seen; [reflexivity|]. simpl.
  assert (He : existsb (cell_eqb (CDate x)) (map CDate seen) = existsb (Z.eqb x) seen).
  { clear. induction seen as [|s ss IHs]; [reflexivity|]. simpl. now rewrite IHs. }
  rewrite He. destruct (existsb (Z.eqb x) seen); [apply IH|].
  simpl. f_equal. apply (IH (x :: seen)).
Qed.

Lemma unique_strings_NoDup (seen l : list string) : NoDup (unique_by String.eqb seen l).
Proof.
  revert seen. induction l as [|x t IH]; intros seen; simpl; [constructor|].
  destruct (existsb (String.eqb x) seen) eqn:E; [apply IH|].
  constructor; [|apply IH].
  intros H. apply unique_strings_In in H. destruct H as [_ H]. apply H. now left.
Qed.

Lemma group_by_length {A : Type} (keys : list cell) (values : list A) :
  length (group_by keys values) = length (unique_by cell_eqb [] keys).
Proof. unfold group_by. now rewrite length_map, stable_sort_length. Qed.

(** A group of [group_by] has a key of the frame and one row at least. *)
Lemma group_by_members {A : Type} (keys : list cell) (values : list A) (g : cell * list A) :
  length keys = length values ->
  (forall k, In k keys -> cell_eqb k k = true) ->
  In g (group_by keys values) ->
  In (fst g) keys /\ snd g <> [] /\ incl (snd g) values.
Proof.
  intros Hlen Hrefl Hin. unfold group_by in Hin. apply in_map_iff in Hin.
  destruct Hin as (k & <- & Hk). cbn [fst snd].
  apply (Permutation_in _ (stable_sort_perm cell_leb _)) in Hk.
  apply unique_by_incl in Hk. split; [exact Hk|]. split.
  - assert (Hgen : forall ks vs, length ks = length vs -> In k ks -> cell_eqb k k = true ->
                   map snd (filter (fun kv : cell * A => cell_eqb (fst kv) k) (combine ks vs)) <> []).
    { induction ks as [|k0 ks IH]; intros [|v vs] Hl Hi He; try discriminate; [contradiction|].
      simpl. destruct Hi as [->|Hi].
      - rewrite He. discriminate.
      - destruct (cell_eqb k0 k); [discriminate|]. apply IH; auto. }
    apply Hgen; auto.
  - intros v Hv. apply in_map_iff in Hv. destruct Hv as ([k' v'] & <- & Hf).
    apply filter_In in Hf. destruct Hf as [Hf _]. now apply in_combine_r in Hf.
Qed.

Lemma list_min_spec (l : list nat) (b : nat) :
  l <> [] -> Forall (fun n => b <= n) l -> b <= list_min l /\ list_min l <= list_max l.
Proof.
  destruct l as [|x t]; [congruence|]. intros _ H.
  inversion H as [|? ? Hx Ht]; subst. unfold list_min.
  assert (Hfold : forall t a, b <= a -> Forall (fun n => b <= n) t ->
                  b <= fold_left Nat.min t a /\ fold_left Nat.min t a <= a).
  { clear. induction t as [|y t IH]; intros a Ha Ht; simpl; [lia|].
    inversion Ht as [|? ? Hy Ht']; subst.
    destruct (IH (Nat.min a y)) as [Hlo Hhi]; [lia|assumption|]. lia. }
  destruct (Hfold t x Hx Ht) as [H1 H2]. split; [exact H1|].
  change (list_max (x :: t)) with (Nat.max x (list_max t)). lia.
Qed.

Lemma list_max_le (l : list nat) (b : nat) : Forall (fun n => n <= b) l -> list_max l <= b.
Proof.
  induction 1 as [|x t Hx _ IH]; [simpl; lia|].
  change (list_max (x :: t)) with (Nat.max x (list_max t)). lia.
Qed.

(** The number of distinct names of a group lies between 1 and the number
    of distinct names of the frame. *)
Lemma group_summary_count (keys : list cell) (instruments : list string) (profits : list Q)
      (g : cell * list (string * Q)) :
  length keys = length instruments -> length instruments = length profits ->
  (forall k, In k keys -> cell_eqb k k = true) ->
  In g (group_by keys (combine instruments profits)) ->
  1 <= snd (fst (group_summary g)) <= length (unique_strings instruments).
Proof.
  intros Hk Hp Hrefl Hin.
  destruct (group_by_members keys (combine instruments profits) g) as (_ & Hne & Hincl);
    [rewrite length_combine; lia|exact Hrefl|exact Hin|].
  unfold group_summary. cbn [fst snd]. split.
  - assert (H : unique_strings (map fst (snd g)) <> []).
    { apply unique_by_nonempty. destruct (snd g); [congruence|discriminate]. }
    destruct (unique_strings (map fst (snd g))); [congruence|simpl; lia].
  - apply NoDup_incl_length; [apply unique_strings_NoDup|].
    intros name Hname. apply unique_strings_In in Hname. destruct Hname as [Hname _].
    apply unique_strings_In. split; [|tauto].
    apply in_map_iff in Hname. destruct Hname as ([n q] & <- & Hnq).
    apply Hincl in Hnq. now apply in_combine_l in Hnq.
Qed.

Lemma strings_length (df : DataFrame) (col : string) (l : list string) :
  strings df col = Ok l -> length l = len df.
Proof.
  unfold strings. destruct (get_column df col) as [cells|] eqn:E; [|discriminate].
  cbn [bind]. intros H. apply mapM_length in H.
  apply get_column_length in E. congruence.
Qed.

(** The counts of instruments of the groups of a frame with rows. *)
Lemma group_counts_bounds (keys : list cell) (instruments : list string) (profits : list Q) :
  keys <> [] ->
  length keys = length instruments -> length instruments = length profits ->
  (forall k, In k keys -> cell_eqb k k = true) ->
  let counts :=
    map (fun s : cell * nat * Q => snd (fst s))
        (map group_summary (group_by keys (combine instruments profits))) in
  1 <= list_min counts /\ list_min counts <= list_max counts /\
  list_max counts <= length (unique_strings instruments).
Proof.
  intros Hne Hk Hp Hrefl counts.
  assert (Hall : Forall (fun n => 1 <= n <= length (unique_strings instruments)) counts).
  { unfold counts. rewrite !Forall_map, Forall_forall. intros g Hg.
    now apply (group_summary_count keys instruments profits). }
  assert (Hcne : counts <> []).
  { unfold counts. intros H. apply map_eq_nil, map_eq_nil in H.
    apply (f_equal (@length _)) in H. rewrite group_by_length in H.
    apply (unique_by_nonempty cell_eqb) in Hne.
    destruct (unique_by cell_eqb [] keys); [congruence|discriminate]. }
  destruct (list_min_spec counts 1 Hcne) as [H1 H2].
  { rewrite Forall_forall in *. intros n Hn. apply Hall, Hn. }
  split; [exact H1|]. split; [exact H2|].
  apply list_max_le. rewrite Forall_forall in *. intros n Hn. apply Hall, Hn.
Qed.

(** On a trade set with rows, the daily report counts one trading day for
    each calendar day on which a trade was entered; the least number of
    instruments traded on a day is at least 1, the greatest is at least the
    least and at most the number of instruments of the set. *)
Theorem daily_instrument_stats_bounds
        (df : DataFrame) (entry : list Z) (instruments : list string) (profits : list Q) :
  len df <> 0 ->
  times df "Entry time" = Ok entry ->
  strings df "Instrument" = Ok instruments ->
  numbers df "Profit" = Ok profits ->
  exists stats daily_instruments min_instruments max_instruments,
    calculate_daily_instrument_stats df = Ok (stats, daily_instruments) /\
    report_get "min_instruments" stats = Some (VCount min_instruments) /\
    report_get "max_instruments" stats = Some (VCount max_instruments) /\
    report_get "total_trading_days" stats =
    Some (VCount (length (uniqueZ (map date_of entry)))) /\
    len daily_instruments = length (uniqueZ (map date_of entry)) /\
    1 <= min_instruments /\ min_instruments <= max_instruments /\
    max_instruments <= length (unique_strings instruments).
Proof.
  intros Hdf Hentry Hinstr Hprofits.
  pose proof (times_length _ _ _ Hentry) as Hle.
  pose proof (strings_length _ _ _ Hinstr) as Hli.
  pose proof (numbers_length _ _ _ Hprofits) as Hlp.
  unfold calculate_daily_instrument_stats.
  pose proof Hdf as Hdf'. apply Nat.eqb_neq in Hdf'. rewrite Hdf'.
  rewrite Hentry, Hinstr, Hprofits. cbn [bind]. cbv zeta.
  set (dates := map (fun t => CDate (date_of t)) entry).
  assert (Hdays : length (map group_summary (group_by dates (combine instruments profits))) =
                  length (uniqueZ (map date_of entry))).
  { rewrite length_map, group_by_length. unfold dates, uniqueZ.
    rewrite <- (map_map date_of CDate).
    change (@nil cell) with (map CDate []).
    rewrite (unique_cells_dates [] (map date_of entry)). apply length_map. }
  destruct (group_counts_bounds dates instruments profits) as (H1 & H2 & H3).
  - unfold dates. destruct entry; [simpl in Hle; congruence|discriminate].
  - unfold dates. rewrite length_map. congruence.
  - congruence.
  - intros k Hk. unfold dates in Hk. apply in_map_iff in Hk.
    destruct Hk as (t & <- & _). simpl. apply Z.eqb_refl.
  - do 4 eexists. split; [reflexivity|].
    split; [reflexivity|]. split; [reflexivity|].
    split; [unfold len; cbn [rows]; rewrite length_map, Hdays; reflexivity|].
    split; [unfold len; cbn [rows]; rewrite length_map; exact Hdays|].
    split; [exact H1|]. split; [exact H2|exact H3].
Qed.

Lemma daily_instrument_stats_bounds_witness :
  exists stats daily_instruments min_instruments max_instruments,
    calculate_daily_instrument_stats sample_combined = Ok (stats, daily_instruments) /\
    report_get "min_instruments" stats = Some (VCount min_instruments) /\
    report_get "max_instruments" stats = Some (VCount max_instruments) /\
    report_get "total_trading_days" stats = Some (VCount 1) /\
    len daily_instruments = 1 /\
    1 <= min_instruments /\ min_instruments <= max_instruments /\
    max_instruments <= 2.
Proof.
  apply (daily_instrument_stats_bounds sample_combined
           [(4 * one_day + 34200000000000)%Z; (4 * one_day + 34320000000000)%Z;
            (4 * one_day + 36000000000000)%Z]
           ["ES"; "NQ"; "ES"] [100; -20; 50]%Q).
  - discriminate.
  - reflexivity.
  - reflexivity.
  - reflexivity.
Defined.

Lemma floor_5min_spec (t : Z) :
  (floor_5min t mod five_minutes = 0)%Z /\
  (floor_5min t <= t < floor_5min t + five_minutes)%Z.
Proof.
  unfold floor_5min.
  assert (Hd : (0 < five_minutes)%Z) by reflexivity.
  pose proof (Z.mod_pos_bound t five_minutes Hd) as Hb. split; [|lia].
  rewrite Zminus_mod_idemp_r, Z.sub_diag. reflexivity.
Qed.

(** On a trade set with rows, the 5-minute report lists at most 10 of the
    windows with the most instruments and at most 50 rows of details; every
    window of the frame it returns starts on a multiple of five minutes and
    holds the entry of a trade of the set, less than five minutes after its
    start. *)
Theorem window_stats_bounds
        (df : DataFrame) (entry : list Z) (instruments : list string) (profits : list Q) :
  len df <> 0 ->
  times df "Entry time" = Ok entry ->
  strings df "Instrument" = Ok instruments ->
  numbers df "Profit" = Ok profits ->
  exists stats window_instruments windows details,
    calculate_5min_window_stats df = Ok (stats, window_instruments) /\
    report_get "max_instrument_windows" stats = Some (VTimes windows) /\
    length windows <= 10 /\
    report_get "window_details" stats = Some (VFrame details) /\
    len details <= 50 /\
    report_get "total_windows" stats = Some (VCount (len window_instruments)) /\
    Forall (fun r => exists t,
                In t entry /\ nth 0 r CNull = CTime (floor_5min t) /\
                (floor_5min t mod five_minutes = 0)%Z /\
                (floor_5min t <= t < floor_5min t + five_minutes)%Z)
           (rows window_instruments).
Proof.
  intros Hdf Hentry Hinstr Hprofits.
  pose proof (times_length _ _ _ Hentry) as Hle.
  pose proof (strings_length _ _ _ Hinstr) as Hli.
  pose proof (numbers_length _ _ _ Hprofits) as Hlp.
  unfold calculate_5min_window_stats.
  pose proof Hdf as Hdf'. apply Nat.eqb_neq in Hdf'. rewrite Hdf'.
  rewrite Hentry, Hinstr, Hprofits. cbn [bind]. cbv zeta.
  set (windows := map (fun t => CTime (floor_5min t)) entry).
  do 4 eexists. split; [reflexivity|].
  split; [reflexivity|]. split; [apply firstn_le_length|].
  split; [reflexivity|]. split; [unfold len; cbn [rows]; apply firstn_le_length|].
  split; [reflexivity|].
  cbn [rows]. rewrite !Forall_map, Forall_forall. intros g Hg.
  destruct (group_by_members windows (combine instruments profits) g) as (Hk & _ & _).
  - unfold windows. rewrite length_map, length_combine. lia.
  - intros k Hk. unfold windows in Hk. apply in_map_iff in Hk.
    destruct Hk as (t & <- & _). simpl. apply Z.eqb_refl.
  - exact Hg.
  - unfold windows in Hk. apply in_map_iff in Hk. destruct Hk as (t & Ht & Hin).
    exists t. split; [exact Hin|]. split; [simpl; congruence|]. apply floor_5min_spec.
Qed.

Lemma window_stats_bounds_witness :
  exists stats window_instruments windows details,
    calculate_5min_window_stats sample_combined = Ok (stats, window_instruments) /\
    report_get "max_instrument_windows" stats = Some (VTimes windows) /\
    length windows <= 10 /\
    report_get "window_details" stats = Some (VFrame details) /\
    len details <= 50.
Proof.
  destruct (window_stats_bounds sample_combined
              [(4 * one_day + 34200000000000)%Z; (4 * one_day + 34320000000000)%Z;
               (4 * one_day + 36000000000000)%Z]
              ["ES"; "NQ"; "ES"] [100; -20; 50]%Q)
    as (stats & frame & windows & details & H1 & H2 & H3 & H4 & H5 & _).
  - discriminate.
  - reflexivity.
  - reflexivity.
  - reflexivity.
  - exists stats, frame, windows, details. auto.
Defined.

(* ================================================================= *)
(** * Further properties of the trade processing *)

(* ----------------------------------------------------------------- *)
(** ** Direction filter *)

Lemma cell_eqb_text (c : cell) (s : string) : cell_eqb c (CStr s) = true <-> c = CStr s.
Proof.
  destruct c; simpl; split; try discriminate.
  - intros H. apply String.eqb_eq in H. now subst.
  - intros [= ->]. apply String.eqb_refl.
Qed.

Lemma filter_idem {A : Type} (f : A -> bool) (l : list A) : filter f (filter f l) = filter f l.
Proof.
  induction l as [|a t IH]; [reflexivity|]. simpl.
  destruct (f a) eqn:E; simpl; [rewrite E|]; congruence.
Qed.

Lemma filter_disjoint_length {A : Type} (f g : A -> bool) (l : list A) :
  (forall a, f a = true -> g a = true -> False) ->
  length (filter f l) + length (filter g l) <= length l.
Proof.
  intros H. induction l as [|a t IH]; simpl; [lia|].
  destruct (f a) eqn:Ef, (g a) eqn:Eg; simpl; try lia.
  exfalso. eauto.
Qed.

(** On a frame with the column Market pos., Long Only keeps the rows whose
    position is Long, in their order, and Short Only those whose position is
    Short; no row is kept by both, and the columns are kept.  Filtering a
    second time with the same direction changes nothing, whatever the
    direction and the frame. *)
Theorem filter_trades_by_direction_positions (df : DataFrame) :
  (has_column df "Market pos." = true ->
   rows (filter_trades_by_direction df "Long Only") =
   filter (fun r => cell_eqb (cell_of (columns df) "Market pos." r) (CStr "Long")) (rows df) /\
   rows (filter_trades_by_direction df "Short Only") =
   filter (fun r => cell_eqb (cell_of (columns df) "Market pos." r) (CStr "Short")) (rows df) /\
   Forall (fun r => cell_of (columns df) "Market pos." r = CStr "Long")
          (rows (filter_trades_by_direction df "Long Only")) /\
   Forall (fun r => cell_of (columns df) "Market pos." r = CStr "Short")
          (rows (filter_trades_by_direction df "Short Only")) /\
   len (filter_trades_by_direction df "Long Only") +
   len (filter_trades_by_direction df "Short Only") <= len df) /\
  (forall direction,
      columns (filter_trades_by_direction df direction) = columns df /\
      filter_trades_by_direction (filter_trades_by_direction df direction) direction =
      filter_trades_by_direction df direction).
Proof.
  split.
  - intros Hcol. unfold filter_trades_by_direction, select_rows, position_is, len.
    rewrite Hcol. cbn [String.eqb Ascii.eqb Bool.eqb orb negb rows andb].
    split; [reflexivity|]. split; [reflexivity|]. split; [|split].
    + rewrite Forall_forall. intros r Hr. apply filter_In in Hr.
      now apply cell_eqb_text.
    + rewrite Forall_forall. intros r Hr. apply filter_In in Hr.
      now apply cell_eqb_text.
    + apply filter_disjoint_length. intros r H1 H2.
      apply cell_eqb_text in H1, H2. congruence.
  - intros direction. split; [apply filter_trades_by_direction_columns|].
    unfold filter_trades_by_direction.
    destruct (String.eqb direction "All" || negb (has_column df "Market pos.")) eqn:E.
    + rewrite E. reflexivity.
    + destruct (String.eqb direction "Long Only") eqn:El.
      * change (has_column (select_rows df (position_is (columns df) "Long")) "Market pos.")
          with (has_column df "Market pos.").
        rewrite E. unfold select_rows. cbn [columns rows]. now rewrite filter_idem.
      * destruct (String.eqb direction "Short Only") eqn:Es.
        -- change (has_column (select_rows df (position_is (columns df) "Short"))
                               "Market pos.")
             with (has_column df "Market pos.").
           rewrite E. unfold select_rows. cbn [columns rows]. now rewrite filter_idem.
        -- rewrite E. reflexivity.
Qed.

Lemma filter_trades_by_direction_positions_witness :
  rows (filter_trades_by_direction sample_positions "Long Only") = [[CStr "Long"; CNum 10]] /\
  rows (filter_trades_by_direction sample_positions "Short Only") = [[CStr "Short"; CNum (-4)]].
Proof.
  destruct (proj1 (filter_trades_by_direction_positions sample_positions) eq_refl)
    as (H1 & H2 & _).
  split; [exact H1|exact H2].
Defined.

(* ----------------------------------------------------------------- *)
(** ** Columns written by the loader and the multiplier *)

(** Writing a column that the frame has keeps the cells of the others. *)
Lemma set_column_other (P : cell -> Prop) (df : DataFrame) (col col' : string)
      (values : list cell) :
  has_column df col = true -> col' <> col ->
  column_cells P df col' -> column_cells P (set_column df col values) col'.
Proof.
  intros Hcol Hne H. destruct (has_column_index _ _ Hcol) as [i Hi].
  unfold set_column. rewrite Hi. intros j Hj. cbn [columns rows] in *.
  specialize (H j Hj). rewrite Forall_map, Forall_forall in *. intros [r v] Hrv.
  cbn [fst snd]. rewrite nth_set_nth_other.
  - apply H. eapply in_combine_l; eauto.
  - intros ->. apply Hne. eapply col_index_inj; eauto.
Qed.

(** Writing [g] of each cell in a column gives cells with the property [P]
    when [g] sends the cells of the column to such cells. *)
Lemma set_column_same (P Q' : cell -> Prop) (df : DataFrame) (col : string) (i : nat)
      (g : cell -> cell) :
  col_index col (columns df) = Some i ->
  (forall c, Q' c -> P (g c)) -> P CNull ->
  column_cells Q' df col ->
  column_cells P
    (set_column df col (map g (map (fun r => nth i r CNull) (rows df)))) col.
Proof.
  intros Hi Hg Hnull H. rewrite (set_column_map df col i g Hi).
  intros j Hj. cbn [columns rows] in *. rewrite Hi in Hj. injection Hj as <-.
  specialize (H i Hi). rewrite Forall_map, Forall_forall in *. intros r Hr.
  destruct (Nat.lt_ge_cases i (length r)) as [Hlt|Hge].
  - rewrite nth_set_nth_same by exact Hlt. apply Hg, H, Hr.
  - rewrite set_nth_short by exact Hge. now rewrite nth_overflow.
Qed.

Lemma column_cells_rows (P : cell -> Prop) (cols : list string) (rs rs' : list row)
      (col : string) :
  incl rs' rs ->
  column_cells P (mkDataFrame cols rs) col -> column_cells P (mkDataFrame cols rs') col.
Proof.
  intros Hincl H i Hi. specialize (H i Hi). cbn [rows] in *.
  rewrite Forall_forall in *. auto.
Qed.

Lemma csv_frame_column (df : DataFrame) (col : string) :
  csv_frame df -> column_cells csv_cell df col.
Proof.
  intros H i _. unfold csv_frame in H. rewrite Forall_forall in *. intros r Hr.
  specialize (H r Hr). destruct (Nat.lt_ge_cases i (length r)) as [Hlt|Hge].
  - rewrite Forall_forall in H. apply H, nth_In, Hlt.
  - now rewrite nth_overflow.
Qed.

Section LoaderProperties.

Variable os_path_exists : string -> bool.
Variable pd_read_csv : string -> read_outcome.
Variable pd_to_datetime : string -> option Z.
Variable strptime : string -> option Z.
Variable pd_to_numeric : string -> option Q.

Local Abbreviation loader :=
  (load_and_filter_trades os_path_exists pd_read_csv pd_to_datetime strptime pd_to_numeric).

(** What a successful load tells of the file and of the dates. *)
Lemma load_and_filter_trades_inv (trade_file : string) (start_date end_date : date_arg)
      (out : DataFrame) :
  loader trade_file start_date end_date = Ok out ->
  exists raw parsed_entry parsed start end_,
    os_path_exists trade_file = true /\
    pd_read_csv trade_file = ReadFrame raw /\
    has_column raw "Entry time" = true /\
    has_column raw "Exit time" = true /\
    len raw <> 0 /\
    parse_time_column pd_to_datetime raw "Entry time" = Ok parsed_entry /\
    parse_time_column pd_to_datetime parsed_entry "Exit time" = Ok parsed /\
    date_value strptime start_date = Some start /\
    date_value strptime end_date = Some end_ /\
    sort_values
      (fold_left (clean_column pd_to_numeric) monetary_columns_loaded
         (select_rows parsed
            (fun r => in_range start (end_ + one_day)
                               (cell_of (columns parsed) "Entry time" r))))
      "Entry time" = Ok out.
Proof.
  unfold load_and_filter_trades.
  destruct (os_path_exists trade_file) eqn:Ex; cbn [negb]; [|discriminate].
  destruct (pd_read_csv trade_file) as [raw| |] eqn:Er; cbn [bind]; try discriminate.
  cbv zeta. cbn [filter].
  destruct (has_column raw "Entry time") eqn:H1, (has_column raw "Exit time") eqn:H2;
    cbn [negb length Nat.eqb]; try discriminate.
  destruct (len raw =? 0) eqn:El; [discriminate|]. apply Nat.eqb_neq in El.
  destruct (parse_time_column _ raw _) as [d1|] eqn:P1; cbn [bind]; [|discriminate].
  destruct (parse_time_column _ d1 _) as [d2|] eqn:P2; cbn [bind]; [|discriminate].
  destruct (start_of strptime start_date) as [start|] eqn:Hs; cbn [bind]; [|discriminate].
  destruct (end_of strptime end_date) as [stop|] eqn:He; cbn [bind]; [|discriminate].
  intros Hsort.
  assert (Hstart : date_value strptime start_date = Some start).
  { destruct start_date as [s|t]; simpl in *; [|congruence].
    destruct (strptime s); [congruence|discriminate]. }
  assert (Hend : exists end_, date_value strptime end_date = Some end_ /\
                              stop = (end_ + one_day)%Z).
  { destruct end_date as [s|t]; simpl in *.
    - destruct (strptime s) as [e|]; [|discriminate]. exists e. split; congruence.
    - exists t. split; congruence. }
  destruct Hend as (end_ & Hend & ->).
  exists raw, d1, d2, start, end_. repeat split; auto.
Qed.

Lemma parse_time_column_other (P : cell -> Prop) (df out : DataFrame) (col col' : string) :
  parse_time_column pd_to_datetime df col = Ok out -> col' <> col ->
  column_cells P df col' -> column_cells P out col'.
Proof.
  unfold parse_time_column. intros H Hne Hc.
  destruct (get_column df col) as [cells|] eqn:Eg; cbn [bind] in H; [|discriminate].
  destruct (to_datetime_cells _ cells) as [parsed|]; [|discriminate].
  injection H as <-. apply set_column_other; auto.
  unfold get_column in Eg. unfold has_column.
  destruct (col_index col (columns df)); [reflexivity|discriminate].
Qed.

Lemma clean_cell_money (c : cell) : csv_cell c -> money_cell (clean_cell pd_to_numeric c).
Proof.
  destruct c; simpl; try tauto. intros _.
  destruct (pd_to_numeric _); exact I.
Qed.

(** Cleaning a monetary column leaves numbers and nulls in it. *)
Lemma clean_column_same (df : DataFrame) (col : string) :
  column_cells csv_cell df col ->
  column_cells money_cell (clean_column pd_to_numeric df col) col.
Proof.
  intros H. unfold clean_column, has_column, get_column.
  destruct (col_index col (columns df)) as [i|] eqn:Ei.
  - destruct (is_object_dtype _) eqn:Eo.
    + apply (set_column_same money_cell csv_cell); auto using clean_cell_money. exact I.
    + intros j Hj. rewrite Ei in Hj. injection Hj as <-. specialize (H i Ei).
      unfold is_object_dtype in Eo.
      rewrite Forall_forall in *. intros r Hr. specialize (H r Hr).
      destruct (nth i r CNull) eqn:En; try exact I; try (exfalso; exact H).
      exfalso.
      assert (Hex : existsb is_text (map (fun r => nth i r CNull) (rows df)) = true).
      { apply existsb_exists. exists (CStr s). split; [|reflexivity].
        apply in_map_iff. exists r. auto. }
      congruence.
  - intros j Hj. congruence.
Qed.

Lemma clean_column_keeps (P : cell -> Prop) (df : DataFrame) (col col' : string) :
  col' <> col -> column_cells P df col' ->
  column_cells P (clean_column pd_to_numeric df col) col'.
Proof.
  intros Hne H. unfold clean_column.
  destruct (has_column df col) eqn:Ec; [|exact H].
  destruct (get_column df col) as [cells|]; [|exact H].
  destruct (is_object_dtype cells); [|exact H].
  apply set_column_other; auto.
Qed.

Lemma clean_columns_keep (P : cell -> Prop) (l : list string) (df : DataFrame) (col' : string) :
  ~ In col' l -> column_cells P df col' ->
  column_cells P (fold_left (clean_column pd_to_numeric) l df) col'.
Proof.
  revert df. induction l as [|c l IH]; intros df Hnot H; [exact H|].
  simpl. apply IH; [intros Hin; apply Hnot; now right|].
  apply clean_column_keeps; [|exact H]. intros ->. apply Hnot. now left.
Qed.

Lemma clean_columns_money (l : list string) :
  NoDup l ->
  forall df, (forall c, In c l -> column_cells csv_cell df c) ->
  forall c, In c l ->
  column_cells money_cell (fold_left (clean_column pd_to_numeric) l df) c.
Proof.
  intros Hnd. induction l as [|a l IH]; intros df Hcsv c Hc; [destruct Hc|].
  inversion Hnd as [|? ? Ha Hnd']; subst.
  simpl. destruct Hc as [->|Hc].
  - apply clean_columns_keep; [exact Ha|]. apply clean_column_same, Hcsv. now left.
  - apply IH; [exact Hnd'| |exact Hc]. intros c' Hc'.
    apply clean_column_keeps; [intros ->; contradiction|]. apply Hcsv. now right.
Qed.

End LoaderProperties.

Lemma to_datetime_cells_length (pd_to_datetime : string -> option Z)
      (cells parsed : list cell) :
  to_datetime_cells pd_to_datetime cells = Some parsed -> length parsed = length cells.
Proof.
  revert parsed. induction cells as [|c t IH]; simpl; intros parsed H.
  - injection H as <-. reflexivity.
  - destruct (to_datetime_cell pd_to_datetime c); [|discriminate].
    destruct (to_datetime_cells pd_to_datetime t); [|discriminate].
    injection H as <-. simpl. f_equal. now apply IH.
Qed.

Lemma parse_time_column_len (pd_to_datetime : string -> option Z)
      (df out : DataFrame) (col : string) :
  parse_time_column pd_to_datetime df col = Ok out -> len out = len df.
Proof.
  unfold parse_time_column. destruct (get_column df col) as [cells|] eqn:Eg; [|discriminate].
  cbn [bind]. destruct (to_datetime_cells _ cells) as [parsed|] eqn:Ep; [|discriminate].
  intros [= <-]. apply to_datetime_cells_length in Ep.
  pose proof (get_column_length _ _ _ Eg) as Hl.
  unfold get_column in Eg. unfold set_column, len in *.
  destruct (col_index col (columns df)); [|discriminate].
  cbn [rows]. rewrite length_map, length_combine. lia.
Qed.

Lemma monetary_columns_loaded_NoDup : NoDup monetary_columns_loaded.
Proof.
  unfold monetary_columns_loaded.
  repeat (constructor; [simpl; intros H; repeat (destruct H as [H|H]; [discriminate|]); exact H|]).
  constructor.
Qed.

Lemma sort_values_perm (df out : DataFrame) (col : string) :
  sort_values df col = Ok out ->
  columns out = columns df /\ Permutation (rows out) (rows df).
Proof.
  unfold sort_values. destruct (col_index col (columns df)); [|discriminate].
  intros [= <-]. split; [reflexivity|apply stable_sort_perm].
Qed.

Section LoaderTheorems.

Variable os_path_exists : string -> bool.
Variable pd_read_csv : string -> read_outcome.
Variable pd_to_datetime : string -> option Z.
Variable strptime : string -> option Z.
Variable pd_to_numeric : string -> option Q.

Local Abbreviation loader :=
  (load_and_filter_trades os_path_exists pd_read_csv pd_to_datetime strptime pd_to_numeric).

(** The frame of a successful load, from the frame read and the dates. *)
Lemma load_and_filter_trades_shape (trade_file : string) (start_date end_date : date_arg)
      (out : DataFrame) :
  loader trade_file start_date end_date = Ok out ->
  exists raw parsed start end_ cleaned,
    os_path_exists trade_file = true /\
    pd_read_csv trade_file = ReadFrame raw /\
    has_column raw "Entry time" = true /\
    has_column raw "Exit time" = true /\
    len raw <> 0 /\
    date_value strptime start_date = Some start /\
    date_value strptime end_date = Some end_ /\
    columns parsed = columns raw /\ len parsed = len raw /\
    (forall col, col <> "Entry time" -> col <> "Exit time" ->
                 column_cells csv_cell raw col -> column_cells csv_cell parsed col) /\
    cleaned =
    fold_left (clean_column pd_to_numeric) monetary_columns_loaded
      (mkDataFrame (columns raw)
         (filter (fun r => in_range start (end_ + one_day)
                                    (cell_of (columns raw) "Entry time" r))
                 (rows parsed))) /\
    columns cleaned = columns raw /\
    columns out = columns raw /\
    Permutation (rows out) (rows cleaned).
Proof.
  intros H.
  destruct (load_and_filter_trades_inv _ _ _ _ _ _ _ _ _ H)
    as (raw & d1 & d2 & start & end_ & Hx & Hr & H1 & H2 & Hl & P1 & P2 & Hs & He & Hsort).
  pose proof (parse_time_column_columns _ _ _ _ P1) as Hc1.
  pose proof (parse_time_column_columns _ _ _ _ P2) as Hc2.
  rewrite Hc1 in Hc2.
  pose proof (parse_time_column_len _ _ _ _ P1) as Hl1.
  pose proof (parse_time_column_len _ _ _ _ P2) as Hl2.
  unfold select_rows in Hsort. rewrite Hc2 in Hsort.
  destruct (clean_columns_other pd_to_numeric monetary_columns_loaded
              (mkDataFrame (columns raw)
                 (filter (fun r => in_range start (end_ + one_day)
                                            (cell_of (columns raw) "Entry time" r))
                         (rows d2)))
              "Entry time" entry_not_monetary) as [Hcc _].
  cbn [columns] in Hcc.
  exists raw, d2, start, end_. eexists.
  split; [exact Hx|]. split; [exact Hr|]. split; [exact H1|]. split; [exact H2|].
  split; [exact Hl|]. split; [exact Hs|]. split; [exact He|]. split; [exact Hc2|].
  split; [rewrite Hl2; exact Hl1|].
  split.
  { intros col Hn1 Hn2 Hcsv.
    apply (parse_time_column_other pd_to_datetime csv_cell d1 d2 "Exit time"); auto.
    apply (parse_time_column_other pd_to_datetime csv_cell raw d1 "Entry time"); auto. }
  split; [reflexivity|]. split; [exact Hcc|].
  apply sort_values_perm in Hsort. destruct Hsort as [Hco Hperm].
  split; [congruence|exact Hperm].
Qed.

End LoaderTheorems.

Section LoaderResults.

Variable os_path_exists : string -> bool.
Variable pd_read_csv : string -> read_outcome.
Variable pd_to_datetime : string -> option Z.
Variable strptime : string -> option Z.
Variable pd_to_numeric : string -> option Q.

Local Abbreviation loader :=
  (load_and_filter_trades os_path_exists pd_read_csv pd_to_datetime strptime pd_to_numeric).

(** The loader returns a frame only for a file that exists and reads as a
    frame with the two time columns and a row at least, and for dates that
    are valid; the frame has the columns of the file, no more rows than the
    file, and every row of it is entered between the start date, included,
    and the end date plus one day, excluded. *)
Theorem load_and_filter_trades_returns_only_valid
        (trade_file : string) (start_date end_date : date_arg) (out : DataFrame) :
  loader trade_file start_date end_date = Ok out ->
  os_path_exists trade_file = true /\
  exists raw start end_,
    pd_read_csv trade_file = ReadFrame raw /\
    has_column raw "Entry time" = true /\
    has_column raw "Exit time" = true /\
    len raw <> 0 /\
    date_value strptime start_date = Some start /\
    date_value strptime end_date = Some end_ /\
    columns out = columns raw /\
    len out <= len raw /\
    Forall (entered_in (columns out) start (end_ + one_day)) (rows out).
Proof.
  intros H.
  destruct (load_and_filter_trades_shape _ _ _ _ _ _ _ _ _ H)
    as (raw & parsed & start & end_ & cleaned & Hx & Hr & H1 & H2 & Hl & Hs & He &
        Hcp & Hlp & _ & Hcl & Hcc & Hco & Hperm).
  split; [exact Hx|]. exists raw, start, end_.
  split; [exact Hr|]. split; [exact H1|]. split; [exact H2|]. split; [exact Hl|].
  split; [exact Hs|]. split; [exact He|]. split; [exact Hco|].
  set (kept := filter (fun r => in_range start (end_ + one_day)
                                         (cell_of (columns raw) "Entry time" r))
                      (rows parsed)) in *.
  destruct (clean_columns_other pd_to_numeric monetary_columns_loaded
              (mkDataFrame (columns raw) kept) "Entry time" entry_not_monetary)
    as [_ Hrc].
  cbn [columns rows] in Hrc. rewrite <- Hcl in Hrc.
  assert (Hlen : length (rows cleaned) = length kept).
  { apply (f_equal (@length _)) in Hrc. now rewrite !length_map in Hrc. }
  split.
  - unfold len in *. rewrite (Permutation_length Hperm), Hlen, <- Hlp.
    unfold kept. apply filter_length_le.
  - rewrite Hco.
    assert (Hin : Forall (fun c => in_range start (end_ + one_day) c = true)
                         (map (cell_of (columns raw) "Entry time") (rows cleaned))).
    { rewrite Hrc, Forall_map, Forall_forall. intros r Hr'.
      apply filter_In in Hr'. apply Hr'. }
    rewrite Forall_map in Hin. rewrite Forall_forall in *. intros r Hr'.
    apply in_range_entered, Hin. now apply (Permutation_in _ Hperm).
Qed.

Lemma loaded_monetary_cells
      (trade_file : string) (start_date end_date : date_arg) (raw out : DataFrame) :
  pd_read_csv trade_file = ReadFrame raw ->
  csv_frame raw ->
  loader trade_file start_date end_date = Ok out ->
  forall col, In col monetary_columns_loaded -> column_cells money_cell out col.
Proof.
  intros Hread Hcsv H col Hcol.
  destruct (load_and_filter_trades_shape _ _ _ _ _ _ _ _ _ H)
    as (raw' & parsed & start & end_ & cleaned & _ & Hr & _ & _ & _ & _ & _ &
        Hcp & _ & Hkeep & Hcl & Hcc & Hco & Hperm).
  rewrite Hread in Hr. injection Hr as <-.
  assert (Hmoney : column_cells money_cell cleaned col).
  { rewrite Hcl.
    refine (clean_columns_money pd_to_numeric _ monetary_columns_loaded_NoDup _ _ col Hcol).
    intros c Hc. apply (column_cells_rows csv_cell (columns raw) (rows parsed)).
    - intros r Hr. apply filter_In in Hr. apply Hr.
    - assert (Hp : column_cells csv_cell parsed c).
      { apply Hkeep; [| |now apply csv_frame_column];
          intros ->; simpl in Hc;
          repeat (destruct Hc as [Hc|Hc]; [discriminate|]); exact Hc. }
      intros i Hi. apply Hp. cbn [columns] in Hi. now rewrite Hcp. }
  intros i Hi. rewrite Hco, <- Hcc in Hi. specialize (Hmoney i Hi).
  rewrite Forall_forall in Hmoney |- *. intros r Hr. apply Hmoney.
  now apply (Permutation_in _ Hperm).
Qed.

(** After a successful load of a file whose cells are text, numbers or
    nulls, every cell of the monetary columns of the frame is a number or a
    null: text that does not read as a number has become a null. *)
Theorem load_and_filter_trades_monetary_numeric
        (trade_file : string) (start_date end_date : date_arg) (raw out : DataFrame) :
  pd_read_csv trade_file = ReadFrame raw ->
  csv_frame raw ->
  loader trade_file start_date end_date = Ok out ->
  forall col cells,
    In col monetary_columns_loaded ->
    get_column out col = Ok cells ->
    Forall money_cell cells.
Proof.
  intros Hread Hcsv H col cells Hcol Hget.
  pose proof (loaded_monetary_cells _ _ _ _ _ Hread Hcsv H col Hcol) as Hmoney.
  unfold get_column in Hget.
  destruct (col_index col (columns out)) as [i|] eqn:Ei; [|discriminate].
  injection Hget as <-. rewrite Forall_map. apply Hmoney, Ei.
Qed.

(** The errors of the loader, in the order of its checks: a missing file,
    an empty file, missing time columns (named in the message, with the
    columns of the file, also when the file has no row), a file without
    rows, and a start date that does not parse, which is reported only once
    the file has been read and its time columns parsed. *)
Theorem load_and_filter_trades_errors
        (trade_file : string) (start_date end_date : date_arg) :
  (os_path_exists trade_file = false ->
   loader trade_file start_date end_date =
   Raise (FileNotFoundError ("Trade file not found: " ++ trade_file)%string)) /\
  (os_path_exists trade_file = true -> pd_read_csv trade_file = EmptyDataError ->
   loader trade_file start_date end_date =
   Raise (ValueError ("CSV file is empty: " ++ trade_file)%string)) /\
  (forall raw missing,
      os_path_exists trade_file = true -> pd_read_csv trade_file = ReadFrame raw ->
      missing = filter (fun col => negb (has_column raw col)) ["Entry time"; "Exit time"] ->
      missing <> [] ->
      loader trade_file start_date end_date =
      Raise (ValueError ("CSV missing required columns: " ++ String.concat ", " missing ++
                         ". Available columns: " ++
                         String.concat ", " (columns raw))%string)) /\
  (forall raw,
      os_path_exists trade_file = true -> pd_read_csv trade_file = ReadFrame raw ->
      has_column raw "Entry time" = true -> has_column raw "Exit time" = true ->
      len raw = 0 ->
      loader trade_file start_date end_date =
      Raise (ValueError ("CSV file contains no data rows: " ++ trade_file)%string)) /\
  (forall raw parsed_entry parsed s,
      os_path_exists trade_file = true -> pd_read_csv trade_file = ReadFrame raw ->
      has_column raw "Entry time" = true -> has_column raw "Exit time" = true ->
      len raw <> 0 ->
      parse_time_column pd_to_datetime raw "Entry time" = Ok parsed_entry ->
      parse_time_column pd_to_datetime parsed_entry "Exit time" = Ok parsed ->
      start_date = DateText s -> strptime s = None ->
      loader trade_file start_date end_date =
      Raise (ValueError ("Invalid start_date format: " ++ s ++
                         ". Expected: dd/mm/yyyy")%string)).
Proof.
  unfold load_and_filter_trades. repeat split.
  - intros ->. reflexivity.
  - intros -> ->. reflexivity.
  - intros raw missing -> -> -> Hne. cbn [negb bind]. cbv zeta.
    destruct (filter _ _) as [|m ms]; [congruence|]. reflexivity.
  - intros raw -> -> H1 H2 Hl. cbn [negb bind]. cbv zeta. cbn [filter].
    rewrite H1, H2. cbn [negb length Nat.eqb]. now rewrite Hl.
  - intros raw d1 d2 s -> -> H1 H2 Hl P1 P2 -> Hs. cbn [negb bind]. cbv zeta.
    cbn [filter]. rewrite H1, H2. cbn [negb length Nat.eqb].
    apply Nat.eqb_neq in Hl. rewrite Hl, P1. cbn [bind]. rewrite P2. cbn [bind].
    unfold start_of. rewrite Hs. reflexivity.
Qed.

End LoaderResults.

(* ----------------------------------------------------------------- *)
(** ** After loading, nothing fails *)

Lemma filter_trades_by_direction_incl (df : DataFrame) (direction : string) :
  incl (rows (filter_trades_by_direction df direction)) (rows df).
Proof.
  unfold filter_trades_by_direction.
  destruct (_ || _); [apply incl_refl|].
  destruct (String.eqb direction "Long Only"); [apply incl_filter|].
  destruct (String.eqb direction "Short Only"); [apply incl_filter|apply incl_refl].
Qed.

Lemma filter_trades_by_direction_cells (P : cell -> Prop) (df : DataFrame)
      (direction col : string) :
  column_cells P df col -> column_cells P (filter_trades_by_direction df direction) col.
Proof.
  intros H i Hi. rewrite filter_trades_by_direction_columns in Hi.
  specialize (H i Hi). rewrite Forall_forall in H |- *. intros r Hr.
  apply H. now apply (filter_trades_by_direction_incl df direction).
Qed.

(** Scaling a column of numbers and nulls succeeds, and leaves numbers and
    nulls in the columns that held some. *)
Lemma scale_column_money (m : Z) (df : DataFrame) (col : string) :
  column_cells money_cell df col ->
  exists out,
    scale_column m df col = Ok out /\
    forall c, column_cells money_cell df c -> column_cells money_cell out c.
Proof.
  intros H. unfold scale_column, has_column, get_column.
  destruct (col_index col (columns df)) as [i|] eqn:Ei; [|exists df; auto].
  cbn [bind]. rewrite (mapM_map _ (scaled_cell m)).
  - cbn [bind]. eexists. split; [reflexivity|]. intros c Hc.
    destruct (string_dec c col) as [->|Hne].
    + apply (set_column_same money_cell money_cell); auto using scaled_cell_money.
      exact I.
    + apply set_column_other; auto. unfold has_column. now rewrite Ei.
  - specialize (H i Ei). rewrite Forall_map. rewrite Forall_forall in H |- *.
    intros r Hr. apply mul_cell_money. auto.
Qed.

Lemma scale_columns_money (m : Z) (l : list string) (df : DataFrame) :
  (forall c, In c l -> column_cells money_cell df c) ->
  exists out, foldM (scale_column m) l df = Ok out.
Proof.
  revert df. induction l as [|a l IH]; intros df H; [exists df; reflexivity|].
  destruct (scale_column_money m df a) as (d1 & Hs & Hkeep); [apply H; now left|].
  cbn [foldM]. rewrite Hs. cbn [bind]. apply IH.
  intros c Hc. apply Hkeep, H. now right.
Qed.

Lemma apply_contract_multiplier_money (df : DataFrame) (m : Z) :
  (forall c, In c monetary_columns -> column_cells money_cell df c) ->
  exists out, apply_contract_multiplier df m = Ok out.
Proof.
  intros H. unfold apply_contract_multiplier.
  destruct (_ || _); [exists df; reflexivity|]. now apply scale_columns_money.
Qed.

Lemma monetary_columns_loaded_incl (c : string) :
  In c monetary_columns -> In c monetary_columns_loaded.
Proof.
  unfold monetary_columns, monetary_columns_loaded. simpl. intros H.
  repeat (destruct H as [H|H]; [auto 12|]). contradiction.
Qed.

Section Pipeline.

Variable os_path_exists : string -> bool.
Variable pd_read_csv : string -> read_outcome.
Variable pd_to_datetime : string -> option Z.
Variable strptime : string -> option Z.
Variable pd_to_numeric : string -> option Q.

Local Abbreviation loader :=
  (load_and_filter_trades os_path_exists pd_read_csv pd_to_datetime strptime pd_to_numeric).

Local Abbreviation pipeline :=
  (process_instrument os_path_exists pd_read_csv pd_to_datetime strptime pd_to_numeric).

(** When the files hold text, numbers and nulls, the processing of an
    instrument fails only because its entry has no trade file or because
    the loader fails: on a loaded frame neither the direction filter nor the
    contract multiplier raises. *)
Theorem process_instrument_fails_only_in_loading
        (instrument_filters : list (string * string))
        (instrument_contracts : list (string * Z))
        (start_str end_str : date_arg) (name : string) (files : list (string * string))
        (e : exn) :
  (forall path raw, pd_read_csv path = ReadFrame raw -> csv_frame raw) ->
  pipeline instrument_filters instrument_contracts start_str end_str name files = Raise e ->
  (dict_get files "trades" = None /\ e = KeyError "trades") \/
  (exists trade_file,
      dict_get files "trades" = Some trade_file /\
      loader trade_file start_str end_str = Raise e).
Proof.
  intros Hcsv. unfold process_instrument, dict_item.
  destruct (dict_get files "trades") as [path|]; cbn [bind];
    [|intros [= <-]; left; auto].
  destruct (loader path start_str end_str) as [df|e'] eqn:El; cbn [bind];
    [|intros [= <-]; right; eauto].
  cbv zeta. intros H. exfalso.
  destruct (load_and_filter_trades_inv _ _ _ _ _ _ _ _ _ El)
    as (raw & _ & _ & _ & _ & _ & Hr & _).
  destruct (apply_contract_multiplier_money
              (filter_trades_by_direction df (dict_get_default instrument_filters name "All"))
              (dict_get_default instrument_contracts name 1%Z)) as [out Hout].
  - intros c Hc. apply filter_trades_by_direction_cells.
    apply (loaded_monetary_cells os_path_exists pd_read_csv pd_to_datetime strptime
             pd_to_numeric path start_str end_str raw df Hr (Hcsv _ _ Hr) El).
    now apply monetary_columns_loaded_incl.
  - rewrite Hout in H. discriminate.
Qed.

End Pipeline.

Lemma sample_read_csv_cells (path : string) (raw : DataFrame) :
  sample_read_csv path = ReadFrame raw -> csv_frame raw.
Proof.
  unfold sample_read_csv. destruct (String.eqb path "ES-trades.csv"); [|discriminate].
  intros [= <-]. repeat constructor.
Defined.

Lemma load_and_filter_trades_returns_only_valid_witness :
  sample_exists "ES-trades.csv" = true /\
  exists raw start end_,
    sample_read_csv "ES-trades.csv" = ReadFrame raw /\
    has_column raw "Entry time" = true /\
    has_column raw "Exit time" = true /\
    len raw <> 0 /\
    date_value sample_strptime (DateText "05/01/1970") = Some start /\
    date_value sample_strptime (DateText "07/01/1970") = Some end_.
Proof.
  edestruct (load_and_filter_trades_returns_only_valid
               sample_exists sample_read_csv sample_to_datetime sample_strptime
               sample_to_numeric "ES-trades.csv"
               (DateText "05/01/1970") (DateText "07/01/1970"))
    as (Hx & raw & start & end_ & H1 & H2 & H3 & H4 & H5 & H6 & _).
  - reflexivity.
  - split; [exact Hx|]. exists raw, start, end_. auto 10.
Defined.

Lemma load_and_filter_trades_monetary_numeric_witness :
  exists out cells,
    load_and_filter_trades sample_exists sample_read_csv sample_to_datetime sample_strptime
                           sample_to_numeric "ES-trades.csv"
                           (DateText "05/01/1970") (DateText "07/01/1970") = Ok out /\
    get_column out "Profit" = Ok cells /\
    Forall money_cell cells.
Proof.
  do 2 eexists. split; [reflexivity|]. split; [reflexivity|].
  eapply (load_and_filter_trades_monetary_numeric
            sample_exists sample_read_csv sample_to_datetime sample_strptime
            sample_to_numeric "ES-trades.csv"
            (DateText "05/01/1970") (DateText "07/01/1970") sample_raw _
            eq_refl (sample_read_csv_cells "ES-trades.csv" sample_raw eq_refl) eq_refl
            "Profit").
  - simpl. auto.
  - reflexivity.
Defined.

Lemma load_and_filter_trades_errors_witness :
  load_and_filter_trades sample_exists (fun _ => ReadFrame sample_positions)
                         sample_to_datetime sample_strptime sample_to_numeric
                         "ES-trades.csv" (DateText "05/01/1970") (DateText "07/01/1970") =
  Raise (ValueError
           "CSV missing required columns: Entry time, Exit time. Available columns: Market pos., Profit").
Proof.
  apply (proj1 (proj2 (proj2 (load_and_filter_trades_errors
                                sample_exists (fun _ => ReadFrame sample_positions)
                                sample_to_datetime sample_strptime sample_to_numeric
                                "ES-trades.csv"
                                (DateText "05/01/1970") (DateText "07/01/1970"))))
           sample_positions ["Entry time"; "Exit time"]).
  - reflexivity.
  - reflexivity.
  - reflexivity.
  - discriminate.
Defined.

Lemma process_instrument_fails_only_in_loading_witness :
  (dict_get [("summary", "NQ-summary.csv"); ("trades", "NQ-trades.csv")] "trades" = None /\
   FileNotFoundError "Trade file not found: NQ-trades.csv" = KeyError "trades") \/
  (exists trade_file,
      dict_get [("summary", "NQ-summary.csv"); ("trades", "NQ-trades.csv")] "trades" =
      Some trade_file /\
      load_and_filter_trades sample_exists sample_read_csv sample_to_datetime sample_strptime
                             sample_to_numeric trade_file
                             (DateText "05/01/1970") (DateText "07/01/1970") =
      Raise (FileNotFoundError "Trade file not found: NQ-trades.csv")).
Proof.
  apply (process_instrument_fails_only_in_loading
           sample_exists sample_read_csv sample_to_datetime sample_strptime
           sample_to_numeric [] [] (DateText "05/01/1970") (DateText "07/01/1970")
           "NQ" [("summary", "NQ-summary.csv"); ("trades", "NQ-trades.csv")]).
  - exact sample_read_csv_cells.
  - reflexivity.
Defined.

(* ----------------------------------------------------------------- *)
(** ** Cells kept by the writes of the pipeline *)

Lemma col_index_app (col : string) (cols extra : list string) (i : nat) :
  col_index col cols = Some i -> col_index col (cols ++ extra) = Some i.
Proof.
  revert i. induction cols as [|c t IH]; simpl; intros i H; [discriminate|].
  destruct (String.eqb c col); [exact H|].
  destruct (col_index col t) as [j|]; [|discriminate].
  rewrite (IH j eq_refl). exact H.
Qed.

Lemma col_index_fresh (col : string) (cols : list string) :
  col_index col cols = None -> col_index col (cols ++ [col]) = Some (length cols).
Proof.
  induction cols as [|c t IH]; simpl; intros H.
  - now rewrite String.eqb_refl.
  - destruct (String.eqb c col); [discriminate|].
    destruct (col_index col t); [discriminate|]. now rewrite IH.
Qed.

Lemma col_index_nth (col : string) (cols : list string) (i : nat) (d : string) :
  col_index col cols = Some i -> nth i cols d = col.
Proof.
  revert i. induction cols as [|c t IH]; simpl; intros i H; [discriminate|].
  destruct (String.eqb c col) eqn:E.
  - injection H as <-. now apply String.eqb_eq.
  - destruct (col_index col t) as [j|]; [|discriminate].
    injection H as <-. now apply IH.
Qed.

(** A cell that is not a null lies inside its row. *)
Lemma nth_not_null (P : cell -> Prop) (i : nat) (r : row) :
  ~ P CNull -> P (nth i r CNull) -> i < length r.
Proof.
  intros Hn H. destruct (Nat.lt_ge_cases i (length r)) as [Hlt|Hge]; [exact Hlt|].
  rewrite nth_overflow in H by exact Hge. contradiction.
Qed.

(** Writing a column, new or not, keeps the cells of another column. *)
Lemma set_column_keeps (P : cell -> Prop) (df : DataFrame) (col col' : string)
      (values : list cell) :
  ~ P CNull -> col' <> col -> has_column df col' = true ->
  column_cells P df col' -> column_cells P (set_column df col values) col'.
Proof.
  intros Hn Hne Hcol' H.
  destruct (has_column df col) eqn:Hcol; [now apply set_column_other|].
  destruct (has_column_index _ _ Hcol') as [i Hi].
  unfold has_column in Hcol. unfold set_column.
  destruct (col_index col (columns df)); [discriminate|].
  intros j Hj. cbn [columns rows] in *.
  rewrite (col_index_app _ _ _ _ Hi) in Hj. injection Hj as <-.
  specialize (H i Hi). rewrite Forall_map, Forall_forall in *. intros [r v] Hrv.
  cbn [fst snd]. apply in_combine_l in Hrv. specialize (H r Hrv).
  rewrite app_nth1; [exact H|]. exact (nth_not_null P i r Hn H).
Qed.

Lemma set_column_has_column (df : DataFrame) (col : string) (values : list cell) :
  has_column (set_column df col values) col = true.
Proof.
  unfold set_column, has_column.
  destruct (col_index col (columns df)) as [i|] eqn:Ei; cbn [columns].
  - now rewrite Ei.
  - now rewrite col_index_fresh.
Qed.

Lemma set_column_len (df : DataFrame) (col : string) (values : list cell) :
  length values = len df -> len (set_column df col values) = len df.
Proof.
  intros H. unfold set_column, len in *.
  destruct (col_index col (columns df)); cbn [rows];
    rewrite length_map, length_combine; lia.
Qed.

Lemma set_nth_length {A : Type} (i : nat) (v : A) (l : list A) :
  length (set_nth i v l) = length l.
Proof.
  revert i. induction l as [|x t IH]; intros [|i]; simpl; auto.
Qed.

Lemma set_column_frame_ok (df : DataFrame) (col : string) (values : list cell) :
  frame_ok df -> frame_ok (set_column df col values).
Proof.
  intros [Hnd Hlen]. unfold set_column.
  destruct (col_index col (columns df)) as [i|] eqn:Ei; split; cbn [columns rows].
  - exact Hnd.
  - rewrite Forall_map, Forall_forall in *. intros [r v] Hrv. cbn [fst snd].
    apply in_combine_l in Hrv.
    rewrite set_nth_length. now apply Hlen.
  - apply NoDup_app; [exact Hnd|repeat constructor; simpl; tauto|].
    intros c Hc [<-|[]]. destruct (col_index_In _ _ Hc) as [j Hj]. congruence.
  - rewrite Forall_map, Forall_forall in *. intros [r v] Hrv. cbn [fst snd].
    apply in_combine_l in Hrv. rewrite !length_app. simpl. rewrite (Hlen r Hrv). reflexivity.
Qed.

(** In a well-formed frame, a column written with one value holds that
    value in every row. *)
Lemma set_column_scalar_cells (df : DataFrame) (col : string) (v : cell) :
  frame_ok df -> column_cells (eq v) (set_column_scalar df col v) col.
Proof.
  intros [Hnd Hlen]. unfold set_column_scalar, set_column.
  destruct (col_index col (columns df)) as [i|] eqn:Ei; intros j Hj; cbn [columns rows] in *.
  - rewrite Ei in Hj. injection Hj as <-.
    rewrite Forall_map, Forall_forall in *. intros [r w] Hrw. cbn [fst snd].
    pose proof (in_combine_l _ _ _ _ Hrw) as Hr.
    apply in_combine_r, repeat_spec in Hrw. subst w.
    rewrite nth_set_nth_same; [reflexivity|].
    rewrite (Hlen r Hr). eapply col_index_lt; eauto.
  - rewrite (col_index_fresh _ _ Ei) in Hj. injection Hj as <-.
    rewrite Forall_map, Forall_forall in *. intros [r w] Hrw. cbn [fst snd].
    pose proof (in_combine_l _ _ _ _ Hrw) as Hr.
    apply in_combine_r, repeat_spec in Hrw. subst w.
    rewrite app_nth2 by (rewrite (Hlen r Hr); lia).
    rewrite (Hlen r Hr), Nat.sub_diag. reflexivity.
Qed.

Lemma column_cells_cell_of (P : cell -> Prop) (df : DataFrame) (col : string) :
  has_column df col = true ->
  (column_cells P df col <-> Forall (fun r => P (cell_of (columns df) col r)) (rows df)).
Proof.
  intros H. destruct (has_column_index _ _ H) as [i Hi]. unfold column_cells, cell_of.
  rewrite Hi. split.
  - intros Hc. exact (Hc i eq_refl).
  - intros Hc j Hj. injection Hj as <-. exact Hc.
Qed.

(* ----------------------------------------------------------------- *)
(** ** Frames returned by the loader and by the pipeline *)

Lemma permutation_frame_ok (cols : list string) (rs rs' : list row) :
  (forall r, In r rs' -> In r rs) ->
  frame_ok (mkDataFrame cols rs) -> frame_ok (mkDataFrame cols rs').
Proof.
  intros Hin [Hnd Hlen]. split; [exact Hnd|]. cbn [columns rows] in *.
  rewrite Forall_forall in *. auto.
Qed.

Lemma frame_ok_rows (df : DataFrame) (rs' : list row) :
  (forall r, In r rs' -> In r (rows df)) ->
  frame_ok df -> frame_ok (mkDataFrame (columns df) rs').
Proof. destruct df as [cols rs]. apply permutation_frame_ok. Qed.

Lemma sort_values_frame_ok (df out : DataFrame) (col : string) :
  sort_values df col = Ok out -> frame_ok df -> frame_ok out.
Proof.
  unfold sort_values. destruct (col_index col (columns df)); [|discriminate].
  intros [= <-]. apply frame_ok_rows. intros r.
  apply Permutation_in, stable_sort_perm.
Qed.

Lemma sort_values_len (df out : DataFrame) (col : string) :
  sort_values df col = Ok out -> len out = len df.
Proof.
  intros H. apply sort_values_perm in H. destruct H as [_ H].
  apply Permutation_length, H.
Qed.

Lemma filter_trades_by_direction_frame_ok (df : DataFrame) (direction : string) :
  frame_ok df -> frame_ok (filter_trades_by_direction df direction).
Proof.
  intros H. pose proof (filter_trades_by_direction_incl df direction) as Hincl.
  pose proof (filter_trades_by_direction_columns df direction) as Hcols.
  destruct (filter_trades_by_direction df direction) as [cols rs].
  cbn [columns rows] in *. subst cols. now apply frame_ok_rows.
Qed.

Lemma scale_column_keeps (P : cell -> Prop) (m : Z) (df out : DataFrame) (col col' : string) :
  scale_column m df col = Ok out ->
  ~ P CNull -> col' <> col -> has_column df col' = true ->
  column_cells P df col' ->
  column_cells P out col' /\ has_column out col' = true.
Proof.
  unfold scale_column. intros H Hn Hne Hcol' Hc.
  destruct (has_column df col); [|injection H as <-; auto].
  destruct (get_column df col) as [cells|]; cbn [bind] in H; [|discriminate].
  destruct (mapM _ cells) as [scaled|]; cbn [bind] in H; [|discriminate].
  injection H as <-. split; [now apply set_column_keeps|now apply set_column_has].
Qed.

Lemma scale_column_frame_ok (m : Z) (df out : DataFrame) (col : string) :
  scale_column m df col = Ok out -> frame_ok df -> frame_ok out.
Proof.
  unfold scale_column. intros H Hok.
  destruct (has_column df col); [|now injection H as <-].
  destruct (get_column df col) as [cells|]; cbn [bind] in H; [|discriminate].
  destruct (mapM _ cells) as [scaled|]; cbn [bind] in H; [|discriminate].
  injection H as <-. now apply set_column_frame_ok.
Qed.

Lemma scale_column_len (m : Z) (df out : DataFrame) (col : string) :
  scale_column m df col = Ok out -> len out = len df.
Proof.
  unfold scale_column. intros H.
  destruct (has_column df col); [|now injection H as <-].
  destruct (get_column df col) as [cells|] eqn:Eg; cbn [bind] in H; [|discriminate].
  destruct (mapM _ cells) as [scaled|] eqn:Em; cbn [bind] in H; [|discriminate].
  injection H as <-. apply set_column_len.
  rewrite (mapM_length _ _ _ Em). eapply get_column_length; eauto.
Qed.

(** The multiplier keeps the number of rows, a well-formed frame well
    formed, and the cells of the columns it does not scale. *)
Lemma apply_contract_multiplier_keeps (P : cell -> Prop) (df out : DataFrame) (m : Z)
      (col' : string) :
  apply_contract_multiplier df m = Ok out ->
  len out = len df /\
  (frame_ok df -> frame_ok out) /\
  (~ P CNull -> ~ In col' monetary_columns -> has_column df col' = true ->
   column_cells P df col' -> column_cells P out col').
Proof.
  unfold apply_contract_multiplier. destruct (_ || _); [intros [= <-]; auto|].
  generalize monetary_columns. intros l. revert df.
  induction l as [|c l IH]; intros df; simpl; [intros [= <-]; auto|].
  destruct (scale_column m df c) as [df'|] eqn:E; [|discriminate]. cbn [bind].
  intros H. destruct (IH _ H) as (Hl & Hok & Hc).
  split; [rewrite Hl; eapply scale_column_len; eauto|].
  split; [intros Hdf; eapply Hok, scale_column_frame_ok; eauto|].
  intros Hn Hnot Hcol' Hcells.
  assert (Hne : col' <> c) by (intros ->; apply Hnot; now left).
  destruct (scale_column_keeps P m df df' c col' E Hn Hne Hcol' Hcells) as [Hc' Hh'].
  apply Hc; [exact Hn| |exact Hh'|exact Hc']. intros Hin. apply Hnot. now right.
Qed.

Lemma in_range_is_time (start end_ : Z) (c : cell) :
  in_range start end_ c = true -> is_time c.
Proof. destruct c; try discriminate. intros _. exact I. Qed.

Section PipelineFrames.

Variable os_path_exists : string -> bool.
Variable pd_read_csv : string -> read_outcome.
Variable pd_to_datetime : string -> option Z.
Variable strptime : string -> option Z.
Variable pd_to_numeric : string -> option Q.

Local Abbreviation loader :=
  (load_and_filter_trades os_path_exists pd_read_csv pd_to_datetime strptime pd_to_numeric).

Local Abbreviation pipeline :=
  (process_instrument os_path_exists pd_read_csv pd_to_datetime strptime pd_to_numeric).

Lemma parse_time_column_frame_ok (df out : DataFrame) (col : string) :
  parse_time_column pd_to_datetime df col = Ok out -> frame_ok df -> frame_ok out.
Proof.
  unfold parse_time_column. destruct (get_column df col) as [cells|]; [|discriminate].
  cbn [bind]. destruct (to_datetime_cells _ cells) as [parsed|]; [|discriminate].
  intros [= <-]. apply set_column_frame_ok.
Qed.

Lemma clean_column_frame_ok (df : DataFrame) (col : string) :
  frame_ok df -> frame_ok (clean_column pd_to_numeric df col).
Proof.
  intros H. unfold clean_column.
  destruct (has_column df col); [|exact H].
  destruct (get_column df col) as [cells|]; [|exact H].
  destruct (is_object_dtype cells); [|exact H].
  now apply set_column_frame_ok.
Qed.

Lemma clean_columns_frame_ok (l : list string) (df : DataFrame) :
  frame_ok df -> frame_ok (fold_left (clean_column pd_to_numeric) l df).
Proof.
  revert df. induction l as [|c l IH]; intros df H; [exact H|].
  simpl. apply IH. now apply clean_column_frame_ok.
Qed.

(** The frame of a successful load is well formed when the frame read is,
    and every entry time of it is an instant. *)
Lemma load_and_filter_trades_frame (trade_file : string) (start_date end_date : date_arg)
      (out : DataFrame) :
  loader trade_file start_date end_date = Ok out ->
  column_cells is_time out "Entry time" /\
  ((forall raw, pd_read_csv trade_file = ReadFrame raw -> frame_ok raw) -> frame_ok out).
Proof.
  intros H.
  destruct (load_and_filter_trades_inv _ _ _ _ _ _ _ _ _ H)
    as (raw & d1 & d2 & start & end_ & Hx & Hr & H1 & H2 & Hl & P1 & P2 & Hs & He & Hsort).
  split.
  - set (kept := select_rows d2 (fun r => in_range start (end_ + one_day)
                                            (cell_of (columns d2) "Entry time" r))) in *.
    destruct (clean_columns_other pd_to_numeric monetary_columns_loaded kept
                "Entry time" entry_not_monetary) as [Hcc Hrc].
    apply sort_values_perm in Hsort. destruct Hsort as [Hco Hperm].
    assert (Hhas : has_column out "Entry time" = true)
      by (eapply load_and_filter_trades_entry; eauto).
    apply column_cells_cell_of; [exact Hhas|].
    assert (Hin : Forall (fun c => in_range start (end_ + one_day) c = true)
                         (map (cell_of (columns kept) "Entry time")
                              (rows (fold_left (clean_column pd_to_numeric)
                                               monetary_columns_loaded kept)))).
    { rewrite Hrc, Forall_map, Forall_forall. intros r Hr'.
      unfold kept, select_rows in Hr'. cbn [rows columns] in Hr'.
      apply filter_In in Hr'. apply Hr'. }
    rewrite Forall_map in Hin. rewrite Forall_forall in *. intros r Hr'.
    rewrite Hco, Hcc. apply (Permutation_in _ Hperm) in Hr'.
    exact (in_range_is_time _ _ _ (Hin r Hr')).
  - intros Hraw. specialize (Hraw raw Hr).
    eapply sort_values_frame_ok; [exact Hsort|].
    apply clean_columns_frame_ok. unfold select_rows.
    apply frame_ok_rows; [intros r Hr'; apply filter_In in Hr'; apply Hr'|].
    eapply parse_time_column_frame_ok; [exact P2|].
    eapply parse_time_column_frame_ok; [exact P1|exact Hraw].
Qed.

(** What the pipeline returns for an instrument. *)
Lemma process_instrument_frame
      (filters : list (string * string)) (contracts : list (string * Z))
      (start_str end_str : date_arg) (name : string) (files : list (string * string))
      (df : DataFrame) (n : Z) :
  pipeline filters contracts start_str end_str name files = Ok (df, n) ->
  n = dict_get_default contracts name 1%Z /\
  has_column df "Entry time" = true /\
  column_cells is_time df "Entry time" /\
  ((forall path raw, pd_read_csv path = ReadFrame raw -> frame_ok raw) -> frame_ok df).
Proof.
  intros H. pose proof (process_instrument_entry _ _ _ _ _ _ _ _ _ _ _ _ _ H) as Hhas.
  unfold process_instrument in H.
  destruct (dict_item files "trades") as [path|]; cbn [bind] in H; [|discriminate].
  destruct (loader path start_str end_str) as [d0|] eqn:E0; cbn [bind] in H; [|discriminate].
  cbv zeta in H.
  destruct (apply_contract_multiplier _ _) as [d1|] eqn:E1; cbn [bind] in H; [|discriminate].
  injection H as <- <-.
  destruct (load_and_filter_trades_frame _ _ _ _ E0) as [Ht Hok].
  pose proof (load_and_filter_trades_entry _ _ _ _ _ _ _ _ _ E0) as Hh0.
  destruct (apply_contract_multiplier_keeps is_time _ _ _ "Entry time" E1) as (_ & Hok1 & Hc1).
  split; [reflexivity|]. split; [exact Hhas|]. split.
  - apply Hc1.
    + simpl. tauto.
    + simpl. intros Hin. repeat (destruct Hin as [Hin|Hin]; [discriminate|]). exact Hin.
    + rewrite has_column_In in *. now rewrite filter_trades_by_direction_columns.
    + now apply filter_trades_by_direction_cells.
  - intros Hraw. apply Hok1, filter_trades_by_direction_frame_ok, Hok.
    intros raw. apply Hraw.
Qed.

End PipelineFrames.

(* ----------------------------------------------------------------- *)
(** ** Tagged frames, their concatenation and its order *)

Lemma tagged_len (df : DataFrame) (name : string) (contracts : Z) :
  len (tagged df name contracts) = len df.
Proof.
  unfold tagged, set_column_scalar.
  rewrite set_column_len by apply repeat_length.
  apply set_column_len, repeat_length.
Qed.

Lemma tagged_keeps (P : cell -> Prop) (df : DataFrame) (name : string) (contracts : Z)
      (col : string) :
  ~ P CNull -> col <> "Instrument" -> col <> "Contracts" ->
  has_column df col = true -> column_cells P df col ->
  has_column (tagged df name contracts) col = true /\
  column_cells P (tagged df name contracts) col.
Proof.
  intros Hn H1 H2 Hcol H. unfold tagged, set_column_scalar. split.
  - now apply set_column_has, set_column_has.
  - apply set_column_keeps; auto; [now apply set_column_has|].
    now apply set_column_keeps.
Qed.

(** In a well-formed frame that is tagged, every row carries the name and
    the number of contracts. *)
Lemma tagged_cells (df : DataFrame) (name : string) (contracts : Z) :
  frame_ok df ->
  Forall (fun r =>
            cell_of (columns (tagged df name contracts)) "Instrument" r = CStr name /\
            cell_of (columns (tagged df name contracts)) "Contracts" r =
            CNum (inject_Z contracts))
         (rows (tagged df name contracts)).
Proof.
  intros Hok.
  assert (H1 : column_cells (eq (CStr name)) (tagged df name contracts) "Instrument").
  { unfold tagged. unfold set_column_scalar at 1.
    apply set_column_keeps; [discriminate|discriminate| |].
    - apply set_column_has_column.
    - now apply set_column_scalar_cells. }
  assert (H2 : column_cells (eq (CNum (inject_Z contracts))) (tagged df name contracts)
                            "Contracts").
  { unfold tagged. apply set_column_scalar_cells.
    unfold set_column_scalar. now apply set_column_frame_ok. }
  apply column_cells_cell_of in H1.
  2:{ unfold tagged. unfold set_column_scalar at 1.
      apply set_column_has. apply set_column_has_column. }
  apply column_cells_cell_of in H2; [|apply set_column_has_column].
  rewrite Forall_forall in *. intros r Hr. split; symmetry; auto.
Qed.

(** A row of the concatenation is a row of one of the frames, read on the
    columns of all of them. *)
Lemma concat_frames_rows (frames : list DataFrame) (r' : row) :
  In r' (rows (concat_frames frames)) ->
  exists df r,
    In df frames /\ In r (rows df) /\
    forall col, has_column df col = true ->
                cell_of (columns (concat_frames frames)) col r' = cell_of (columns df) col r.
Proof.
  unfold concat_frames. cbn [rows columns]. intros H.
  apply in_flat_map in H. destruct H as (df & Hdf & H).
  apply in_map_iff in H. destruct H as (r & <- & Hr).
  exists df, r. split; [exact Hdf|]. split; [exact Hr|]. intros col Hcol.
  assert (Hin : In col (unique_strings (flat_map columns frames))).
  { apply unique_strings_In. split; [|tauto].
    apply in_flat_map. exists df. split; [exact Hdf|]. now apply has_column_In. }
  destruct (col_index_In _ _ Hin) as [j Hj].
  unfold cell_of at 1. rewrite Hj.
  rewrite (nth_indep _ CNull (cell_of (columns df) ""%string r))
    by (rewrite length_map; eapply col_index_lt; eauto).
  rewrite (map_nth (fun c => cell_of (columns df) c r)).
  now rewrite (col_index_nth _ _ _ _ Hj).
Qed.

Lemma flat_map_length {A B : Type} (f : A -> list B) (g : A -> nat) (l : list A) :
  (forall a, length (f a) = g a) -> length (flat_map f l) = list_sum (map g l).
Proof.
  intros H. induction l as [|a t IH]; [reflexivity|].
  simpl. now rewrite length_app, IH, H.
Qed.

Lemma concat_frames_len (frames : list DataFrame) :
  len (concat_frames frames) = list_sum (map len frames).
Proof.
  unfold concat_frames. unfold len at 1. cbn [rows].
  apply flat_map_length. intros df. apply length_map.
Qed.

(** Sorting by entry time a frame whose entry times are instants puts the
    rows in ascending order of entry time. *)
Lemma sort_values_entered (df out : DataFrame) :
  sort_values df "Entry time" = Ok out ->
  Forall (fun r => is_time (cell_of (columns df) "Entry time" r)) (rows df) ->
  StronglySorted (entered_before (columns out)) (rows out).
Proof.
  unfold sort_values.
  destruct (col_index "Entry time" (columns df)) as [i|] eqn:Ei; [|discriminate].
  intros [= <-] H. cbn [columns rows].
  assert (HP : Forall (fun r => is_time (nth i r CNull)) (rows df)).
  { rewrite Forall_forall in *. intros r Hr. specialize (H r Hr).
    unfold cell_of in H. now rewrite Ei in H. }
  pose proof (stable_sort_perm (fun r1 r2 => cell_leb (nth i r1 CNull) (nth i r2 CNull))
                               (rows df)) as Hperm.
  apply (strongly_sorted_on (fun r => is_time (nth i r CNull))
           (fun r1 r2 => cell_leb (nth i r1 CNull) (nth i r2 CNull) = true)).
  - rewrite Forall_forall in *. intros r Hr. apply HP.
    now apply (Permutation_in _ Hperm).
  - intros a b Ha Hb Hab. unfold entered_before, cell_of. rewrite Ei.
    destruct (nth i a CNull) as [| |ta| |]; try contradiction.
    destruct (nth i b CNull) as [| |tb| |]; try contradiction.
    exists ta, tb. split; [reflexivity|]. split; [reflexivity|]. now apply Z.leb_le.
  - apply (stable_sort_sorted _ (fun r => is_time (nth i r CNull))); [| |exact HP].
    + intros a b Ha Hb.
      destruct (nth i a CNull) as [| |ta| |]; try contradiction.
      destruct (nth i b CNull) as [| |tb| |]; try contradiction.
      simpl. rewrite !Z.leb_le. lia.
    + intros a b c Ha Hb Hc.
      destruct (nth i a CNull) as [| |ta| |]; try contradiction.
      destruct (nth i b CNull) as [| |tb| |]; try contradiction.
      destruct (nth i c CNull) as [| |tc| |]; try contradiction.
      simpl. rewrite !Z.leb_le. lia.
Qed.

(* ----------------------------------------------------------------- *)
(** ** The result of the combiner *)

Lemma dict_set_fresh {V : Type} (d : list (string * V)) (key : string) (v : V) :
  ~ In key (map fst d) -> dict_set d key v = d ++ [(key, v)].
Proof.
  induction d as [|[k w] rest IH]; simpl; intros H; [reflexivity|].
  destruct (String.eqb k key) eqn:E.
  - apply String.eqb_eq in E. tauto.
  - rewrite IH by tauto. reflexivity.
Qed.

Section CombinerResult.

Variable os_path_exists : string -> bool.
Variable pd_read_csv : string -> read_outcome.
Variable pd_to_datetime : string -> option Z.
Variable strptime : string -> option Z.
Variable strftime : Z -> string.
Variable pd_to_numeric : string -> option Q.

Local Abbreviation pipeline :=
  (process_instrument os_path_exists pd_read_csv pd_to_datetime strptime pd_to_numeric).

Local Abbreviation step :=
  (process_step os_path_exists pd_read_csv pd_to_datetime strptime pd_to_numeric).

Local Abbreviation combiner :=
  (load_and_process_trades os_path_exists pd_read_csv pd_to_datetime strptime strftime
                           pd_to_numeric).

(** One iteration of the loop on an instrument that has no entry yet: the
    state is kept, or the tagged frame and the entry are appended. *)
Lemma process_step_cases
      (selected : list string) (filters : list (string * string))
      (contracts : list (string * Z)) (start_str end_str : date_arg)
      (st : list DataFrame * list (string * instrument_data))
      (name : string) (files : list (string * string)) :
  ~ In name (map fst (snd st)) ->
  (step selected filters contracts start_str end_str st (name, files) = st /\
   forall df c,
     name_in name selected = true ->
     pipeline filters contracts start_str end_str name files = Ok (df, c) ->
     ~ 0 < len df) \/
  (exists df c,
      name_in name selected = true /\
      pipeline filters contracts start_str end_str name files = Ok (df, c) /\
      0 < len df /\
      step selected filters contracts start_str end_str st (name, files) =
      (fst st ++ [tagged df name c],
       snd st ++ [(name, mkInstrumentData (tagged df name c) files c)])).
Proof.
  destruct st as [all_trades data]. cbn [fst snd]. intros Hfresh.
  unfold process_step.
  destruct (name_in name selected); [|left; split; [reflexivity|discriminate]].
  destruct (pipeline filters contracts start_str end_str name files) as [[df c]|e];
    [|left; split; [reflexivity|discriminate]].
  destruct (0 <? len df) eqn:El.
  - right. exists df, c. apply Nat.ltb_lt in El.
    split; [reflexivity|]. split; [reflexivity|]. split; [exact El|].
    rewrite dict_set_fresh by exact Hfresh. reflexivity.
  - left. split; [reflexivity|]. intros df' c' _ [= <- <-].
    apply Nat.ltb_ge in El. lia.
Qed.

Lemma process_fold_data
      (selected : list string) (filters : list (string * string))
      (contracts : list (string * Z)) (start_str end_str : date_arg)
      (instruments : list (string * list (string * string))) :
  forall st : list DataFrame * list (string * instrument_data),
  NoDup (map fst instruments) ->
  (forall name, In name (map fst instruments) -> ~ In name (map fst (snd st))) ->
  exists new,
    fold_left (step selected filters contracts start_str end_str) instruments st =
    (fst st ++ map (fun e => data_trades (snd e)) new, snd st ++ new) /\
    NoDup (map fst new) /\
    forall name d,
      In (name, d) new <->
      exists files df c,
        In (name, files) instruments /\
        name_in name selected = true /\
        pipeline filters contracts start_str end_str name files = Ok (df, c) /\
        0 < len df /\
        d = mkInstrumentData (tagged df name c) files c.
Proof.
  induction instruments as [|[n0 f0] rest IH]; intros st Hnd Hfresh.
  - exists []. destruct st as [a b]. simpl. rewrite !app_nil_r.
    split; [reflexivity|]. split; [constructor|].
    intros name d. split; [intros []|intros (files & df & c & [] & _)].
  - cbn [map fst] in Hnd. inversion Hnd as [|? ? Hn0 Hnd']; subst.
    cbn [fold_left].
    destruct (process_step_cases selected filters contracts start_str end_str st n0 f0)
      as [[Hst Hno]|(df0 & c0 & Hsel & Hpipe & Hlen & Hst)].
    { apply Hfresh. now left. }
    + rewrite Hst.
      destruct (IH st Hnd') as (new & Hfold & Hnew & Hiff).
      { intros name Hin. apply Hfresh. now right. }
      exists new. split; [exact Hfold|]. split; [exact Hnew|].
      intros name d. rewrite Hiff. split.
      * intros (files & df & c & Hin & H). exists files, df, c. split; [now right|exact H].
      * intros (files & df & c & [Heq|Hin] & Hs & Hp & Hl & Hd).
        -- injection Heq as <- <-. exfalso. exact (Hno df c Hs Hp Hl).
        -- exists files, df, c. auto.
    + rewrite Hst.
      destruct (IH (fst st ++ [tagged df0 n0 c0],
                    snd st ++ [(n0, mkInstrumentData (tagged df0 n0 c0) f0 c0)]) Hnd')
        as (new & Hfold & Hnew & Hiff).
      { intros name Hin. cbn [snd]. rewrite map_app, in_app_iff. cbn [map fst In].
        intros [H|[<-|[]]]; [|contradiction].
        revert H. apply Hfresh. now right. }
      cbn [fst snd] in Hfold.
      exists ((n0, mkInstrumentData (tagged df0 n0 c0) f0 c0) :: new).
      split; [|split].
      * rewrite Hfold. cbn [map snd data_trades]. now rewrite <- !app_assoc.
      * cbn [map fst]. constructor; [|exact Hnew].
        intros Hin. apply in_map_iff in Hin. destruct Hin as ([n d] & Hn & Hin).
        cbn [fst] in Hn. subst n. apply Hiff in Hin.
        destruct Hin as (files & _ & _ & Hin & _).
        apply Hn0. apply in_map_iff. exists (n0, files). auto.
      * intros name d. cbn [In]. rewrite Hiff. split.
        -- intros [Heq|(files & df & c & Hin & H)].
           ++ injection Heq as <- <-. exists f0, df0, c0. auto.
           ++ exists files, df, c. split; [now right|exact H].
        -- intros (files & df & c & [Heq|Hin] & Hs & Hp & Hl & Hd).
           ++ injection Heq as <- <-. left. rewrite Hpipe in Hp.
              injection Hp as <- <-. now subst d.
           ++ right. exists files, df, c. auto.
Qed.

(** The result of the combiner, the names of [instruments] being distinct
    as the keys of a dict are: the entries of [instruments_data], and the
    combined frame as the sorted concatenation of their frames. *)
Lemma load_and_process_trades_result
      (instruments : list (string * list (string * string)))
      (selected_instruments : selection)
      (instrument_filters : list (string * string))
      (instrument_contracts : list (string * Z))
      (start_date end_date : date_arg)
      (data : list (string * instrument_data)) (combined : DataFrame) :
  NoDup (map fst instruments) ->
  combiner instruments selected_instruments instrument_filters instrument_contracts
           start_date end_date = Ok (data, combined) ->
  NoDup (map fst data) /\
  (forall name d,
      In (name, d) data <->
      exists files df c,
        In (name, files) instruments /\
        name_in name (selected_list_of selected_instruments) = true /\
        pipeline instrument_filters instrument_contracts
                 (date_as_text strftime start_date) (date_as_text strftime end_date)
                 name files = Ok (df, c) /\
        0 < len df /\
        d = mkInstrumentData (tagged df name c) files c) /\
  ((data = [] /\ combined = empty_frame) \/
   (data <> [] /\
    sort_values (concat_frames (map (fun e => data_trades (snd e)) data)) "Entry time" =
    Ok combined)).
Proof.
  intros Hnd. unfold load_and_process_trades. cbv zeta.
  destruct (process_fold_data (selected_list_of selected_instruments) instrument_filters
              instrument_contracts (date_as_text strftime start_date)
              (date_as_text strftime end_date) instruments ([], []) Hnd)
    as (new & Hfold & Hnew & Hiff).
  { intros name _ []. }
  rewrite Hfold. cbn [fst snd app].
  destruct new as [|e0 new'].
  - cbn [map length Nat.eqb]. intros [= <- <-].
    split; [constructor|]. split; [exact Hiff|]. left. auto.
  - cbn [map length Nat.eqb].
    destruct (sort_values _ _) as [sorted|] eqn:Es; cbn [bind]; [|discriminate].
    intros [= <- <-]. split; [exact Hnew|]. split; [exact Hiff|].
    right. split; [discriminate|exact Es].
Qed.

End CombinerResult.

(** A row of one of the frames is a row of the concatenation, read on the
    columns of its frame. *)
Lemma concat_frames_In (frames : list DataFrame) (df : DataFrame) (r : row) :
  In df frames -> In r (rows df) ->
  exists r',
    In r' (rows (concat_frames frames)) /\
    forall col, has_column df col = true ->
                cell_of (columns (concat_frames frames)) col r' = cell_of (columns df) col r.
Proof.
  intros Hdf Hr.
  exists (map (fun c => cell_of (columns df) c r) (columns (concat_frames frames))).
  assert (Hin : In (map (fun c => cell_of (columns df) c r) (columns (concat_frames frames)))
                   (rows (concat_frames frames))).
  { unfold concat_frames. cbn [rows columns]. apply in_flat_map. exists df.
    split; [exact Hdf|]. apply in_map_iff. eauto. }
  split; [exact Hin|].
  intros col Hcol.
  assert (Hc : In col (columns (concat_frames frames))).
  { unfold concat_frames. cbn [columns]. apply unique_strings_In. split; [|tauto].
    apply in_flat_map. exists df. split; [exact Hdf|]. now apply has_column_In. }
  destruct (col_index_In _ _ Hc) as [j Hj].
  unfold cell_of at 1. rewrite Hj.
  rewrite (nth_indep _ CNull (cell_of (columns df) ""%string r))
    by (rewrite length_map; eapply col_index_lt; eauto).
  rewrite (map_nth (fun c => cell_of (columns df) c r)).
  now rewrite (col_index_nth _ _ _ _ Hj).
Qed.

Section Isolation.

Variable os_path_exists : string -> bool.
Variable pd_read_csv : string -> read_outcome.
Variable pd_to_datetime : string -> option Z.
Variable strptime : string -> option Z.
Variable strftime : Z -> string.
Variable pd_to_numeric : string -> option Q.

Local Abbreviation pipeline :=
  (process_instrument os_path_exists pd_read_csv pd_to_datetime strptime pd_to_numeric).

Local Abbreviation step :=
  (process_step os_path_exists pd_read_csv pd_to_datetime strptime pd_to_numeric).

Local Abbreviation combiner :=
  (load_and_process_trades os_path_exists pd_read_csv pd_to_datetime strptime strftime
                           pd_to_numeric).

(** C5: the combiner never raises.  An instrument whose processing raises,
    whatever the exception, is skipped: the result is the one obtained
    without that instrument.  When the processing of every selected
    instrument raises, and so when no instrument is selected, the result is
    the empty map with the empty frame.  And the processing goes on for the
    other instruments: the names of the instruments being distinct, as the
    keys of a dict are, every selected instrument whose processing returns
    a frame with rows has its entry in the map, with that frame tagged, and
    every row of that frame is a row of the combined frame. *)
Theorem load_and_process_trades_isolates_failures
        (selected_instruments : selection)
        (instrument_filters : list (string * string))
        (instrument_contracts : list (string * Z))
        (start_date end_date : date_arg) :
  (forall instruments,
      exists instruments_data combined_df,
        combiner instruments selected_instruments instrument_filters
                 instrument_contracts start_date end_date =
        Ok (instruments_data, combined_df)) /\
  (forall before name files after e,
      pipeline instrument_filters instrument_contracts
               (date_as_text strftime start_date) (date_as_text strftime end_date)
               name files = Raise e ->
      combiner (before ++ (name, files) :: after) selected_instruments
               instrument_filters instrument_contracts start_date end_date =
      combiner (before ++ after) selected_instruments
               instrument_filters instrument_contracts start_date end_date) /\
  (forall instruments,
      (forall name files,
          In (name, files) instruments ->
          name_in name (selected_list_of selected_instruments) = true ->
          exists e,
            pipeline instrument_filters instrument_contracts
                     (date_as_text strftime start_date) (date_as_text strftime end_date)
                     name files = Raise e) ->
      combiner instruments selected_instruments instrument_filters
               instrument_contracts start_date end_date = Ok ([], empty_frame)) /\
  (forall instruments,
      selected_list_of selected_instruments = [] ->
      combiner instruments selected_instruments instrument_filters
               instrument_contracts start_date end_date = Ok ([], empty_frame)) /\
  (forall instruments name files df contracts,
      NoDup (map fst instruments) ->
      In (name, files) instruments ->
      name_in name (selected_list_of selected_instruments) = true ->
      pipeline instrument_filters instrument_contracts
               (date_as_text strftime start_date) (date_as_text strftime end_date)
               name files = Ok (df, contracts) ->
      0 < len df ->
      exists instruments_data combined_df,
        combiner instruments selected_instruments instrument_filters
                 instrument_contracts start_date end_date =
        Ok (instruments_data, combined_df) /\
        In (name, mkInstrumentData (tagged df name contracts) files contracts)
           instruments_data /\
        forall r,
          In r (rows (tagged df name contracts)) ->
          exists r',
            In r' (rows combined_df) /\
            forall col,
              has_column (tagged df name contracts) col = true ->
              cell_of (columns combined_df) col r' =
              cell_of (columns (tagged df name contracts)) col r).
Proof.
  assert (Hall : forall instruments,
             (forall name files,
                 In (name, files) instruments ->
                 name_in name (selected_list_of selected_instruments) = true ->
                 exists e,
                   pipeline instrument_filters instrument_contracts
                            (date_as_text strftime start_date)
                            (date_as_text strftime end_date) name files = Raise e) ->
             combiner instruments selected_instruments instrument_filters
                      instrument_contracts start_date end_date = Ok ([], empty_frame)).
  { intros instruments Hfail. unfold load_and_process_trades. cbv zeta.
    assert (Hfold : forall st,
               fold_left (step (selected_list_of selected_instruments) instrument_filters
                               instrument_contracts (date_as_text strftime start_date)
                               (date_as_text strftime end_date)) instruments st = st).
    { induction instruments as [|[name files] rest IH]; intros st; [reflexivity|].
      simpl. rewrite process_step_skip.
      - apply IH. intros n f Hin. apply Hfail. now right.
      - destruct (name_in name (selected_list_of selected_instruments)) eqn:E;
          [right|now left].
        apply Hfail; [now left|exact E]. }
    rewrite Hfold. reflexivity. }
  assert (Hok : forall instruments,
             exists instruments_data combined_df,
               combiner instruments selected_instruments instrument_filters
                        instrument_contracts start_date end_date =
               Ok (instruments_data, combined_df)).
  { intros instruments. unfold load_and_process_trades. cbv zeta.
    pose proof (process_fold_entry os_path_exists pd_read_csv pd_to_datetime strptime
                  pd_to_numeric (selected_list_of selected_instruments)
                  instrument_filters instrument_contracts
                  (date_as_text strftime start_date) (date_as_text strftime end_date)
                  instruments ([], []) (Forall_nil _)) as Hentry.
    destruct (fold_left _ instruments ([], [])) as [all_trades data].
    cbn [fst] in Hentry.
    destruct (length all_trades =? 0) eqn:El; [eauto|].
    assert (Hne : all_trades <> []) by (intros ->; discriminate).
    pose proof (concat_frames_entry all_trades Hne Hentry) as Hcol.
    destruct (has_column_index _ _ Hcol) as [i Hi].
    rewrite (sort_values_ok _ _ _ Hi). cbn [bind]. eauto. }
  split; [exact Hok|]. split; [|split; [|split]].
  - intros before name files after e Hraise.
    unfold load_and_process_trades. cbv zeta.
    rewrite !fold_left_app. simpl.
    rewrite process_step_skip by (right; eauto). reflexivity.
  - exact Hall.
  - intros instruments Hsel. apply Hall. intros name files _ Hin.
    rewrite Hsel in Hin. discriminate.
  - intros instruments name files df contracts Hnd Hin Hsel Hpipe Hlen.
    destruct (Hok instruments) as (data & combined & Hrun).
    exists data, combined. split; [exact Hrun|].
    destruct (load_and_process_trades_result _ _ _ _ _ _ _ _ _ _ _ _ _ _ Hnd Hrun)
      as (_ & Hiff & Hcomb).
    assert (Hentry : In (name, mkInstrumentData (tagged df name contracts) files contracts)
                        data).
    { apply Hiff. exists files, df, contracts. auto. }
    split; [exact Hentry|].
    destruct Hcomb as [[Hd _]|[_ Hs]]; [rewrite Hd in Hentry; destruct Hentry|].
    apply sort_values_perm in Hs. destruct Hs as [Hco Hperm].
    intros r Hr.
    destruct (concat_frames_In (map (fun e => data_trades (snd e)) data)
                               (tagged df name contracts) r) as (r' & Hr' & Hcell).
    { apply in_map_iff.
      exists (name, mkInstrumentData (tagged df name contracts) files contracts).
      split; [reflexivity|exact Hentry]. }
    { exact Hr. }
    exists r'. split.
    + apply (Permutation_in _ (Permutation_sym Hperm)). exact Hr'.
    + intros col Hcol. rewrite Hco. now apply Hcell.
Qed.

End Isolation.

Lemma load_and_process_trades_isolates_failures_witness :
  load_and_process_trades sample_exists sample_read_csv sample_to_datetime
                          sample_strptime sample_strftime sample_to_numeric
                          sample_instruments (SelectedList ["ES"; "NQ"]) [] []
                          (DateText "05/01/1970") (DateTime (6 * one_day)) =
  Ok ([("ES", mkInstrumentData sample_tagged
                 [("summary", "ES-summary.csv"); ("trades", "ES-trades.csv")] 1%Z)],
      sample_tagged) /\
  load_and_process_trades sample_exists sample_read_csv sample_to_datetime
                          sample_strptime sample_strftime sample_to_numeric
                          sample_instruments (SelectedList ["ES"; "NQ"]) [] []
                          (DateText "05/01/1970") (DateTime (6 * one_day)) =
  load_and_process_trades sample_exists sample_read_csv sample_to_datetime
                          sample_strptime sample_strftime sample_to_numeric
                          [("ES", [("summary", "ES-summary.csv"); ("trades", "ES-trades.csv")])]
                          (SelectedList ["ES"; "NQ"]) [] []
                          (DateText "05/01/1970") (DateTime (6 * one_day)) /\
  exists instruments_data combined_df,
    load_and_process_trades sample_exists sample_read_csv sample_to_datetime
                            sample_strptime sample_strftime sample_to_numeric
                            sample_instruments (SelectedList ["ES"; "NQ"]) [] []
                            (DateText "05/01/1970") (DateTime (6 * one_day)) =
    Ok (instruments_data, combined_df) /\
    In ("ES", mkInstrumentData (tagged sample_loaded "ES" 1)
                [("summary", "ES-summary.csv"); ("trades", "ES-trades.csv")] 1%Z)
       instruments_data /\
    forall r,
      In r (rows (tagged sample_loaded "ES" 1)) ->
      exists r',
        In r' (rows combined_df) /\
        forall col,
          has_column (tagged sample_loaded "ES" 1) col = true ->
          cell_of (columns combined_df) col r' =
          cell_of (columns (tagged sample_loaded "ES" 1)) col r.
Proof.
  split; [vm_compute; reflexivity|]. split.
  - apply (proj1 (proj2 (load_and_process_trades_isolates_failures
                           sample_exists sample_read_csv sample_to_datetime
                           sample_strptime sample_strftime sample_to_numeric
                           (SelectedList ["ES"; "NQ"]) [] []
                           (DateText "05/01/1970") (DateTime (6 * one_day))))
             [("ES", [("summary", "ES-summary.csv"); ("trades", "ES-trades.csv")])]
             "NQ" [("summary", "NQ-summary.csv"); ("trades", "NQ-trades.csv")] []
             (FileNotFoundError "Trade file not found: NQ-trades.csv")).
    reflexivity.
  - apply (proj2 (proj2 (proj2 (proj2 (load_and_process_trades_isolates_failures
                           sample_exists sample_read_csv sample_to_datetime
                           sample_strptime sample_strftime sample_to_numeric
                           (SelectedList ["ES"; "NQ"]) [] []
                           (DateText "05/01/1970") (DateTime (6 * one_day))))))
             sample_instruments "ES"
             [("summary", "ES-summary.csv"); ("trades", "ES-trades.csv")]
             sample_loaded 1%Z).
    + simpl. repeat constructor; simpl; intuition discriminate.
    + left. reflexivity.
    + reflexivity.
    + vm_compute. reflexivity.
    + unfold len. simpl. lia.
Defined.

Section CombinerTheorems.

Variable os_path_exists : string -> bool.
Variable pd_read_csv : string -> read_outcome.
Variable pd_to_datetime : string -> option Z.
Variable strptime : string -> option Z.
Variable strftime : Z -> string.
Variable pd_to_numeric : string -> option Q.

Local Abbreviation pipeline :=
  (process_instrument os_path_exists pd_read_csv pd_to_datetime strptime pd_to_numeric).

Local Abbreviation combiner :=
  (load_and_process_trades os_path_exists pd_read_csv pd_to_datetime strptime strftime
                           pd_to_numeric).

(** The names of [instruments] being distinct, as the keys of a dict are,
    [instruments_data] has an entry for exactly the instruments that are
    selected, whose processing returns a frame, and whose frame has a row
    at least.  The entry holds the files of the instrument, its number of
    contracts, 1 when none is given, and the processed frame with the
    columns Instrument and Contracts written; no name has two entries. *)
Theorem instruments_data_entries
        (instruments : list (string * list (string * string)))
        (selected_instruments : selection)
        (instrument_filters : list (string * string))
        (instrument_contracts : list (string * Z))
        (start_date end_date : date_arg)
        (data : list (string * instrument_data)) (combined : DataFrame) :
  NoDup (map fst instruments) ->
  combiner instruments selected_instruments instrument_filters instrument_contracts
           start_date end_date = Ok (data, combined) ->
  NoDup (map fst data) /\
  forall name d,
    In (name, d) data <->
    exists files df,
      In (name, files) instruments /\
      name_in name (selected_list_of selected_instruments) = true /\
      pipeline instrument_filters instrument_contracts
               (date_as_text strftime start_date) (date_as_text strftime end_date)
               name files = Ok (df, dict_get_default instrument_contracts name 1%Z) /\
      0 < len df /\
      d = mkInstrumentData (tagged df name (dict_get_default instrument_contracts name 1%Z))
                           files (dict_get_default instrument_contracts name 1%Z).
Proof.
  intros Hnd H.
  destruct (load_and_process_trades_result _ _ _ _ _ _ _ _ _ _ _ _ _ _ Hnd H)
    as (Hkeys & Hiff & _).
  split; [exact Hkeys|]. intros name d. rewrite Hiff. split.
  - intros (files & df & c & Hin & Hs & Hp & Hl & Hd).
    destruct (process_instrument_frame _ _ _ _ _ _ _ _ _ _ _ _ _ Hp) as [Hc _].
    subst c. exists files, df. auto.
  - intros (files & df & Hin & Hs & Hp & Hl & Hd).
    exists files, df, (dict_get_default instrument_contracts name 1%Z). auto.
Qed.

(** The names of [instruments] being distinct, the combined frame has as
    many rows as the frames of [instruments_data] together, none exactly
    when [instruments_data] is empty; every frame of [instruments_data] has
    a row; and the rows of the combined frame come in ascending order of
    entry time. *)
Theorem combined_frame_rows
        (instruments : list (string * list (string * string)))
        (selected_instruments : selection)
        (instrument_filters : list (string * string))
        (instrument_contracts : list (string * Z))
        (start_date end_date : date_arg)
        (data : list (string * instrument_data)) (combined : DataFrame) :
  NoDup (map fst instruments) ->
  combiner instruments selected_instruments instrument_filters instrument_contracts
           start_date end_date = Ok (data, combined) ->
  len combined = list_sum (map (fun e => len (data_trades (snd e))) data) /\
  Forall (fun e => 0 < len (data_trades (snd e))) data /\
  (len combined = 0 <-> data = []) /\
  StronglySorted (entered_before (columns combined)) (rows combined).
Proof.
  intros Hnd H.
  destruct (load_and_process_trades_result _ _ _ _ _ _ _ _ _ _ _ _ _ _ Hnd H)
    as (_ & Hiff & Hcomb).
  assert (Hpos : Forall (fun e => 0 < len (data_trades (snd e))) data).
  { rewrite Forall_forall. intros [name d] Hin. apply Hiff in Hin.
    destruct Hin as (files & df & c & _ & _ & _ & Hl & ->).
    cbn [snd data_trades]. now rewrite tagged_len. }
  assert (Hlen : len combined = list_sum (map (fun e => len (data_trades (snd e))) data)).
  { destruct Hcomb as [[-> ->]|[_ Hs]]; [reflexivity|].
    rewrite (sort_values_len _ _ _ Hs), concat_frames_len, map_map. reflexivity. }
  split; [exact Hlen|]. split; [exact Hpos|]. split.
  - rewrite Hlen. destruct data as [|e rest]; [tauto|].
    inversion Hpos as [|? ? He _]; subst. cbn [map list_sum fold_right]. split; [intros H0; exfalso; lia|discriminate].
  - destruct Hcomb as [[-> ->]|[_ Hs]]; [constructor|].
    apply (sort_values_entered _ _ Hs). rewrite Forall_forall. intros r' Hr'.
    destruct (concat_frames_rows _ _ Hr') as (df & r & Hdf & Hr & Hcell).
    apply in_map_iff in Hdf. destruct Hdf as ([name d] & <- & Hin).
    cbn [snd] in *. apply Hiff in Hin.
    destruct Hin as (files & df & c & _ & _ & Hp & _ & ->). cbn [data_trades] in *.
    destruct (process_instrument_frame _ _ _ _ _ _ _ _ _ _ _ _ _ Hp) as (_ & Hhas & Ht & _).
    destruct (tagged_keeps is_time df name c "Entry time") as [Hhas' Ht']; auto;
      try discriminate.
    rewrite (Hcell _ Hhas').
    apply (column_cells_cell_of is_time _ _ Hhas') in Ht'.
    rewrite Forall_forall in Ht'. now apply Ht'.
Qed.

(** When the frames read from the files are well formed and the names of
    [instruments] are distinct, every row of the frame of an entry of
    [instruments_data] carries the name of the entry in the column
    Instrument and its number of contracts in the column Contracts, and
    every row of the combined frame carries the name and the number of
    contracts of one of the entries. *)
Theorem combined_rows_tagged
        (instruments : list (string * list (string * string)))
        (selected_instruments : selection)
        (instrument_filters : list (string * string))
        (instrument_contracts : list (string * Z))
        (start_date end_date : date_arg)
        (data : list (string * instrument_data)) (combined : DataFrame) :
  (forall path raw, pd_read_csv path = ReadFrame raw -> frame_ok raw) ->
  NoDup (map fst instruments) ->
  combiner instruments selected_instruments instrument_filters instrument_contracts
           start_date end_date = Ok (data, combined) ->
  (forall name d,
      In (name, d) data ->
      Forall (fun r =>
                cell_of (columns (data_trades d)) "Instrument" r = CStr name /\
                cell_of (columns (data_trades d)) "Contracts" r =
                CNum (inject_Z (data_contracts d)))
             (rows (data_trades d))) /\
  Forall (row_of_entry (columns combined) data) (rows combined).
Proof.
  intros Hraw Hnd H.
  destruct (load_and_process_trades_result _ _ _ _ _ _ _ _ _ _ _ _ _ _ Hnd H)
    as (_ & Hiff & Hcomb).
  assert (Hentry : forall name d,
             In (name, d) data ->
             Forall (fun r =>
                       cell_of (columns (data_trades d)) "Instrument" r = CStr name /\
                       cell_of (columns (data_trades d)) "Contracts" r =
                       CNum (inject_Z (data_contracts d)))
                    (rows (data_trades d))).
  { intros name d Hin. apply Hiff in Hin.
    destruct Hin as (files & df & c & _ & _ & Hp & _ & ->). cbn [data_trades data_contracts].
    destruct (process_instrument_frame _ _ _ _ _ _ _ _ _ _ _ _ _ Hp) as (_ & _ & _ & Hok).
    apply tagged_cells, Hok, Hraw. }
  split; [exact Hentry|].
  destruct Hcomb as [[-> ->]|[_ Hs]]; [constructor|].
  apply sort_values_perm in Hs. destruct Hs as [Hco Hperm].
  rewrite Forall_forall. intros r' Hr'. apply (Permutation_in _ Hperm) in Hr'.
  destruct (concat_frames_rows _ _ Hr') as (df & r & Hdf & Hr & Hcell).
  apply in_map_iff in Hdf. destruct Hdf as ([name d] & <- & Hin).
  cbn [snd] in *. pose proof (Hentry name d Hin) as He.
  rewrite Forall_forall in He. destruct (He r Hr) as [H1 H2].
  exists name, d. split; [exact Hin|]. rewrite Hco.
  apply Hiff in Hin. destruct Hin as (files & df & c & _ & _ & _ & _ & ->).
  cbn [data_trades data_contracts] in *.
  rewrite !Hcell; [auto| |].
  - apply set_column_has_column.
  - unfold tagged. unfold set_column_scalar at 1. apply set_column_has, set_column_has_column.
Qed.

End CombinerTheorems.

Lemma sample_instruments_NoDup : NoDup (map fst sample_instruments).
Proof.
  simpl. repeat constructor; simpl; intuition discriminate.
Defined.

Lemma sample_read_csv_frame_ok (path : string) (raw : DataFrame) :
  sample_read_csv path = ReadFrame raw -> frame_ok raw.
Proof.
  unfold sample_read_csv. destruct (String.eqb path "ES-trades.csv"); [|discriminate].
  intros [= <-]. split; simpl.
  - repeat constructor; simpl; intuition discriminate.
  - repeat constructor.
Defined.

Lemma instruments_data_entries_witness :
  exists data combined,
    load_and_process_trades sample_exists sample_read_csv sample_to_datetime
                            sample_strptime sample_strftime sample_to_numeric
                            sample_instruments (SelectedList ["ES"; "NQ"]) [] [("ES", 2%Z)]
                            (DateText "05/01/1970") (DateText "07/01/1970") =
    Ok (data, combined) /\
    NoDup (map fst data) /\
    forall name d,
      In (name, d) data <->
      exists files df,
        In (name, files) sample_instruments /\
        name_in name ["ES"; "NQ"] = true /\
        process_instrument sample_exists sample_read_csv sample_to_datetime
                           sample_strptime sample_to_numeric [] [("ES", 2%Z)]
                           (DateText "05/01/1970") (DateText "07/01/1970") name files =
        Ok (df, dict_get_default [("ES", 2%Z)] name 1%Z) /\
        0 < len df /\
        d = mkInstrumentData (tagged df name (dict_get_default [("ES", 2%Z)] name 1%Z))
                             files (dict_get_default [("ES", 2%Z)] name 1%Z).
Proof.
  do 2 eexists. split; [vm_compute; reflexivity|].
  eapply (instruments_data_entries sample_exists sample_read_csv sample_to_datetime
           sample_strptime sample_strftime sample_to_numeric
           sample_instruments (SelectedList ["ES"; "NQ"]) [] [("ES", 2%Z)]
           (DateText "05/01/1970") (DateText "07/01/1970"));
    [exact sample_instruments_NoDup|vm_compute; reflexivity].
Defined.

Lemma combined_frame_rows_witness :
  exists data combined,
    load_and_process_trades sample_exists sample_read_csv sample_to_datetime
                            sample_strptime sample_strftime sample_to_numeric
                            sample_instruments (SelectedList ["ES"; "NQ"]) [] [("ES", 2%Z)]
                            (DateText "05/01/1970") (DateText "07/01/1970") =
    Ok (data, combined) /\
    len combined = list_sum (map (fun e => len (data_trades (snd e))) data) /\
    Forall (fun e => 0 < len (data_trades (snd e))) data /\
    (len combined = 0 <-> data = []) /\
    StronglySorted (entered_before (columns combined)) (rows combined).
Proof.
  do 2 eexists. split; [vm_compute; reflexivity|].
  apply (combined_frame_rows sample_exists sample_read_csv sample_to_datetime
           sample_strptime sample_strftime sample_to_numeric
           sample_instruments (SelectedList ["ES"; "NQ"]) [] [("ES", 2%Z)]
           (DateText "05/01/1970") (DateText "07/01/1970"));
    [exact sample_instruments_NoDup|vm_compute; reflexivity].
Defined.

Lemma combined_rows_tagged_witness :
  exists data combined,
    load_and_process_trades sample_exists sample_read_csv sample_to_datetime
                            sample_strptime sample_strftime sample_to_numeric
                            sample_instruments (SelectedList ["ES"; "NQ"]) [] [("ES", 2%Z)]
                            (DateText "05/01/1970") (DateText "07/01/1970") =
    Ok (data, combined) /\
    Forall (row_of_entry (columns combined) data) (rows combined).
Proof.
  do 2 eexists. split; [vm_compute; reflexivity|].
  apply (combined_rows_tagged sample_exists sample_read_csv sample_to_datetime
           sample_strptime sample_strftime sample_to_numeric
           sample_instruments (SelectedList ["ES"; "NQ"]) [] [("ES", 2%Z)]
           (DateText "05/01/1970") (DateText "07/01/1970"));
    [exact sample_read_csv_frame_ok|exact sample_instruments_NoDup|vm_compute; reflexivity].
Defined.
(* ----------------------------------------------------------------- *)
(** ** Texts *)

Lemma lower_char_idem (c : ascii) : lower_char (lower_char c) = lower_char c.
Proof. destruct c as [[] [] [] [] [] [] [] []]; reflexivity. Qed.

Lemma lower_char_not_upper (c : ascii) : is_upper (lower_char c) = false.
Proof. destruct c as [[] [] [] [] [] [] [] []]; reflexivity. Qed.

Lemma upper_char_not_lower (c : ascii) : is_lower (upper_char c) = false.
Proof. destruct c as [[] [] [] [] [] [] [] []]; reflexivity. Qed.

Lemma upper_char_hyphen (c : ascii) : upper_char c = "-"%char -> c = "-"%char.
Proof. destruct c as [[] [] [] [] [] [] [] []]; try reflexivity; discriminate. Qed.

Lemma upper_char_not_lower_id (c : ascii) : is_lower c = false -> upper_char c = c.
Proof. unfold upper_char. now intros ->. Qed.

Lemma map_chars_app (f : ascii -> ascii) (a b : string) :
  map_chars f (a ++ b)%string = (map_chars f a ++ map_chars f b)%string.
Proof. induction a as [|c a IH]; simpl; [reflexivity|now rewrite IH]. Qed.

Lemma lower_app (a b : string) : lower (a ++ b)%string = (lower a ++ lower b)%string.
Proof. apply map_chars_app. Qed.

Lemma lower_idem (s : string) : lower (lower s) = lower s.
Proof.
  unfold lower. induction s as [|c s IH]; simpl; [reflexivity|].
  now rewrite lower_char_idem, IH.
Qed.

Lemma lower_not_upper (s : string) : all_chars (fun c => negb (is_upper c)) (lower s) = true.
Proof.
  unfold lower. induction s as [|c s IH]; simpl; [reflexivity|].
  now rewrite lower_char_not_upper, IH.
Qed.

Lemma upper_not_lower (s : string) : all_chars (fun c => negb (is_lower c)) (upper s) = true.
Proof.
  unfold upper. induction s as [|c s IH]; simpl; [reflexivity|].
  now rewrite upper_char_not_lower, IH.
Qed.

Lemma all_chars_app (p : ascii -> bool) (a b : string) :
  all_chars p (a ++ b)%string = all_chars p a && all_chars p b.
Proof.
  induction a as [|c a IH]; simpl; [reflexivity|]. now rewrite IH, andb_assoc.
Qed.

Lemma string_app_nil (s : string) : (s ++ "")%string = s.
Proof. induction s as [|c s IH]; simpl; [reflexivity|now rewrite IH]. Qed.

Lemma string_app_assoc (a b c : string) : ((a ++ b) ++ c = a ++ (b ++ c))%string.
Proof. induction a as [|x a IH]; simpl; [reflexivity|now rewrite IH]. Qed.

Lemma string_app_length (a b : string) :
  String.length (a ++ b)%string = String.length a + String.length b.
Proof. induction a as [|x a IH]; simpl; [reflexivity|now rewrite IH]. Qed.

(** A text ends with a suffix when it is the suffix after some text. *)
Lemma endswith_spec (s suffix : string) :
  endswith s suffix = true <-> exists p, s = (p ++ suffix)%string.
Proof.
  induction s as [|c s IH]; cbn [endswith].
  - rewrite orb_false_r. split.
    + intros H. apply String.eqb_eq in H. exists ""%string. now subst.
    + intros [p H]. destruct p; simpl in H; [subst; reflexivity|discriminate].
  - rewrite orb_true_iff, IH. split.
    + intros [H|[p ->]].
      * apply String.eqb_eq in H. exists ""%string. now subst.
      * now exists (String c p).
    + intros [p H]. destruct p as [|x p]; simpl in H.
      * left. subst. apply String.eqb_refl.
      * injection H as -> ->. right. now exists p.
Qed.

Lemma slice_to_app (p s : string) : slice_to (String.length p) (p ++ s)%string = p.
Proof. induction p as [|c p IH]; simpl; [now destruct s|now rewrite IH]. Qed.

(** Without its suffix, a text that ends with a suffix is what comes
    before it. *)
Lemma slice_to_last_app (p suffix : string) :
  suffix <> ""%string ->
  slice_to_last (String.length suffix) (p ++ suffix)%string = p.
Proof.
  intros H. unfold slice_to_last.
  destruct suffix as [|c t]; [contradiction|]. cbn [String.length Nat.eqb].
  rewrite string_app_length. cbn [String.length].
  replace (String.length p + S (String.length t) - S (String.length t))
    with (String.length p) by lia.
  apply slice_to_app.
Qed.

(** A text in which the first character of [old] does not occur is kept
    by the replacement of [old]. *)
Lemma replace_absent (c : ascii) (old new s : string) :
  all_chars (fun x => negb (Ascii.eqb x c)) s = true ->
  replace (String c old) new s = s.
Proof.
  unfold replace. induction s as [|x s IH]; [reflexivity|].
  cbn [all_chars replace_from String.prefix]. intros H.
  apply andb_true_iff in H. destruct H as [Hx Hs].
  destruct (ascii_dec c x) as [<-|Hne].
  - rewrite Ascii.eqb_refl in Hx. discriminate.
  - now rewrite IH.
Qed.

Lemma replace_one_char (c : ascii) (new s : string) :
  replace (String c "") new s = replace_char c new s.
Proof.
  unfold replace. induction s as [|x s IH]; [reflexivity|].
  cbn [replace_from String.prefix String.length Nat.sub replace_char].
  destruct (ascii_dec c x) as [<-|Hne].
  - rewrite Ascii.eqb_refl. destruct s; now rewrite IH.
  - assert (E : Ascii.eqb x c = false).
    { apply Ascii.eqb_neq. congruence. }
    rewrite E. now rewrite IH.
Qed.


(* ----------------------------------------------------------------- *)
(** ** Dicts with text keys *)

Lemma dict_get_set {V : Type} (d : list (string * V)) (k k' : string) (v : V) :
  dict_get (dict_set d k v) k' = if String.eqb k k' then Some v else dict_get d k'.
Proof.
  induction d as [|[k0 w] rest IH]; simpl.
  - reflexivity.
  - destruct (String.eqb k0 k) eqn:E0; simpl.
    + apply String.eqb_eq in E0. subst k0.
      destruct (String.eqb k k'); reflexivity.
    + rewrite IH. destruct (String.eqb k0 k') eqn:E1; [|reflexivity].
      apply String.eqb_eq in E1. subst k0.
      destruct (String.eqb k k') eqn:E2; [|reflexivity].
      apply String.eqb_eq in E2. subst k. rewrite String.eqb_refl in E0. discriminate.
Qed.

Lemma dict_set_keys {V : Type} (d : list (string * V)) (k k' : string) (v : V) :
  In k' (map fst (dict_set d k v)) <-> k' = k \/ In k' (map fst d).
Proof.
  induction d as [|[k0 w] rest IH]; simpl; [intuition|].
  destruct (String.eqb k0 k) eqn:E0; simpl.
  - apply String.eqb_eq in E0. subst k0. intuition.
  - rewrite IH. intuition.
Qed.

Lemma dict_set_In {V : Type} (d : list (string * V)) (k k' : string) (v v' : V) :
  In (k', v') (dict_set d k v) -> (k' = k /\ v' = v) \/ In (k', v') d.
Proof.
  induction d as [|[k0 w] rest IH]; simpl.
  - intros [[= <- <-]|[]]. now left.
  - destruct (String.eqb k0 k) eqn:E0; simpl.
    + apply String.eqb_eq in E0. subst k0. intros [[= <- <-]|H]; auto.
    + intros [H|H]; [auto|]. destruct (IH H); auto.
Qed.

Lemma dict_set_NoDup {V : Type} (d : list (string * V)) (k : string) (v : V) :
  NoDup (map fst d) -> NoDup (map fst (dict_set d k v)).
Proof.
  induction d as [|[k0 w] rest IH]; simpl; intros H.
  - repeat constructor. simpl. tauto.
  - inversion H as [|? ? Hk Hr]; subst.
    destruct (String.eqb k0 k) eqn:E0; simpl; [now constructor|].
    constructor; [|now apply IH].
    rewrite dict_set_keys. intros [->|Hin]; [|contradiction].
    rewrite String.eqb_refl in E0. discriminate.
Qed.

Lemma dict_get_In {V : Type} (d : list (string * V)) (k : string) :
  In k (map fst d) <-> exists v, dict_get d k = Some v.
Proof.
  induction d as [|[k0 w] rest IH]; simpl.
  - split; [intros []|intros [v H]; discriminate].
  - destruct (String.eqb k0 k) eqn:E.
    + apply String.eqb_eq in E. split; eauto.
    + rewrite <- IH. split; [intros [H|H]; [|exact H]|auto].
      subst. rewrite String.eqb_refl in E. discriminate.
Qed.

(* ----------------------------------------------------------------- *)
(** ** The steps of [find_instruments] *)

Lemma string_app_inv_tail (a b s : string) : (a ++ s = b ++ s)%string -> a = b.
Proof.
  intros H.
  assert (Hl : String.length a = String.length b).
  { apply (f_equal String.length) in H. rewrite !string_app_length in H. lia. }
  revert b H Hl. induction a as [|x a IH]; intros [|y b] H Hl; simpl in *;
    try discriminate; [reflexivity|].
  injection H as -> H. f_equal. apply IH; [exact H|lia].
Qed.

(** The prefix of a lowered file name, for a list of two suffixes that are
    one suffix when lowered. *)
Lemma prefix_of_spec (fl suffix Suffix p : string) :
  suffix <> ""%string ->
  lower suffix = suffix -> lower Suffix = suffix ->
  String.length Suffix = String.length suffix ->
  prefix_of fl [suffix; Suffix] = Some p <-> fl = (p ++ suffix)%string.
Proof.
  intros Hne Hl1 Hl2 Hlen. cbn [prefix_of]. rewrite Hl1, Hl2, Hlen.
  destruct (endswith fl suffix) eqn:E.
  - apply endswith_spec in E. destruct E as [p' ->].
    rewrite slice_to_last_app by exact Hne. split.
    + now intros [= ->].
    + intros H. apply string_app_inv_tail in H. now subst.
  - split; [discriminate|]. intros ->.
    assert (H : endswith (p ++ suffix) suffix = true) by (apply endswith_spec; eauto).
    congruence.
Qed.

Lemma prefix_of_trades (fl p : string) :
  prefix_of fl trade_suffixes = Some p <-> fl = (p ++ "-trades.csv")%string.
Proof. apply prefix_of_spec; [discriminate|reflexivity|reflexivity|reflexivity]. Qed.

Lemma prefix_of_summary (fl p : string) :
  prefix_of fl summary_suffixes = Some p <-> fl = (p ++ "-summary.csv")%string.
Proof. apply prefix_of_spec; [discriminate|reflexivity|reflexivity|reflexivity]. Qed.

Lemma set_add_In (x y : string) (s : list string) :
  In y (set_add x s) <-> y = x \/ In y s.
Proof.
  unfold set_add. destruct (name_in x s) eqn:E.
  - apply name_in_In in E. split; [auto|]. intros [->|H]; auto.
  - rewrite in_app_iff. simpl. intuition.
Qed.

(** The prefixes collected by the loop over the files. *)
Lemma collect_prefixes_spec (files : list string) :
  forall (st : list string * list string) (p : string),
    (In p (fst (fold_left collect_prefixes files st)) <->
     In p (fst st) \/ exists f, In f files /\ lower f = (p ++ "-trades.csv")%string) /\
    (In p (snd (fold_left collect_prefixes files st)) <->
     In p (snd st) \/ exists f, In f files /\ lower f = (p ++ "-summary.csv")%string).
Proof.
  induction files as [|f rest IH]; intros [tp sp] p.
  - simpl. split; (split; [auto|intros [H|(f & [] & _)]; exact H]).
  - cbn [fold_left]. destruct (IH (collect_prefixes (tp, sp) f) p) as [Ht Hs].
    rewrite Ht, Hs. clear Ht Hs IH. cbn [collect_prefixes fst snd]. split.
    + destruct (prefix_of (lower f) trade_suffixes) as [q|] eqn:E.
      * apply prefix_of_trades in E. rewrite set_add_In. split.
        -- intros [[->|H]|(g & Hg & Hl)]; [right; exists f; simpl; auto|auto|].
           right. exists g. simpl. auto.
        -- intros [H|(g & [<-|Hg] & Hl)].
           ++ auto.
           ++ left. left. rewrite E in Hl. now apply string_app_inv_tail in Hl.
           ++ right. eauto.
      * split.
        -- intros [H|(g & Hg & Hl)]; [auto|]. right. exists g. simpl. auto.
        -- intros [H|(g & [<-|Hg] & Hl)]; [auto| |right; eauto].
           apply prefix_of_trades in Hl. congruence.
    + destruct (prefix_of (lower f) summary_suffixes) as [q|] eqn:E.
      * apply prefix_of_summary in E. rewrite set_add_In. split.
        -- intros [[->|H]|(g & Hg & Hl)]; [right; exists f; simpl; auto|auto|].
           right. exists g. simpl. auto.
        -- intros [H|(g & [<-|Hg] & Hl)].
           ++ auto.
           ++ left. left. rewrite E in Hl. now apply string_app_inv_tail in Hl.
           ++ right. eauto.
      * split.
        -- intros [H|(g & Hg & Hl)]; [auto|]. right. exists g. simpl. auto.
        -- intros [H|(g & [<-|Hg] & Hl)]; [auto| |right; eauto].
           apply prefix_of_summary in Hl. congruence.
Qed.

(** The dict from lowered names to names: a key is the lowered name of
    its file, and every file has its lowered name as a key. *)
Lemma lower_to_actual_spec (files : list string) :
  forall (d : list (string * string)) (key : string),
    (forall f, dict_get (fold_left (fun d f => dict_set d (lower f) f) files d) key = Some f ->
               dict_get d key = Some f \/ (In f files /\ lower f = key)) /\
    ((In key (map fst d) \/ exists f, In f files /\ lower f = key) ->
     exists f, dict_get (fold_left (fun d f => dict_set d (lower f) f) files d) key = Some f).
Proof.
  induction files as [|g rest IH]; intros d key.
  - simpl. split; [auto|]. intros [H|(f & [] & _)]. now apply dict_get_In.
  - cbn [fold_left]. destruct (IH (dict_set d (lower g) g) key) as [H1 H2]. split.
    + intros f Hf. destruct (H1 f Hf) as [H|[H Hl]].
      * rewrite dict_get_set in H. destruct (String.eqb (lower g) key) eqn:E.
        -- injection H as <-. apply String.eqb_eq in E. right. simpl. auto.
        -- now left.
      * right. simpl. auto.
    + intros H. apply H2. rewrite dict_set_keys.
      destruct H as [H|(f & [<-|Hf] & Hl)]; [auto|auto|]. right. eauto.
Qed.

Lemma all_chars_impl (p q : ascii -> bool) (s : string) :
  (forall c, p c = true -> q c = true) -> all_chars p s = true -> all_chars q s = true.
Proof.
  intros H. induction s as [|c s IH]; simpl; [auto|].
  rewrite !andb_true_iff. intros [Hc Hs]. auto.
Qed.

(** The prefix of a lowered name is a lowered text. *)
Lemma lowered_prefix (f p suffix : string) :
  lower f = (p ++ suffix)%string -> lower p = p /\ lower suffix = suffix.
Proof.
  intros H. pose proof (lower_idem f) as Hi. rewrite H, lower_app in Hi.
  assert (Hl : String.length (lower p) = String.length p).
  { unfold lower. clear. induction p as [|c p IH]; simpl; [reflexivity|now rewrite IH]. }
  clear H. revert Hi Hl. generalize (lower p). intros lp.
  revert lp. induction p as [|c p IH]; intros [|x lp] Hi Hl; simpl in *; try discriminate.
  - auto.
  - injection Hi as -> Hi. destruct (IH lp Hi) as [-> Hs]; [lia|]. auto.
Qed.

Lemma lowered_not_upper (p : string) :
  lower p = p -> all_chars (fun c => negb (is_upper c)) p = true.
Proof. intros <-. apply lower_not_upper. Qed.

(** On a lowered prefix the replacement of ROA305- changes nothing. *)
Lemma clean_name_lowered (p : string) :
  lower p = p -> clean_name p = upper (replace "-" "" (replace "roa305-" "" p)).
Proof.
  intros H. unfold clean_name. rewrite (replace_absent "R" "OA305-" "" p); [reflexivity|].
  apply (all_chars_impl (fun c => negb (is_upper c))); [|now apply lowered_not_upper].
  intros c. destruct c as [[] [] [] [] [] [] [] []]; try reflexivity; discriminate.
Qed.

Lemma replace_char_empty_all (c : ascii) (s : string) :
  all_chars (fun x => negb (Ascii.eqb x c)) (replace_char c "" s) = true.
Proof.
  induction s as [|x s IH]; simpl; [reflexivity|].
  destruct (Ascii.eqb x c) eqn:E; simpl; [exact IH|]. now rewrite E, IH.
Qed.

(** A short name has no hyphen and no letter from a to z. *)
Lemma clean_name_chars (p : string) :
  all_chars (fun c => negb (is_lower c) && negb (Ascii.eqb c "-")) (clean_name p) = true.
Proof.
  unfold clean_name. rewrite (replace_one_char "-").
  generalize (replace "roa305-" "" (replace "ROA305-" "" p)). intros s.
  pose proof (replace_char_empty_all "-" s) as H. revert H.
  generalize (replace_char "-" "" s). clear. intros s. unfold upper.
  induction s as [|c s IH]; simpl; [reflexivity|].
  rewrite !andb_true_iff. intros [Hc Hs]. split; [split|now apply IH].
  - now rewrite upper_char_not_lower.
  - destruct (Ascii.eqb (upper_char c) "-") eqn:E; [|reflexivity].
    apply Ascii.eqb_eq, upper_char_hyphen in E. subst c. discriminate.
Qed.

Section DiscoveryProperties.

Variable os_path_exists : string -> bool.
Variable os_listdir : string -> list string.
Variable os_path_join : string -> string -> string.
Variable set_order : list string -> list string.

Local Abbreviation lower_to_actual_of files :=
  (fold_left (fun d f => dict_set d (lower f) f) files []).

(** The name found for a lowered prefix and a list of two suffixes that are
    one suffix when lowered. *)
Lemma actual_name_spec (files : list string) (p suffix Suffix : string) :
  lower p = p -> lower suffix = suffix -> lower Suffix = suffix ->
  (forall f, actual_name (lower_to_actual_of files) p [suffix; Suffix] = Some f ->
             In f files /\ lower f = (p ++ suffix)%string) /\
  ((exists f, In f files /\ lower f = (p ++ suffix)%string) ->
   exists f, actual_name (lower_to_actual_of files) p [suffix; Suffix] = Some f).
Proof.
  intros Hp H1 H2. cbn [actual_name]. rewrite !lower_app, Hp, H1, H2.
  destruct (lower_to_actual_spec files [] (p ++ suffix)%string) as [Hs Hc].
  destruct (dict_get (lower_to_actual_of files) (p ++ suffix)%string) as [g|] eqn:E.
  - split; [|eauto]. intros f [= <-].
    destruct (Hs g eq_refl) as [H|H]; [discriminate|exact H].
  - split; [discriminate|]. intros H. destruct (Hc (or_intror H)) as [f Hf]. discriminate.
Qed.

Lemma truthy_lowered (f p : string) :
  lower f = (p ++ "-trades.csv")%string \/ lower f = (p ++ "-summary.csv")%string ->
  truthy f = true.
Proof.
  destruct f; [|reflexivity]. simpl. intros [H|H]; destruct p; discriminate.
Qed.

(** The loop over matched prefixes: what an entry is made of, and which
    names get an entry. *)
Lemma add_instruments_spec (folder : string) (files prefixes : list string) :
  (forall p, In p prefixes -> exists t s, file_pair files p t s) ->
  forall instruments : list (string * list (string * string)),
    (forall name fs,
        In (name, fs) (fold_left (add_instrument os_path_join folder
                                                 (lower_to_actual_of files))
                                 prefixes instruments) ->
        In (name, fs) instruments \/
        exists p t s,
          file_pair files p t s /\ name = clean_name p /\
          fs = instrument_files os_path_join folder t s) /\
    (forall name,
        In name (map fst instruments) \/ (exists p, In p prefixes /\ name = clean_name p) ->
        In name (map fst (fold_left (add_instrument os_path_join folder
                                                    (lower_to_actual_of files))
                                    prefixes instruments))) /\
    (NoDup (map fst instruments) ->
     NoDup (map fst (fold_left (add_instrument os_path_join folder
                                               (lower_to_actual_of files))
                               prefixes instruments))).
Proof.
  induction prefixes as [|p rest IH]; intros Hm instruments.
  - simpl. split; [auto|]. split; [|auto]. intros name [H|(p & [] & _)]. exact H.
  - cbn [fold_left].
    destruct (Hm p (or_introl eq_refl)) as (t0 & s0 & Ht0 & Hs0 & Hlt & Hls).
    destruct (lowered_prefix _ _ _ Hlt) as [Hp _].
    destruct (actual_name_spec files p "-trades.csv" "-Trades.csv" Hp eq_refl eq_refl)
      as [Ht1 Ht2].
    destruct (actual_name_spec files p "-summary.csv" "-Summary.csv" Hp eq_refl eq_refl)
      as [Hs1 Hs2].
    destruct Ht2 as [t Ht]; [eauto|]. destruct Hs2 as [s Hs]; [eauto|].
    destruct (Ht1 t Ht) as [Htin Htl]. destruct (Hs1 s Hs) as [Hsin Hsl].
    assert (Hadd : add_instrument os_path_join folder (lower_to_actual_of files)
                                  instruments p =
                   dict_set instruments (clean_name p)
                            (instrument_files os_path_join folder t s)).
    { unfold add_instrument. cbv zeta. unfold trade_suffixes, summary_suffixes.
      rewrite Ht, Hs. cbn [truthy_name].
      rewrite (truthy_lowered t p (or_introl Htl)), (truthy_lowered s p (or_intror Hsl)).
      reflexivity. }
    rewrite Hadd.
    destruct (IH (fun q Hq => Hm q (or_intror Hq))
                 (dict_set instruments (clean_name p)
                           (instrument_files os_path_join folder t s)))
      as (H1 & H2 & H3).
    split; [|split].
    + intros name fs Hin. destruct (H1 name fs Hin) as [H|H]; [|auto].
      apply dict_set_In in H. destruct H as [[-> ->]|H]; [|auto].
      right. exists p, t, s. repeat split; auto.
    + intros name Hname. apply H2.
      destruct Hname as [H|(q & [<-|Hq] & ->)].
      * left. apply dict_set_keys. auto.
      * left. apply dict_set_keys. auto.
      * right. eauto.
    + intros Hnd. apply H3. now apply dict_set_NoDup.
Qed.

(** The matched prefixes are the prefixes that have their two files. *)
Lemma matched_prefixes_spec (files : list string) (p : string) :
  In p (filter (fun q => name_in q (snd (fold_left collect_prefixes files ([], []))))
               (fst (fold_left collect_prefixes files ([], [])))) <->
  exists t s, file_pair files p t s.
Proof.
  rewrite filter_In.
  destruct (collect_prefixes_spec files ([], []) p) as [Ht Hs].
  rewrite Ht. rewrite (name_in_In p). rewrite Hs. cbn [fst snd In]. unfold file_pair. split.
  - intros [[[]|(t & Ht1 & Ht2)] [[]|(s & Hs1 & Hs2)]]. exists t, s. auto.
  - intros (t & s & H1 & H2 & H3 & H4). split; right; eauto.
Qed.

End DiscoveryProperties.

Section DiscoveryTheorems.

Variable os_path_exists : string -> bool.
Variable os_listdir : string -> list string.
Variable os_path_join : string -> string -> string.
Variable set_order : list string -> list string.

Local Abbreviation discovered :=
  (find_instruments os_path_exists os_listdir os_path_join set_order).

(** The instruments found in a folder, from the loop over the matched
    prefixes. *)
Lemma find_instruments_loop (folder : string) :
  (forall l, Permutation (set_order l) l) ->
  os_path_exists folder = true ->
  exists prefixes,
    (forall p, In p prefixes <-> exists t s, file_pair (os_listdir folder) p t s) /\
    discovered folder =
    fold_left (add_instrument os_path_join folder
                 (fold_left (fun d f => dict_set d (lower f) f) (os_listdir folder) []))
              prefixes [].
Proof.
  intros Hperm Hex. unfold find_instruments. rewrite Hex. cbn [negb]. cbv zeta.
  pose proof (matched_prefixes_spec (os_listdir folder)) as Hm.
  destruct (fold_left collect_prefixes (os_listdir folder) ([], [])) as [tp sp].
  cbn [fst snd] in Hm.
  exists (set_order (filter (fun p => name_in p sp) tp)). split; [|reflexivity].
  intros p. rewrite <- Hm. split; apply Permutation_in; [apply Hperm|].
  apply Permutation_sym, Hperm.
Qed.

(** For file names in ASCII: every instrument found in a folder comes from
    two files of the folder whose lowered names are a prefix followed by
    -trades.csv and the same prefix followed by -summary.csv.  Its entry
    holds the paths of these two files under the keys summary and trades,
    and its name is the prefix without roa305- and without hyphens, in
    upper case: the replacement of ROA305- never applies, the prefix being
    lowered. *)
Theorem find_instruments_entries (folder name : string) (files : list (string * string)) :
  Forall ascii_text (os_listdir folder) ->
  (forall l, Permutation (set_order l) l) ->
  In (name, files) (discovered folder) ->
  os_path_exists folder = true /\
  exists prefix trade_name summary_name,
    In trade_name (os_listdir folder) /\
    In summary_name (os_listdir folder) /\
    lower trade_name = (prefix ++ "-trades.csv")%string /\
    lower summary_name = (prefix ++ "-summary.csv")%string /\
    name = upper (replace "-" "" (replace "roa305-" "" prefix)) /\
    files = [ ("summary", os_path_join folder summary_name);
              ("trades", os_path_join folder trade_name) ].
Proof.
  intros _ Hperm Hin.
  destruct (os_path_exists folder) eqn:Hex.
  2:{ unfold find_instruments in Hin. rewrite Hex in Hin. destruct Hin. }
  split; [reflexivity|].
  destruct (find_instruments_loop folder Hperm Hex) as (prefixes & Hp & Heq).
  rewrite Heq in Hin.
  destruct (add_instruments_spec os_path_join folder (os_listdir folder) prefixes
              (fun p H => proj1 (Hp p) H) []) as (H1 & _ & _).
  destruct (H1 name files Hin) as [[]|(p & t & s & (Ht & Hs & Hlt & Hls) & -> & ->)].
  exists p, t, s. repeat (split; [assumption|]). split; [|reflexivity].
  apply clean_name_lowered. exact (proj1 (lowered_prefix _ _ _ Hlt)).
Qed.

(** For file names in ASCII: a folder that does not exist has no
    instrument; in a folder that exists, every prefix that has its two
    files, whatever the case of their names, gives an instrument under its
    short name; and no short name has two entries. *)
Theorem find_instruments_complete (folder : string) :
  Forall ascii_text (os_listdir folder) ->
  (forall l, Permutation (set_order l) l) ->
  (os_path_exists folder = false -> discovered folder = []) /\
  (os_path_exists folder = true ->
   forall prefix trade_name summary_name,
     In trade_name (os_listdir folder) ->
     In summary_name (os_listdir folder) ->
     lower trade_name = (prefix ++ "-trades.csv")%string ->
     lower summary_name = (prefix ++ "-summary.csv")%string ->
     exists files, In (clean_name prefix, files) (discovered folder)) /\
  NoDup (map fst (discovered folder)).
Proof.
  intros _ Hperm. split; [|split].
  - intros Hex. unfold find_instruments. now rewrite Hex.
  - intros Hex p t s Ht Hs Hlt Hls.
    destruct (find_instruments_loop folder Hperm Hex) as (prefixes & Hp & Heq).
    rewrite Heq.
    destruct (add_instruments_spec os_path_join folder (os_listdir folder) prefixes
                (fun p H => proj1 (Hp p) H) []) as (_ & H2 & _).
    assert (Hin : In (clean_name p)
                     (map fst (fold_left
                                 (add_instrument os_path_join folder
                                    (fold_left (fun d f => dict_set d (lower f) f)
                                               (os_listdir folder) []))
                                 prefixes []))).
    { apply H2. right. exists p. split; [|reflexivity]. apply Hp. exists t, s.
      repeat split; assumption. }
    apply in_map_iff in Hin. destruct Hin as ([n fs] & Hn & Hin). cbn [fst] in Hn.
    subst n. eauto.
  - destruct (os_path_exists folder) eqn:Hex.
    + destruct (find_instruments_loop folder Hperm Hex) as (prefixes & Hp & Heq).
      rewrite Heq.
      destruct (add_instruments_spec os_path_join folder (os_listdir folder) prefixes
                  (fun p H => proj1 (Hp p) H) []) as (_ & _ & H3).
      apply H3. constructor.
    + unfold find_instruments. rewrite Hex. constructor.
Qed.

End DiscoveryTheorems.

(* ----------------------------------------------------------------- *)
(** ** The selection of the instruments *)

Lemma filter_all {A : Type} (f : A -> bool) (l : list A) :
  (forall x, In x l -> f x = true) -> filter f l = l.
Proof.
  induction l as [|x t IH]; simpl; intros H; [reflexivity|].
  rewrite (H x (or_introl eq_refl)). f_equal. apply IH. auto.
Qed.

Lemma filter_and {A : Type} (f g : A -> bool) (l : list A) :
  filter g (filter f l) = filter (fun x => f x && g x) l.
Proof.
  induction l as [|x t IH]; simpl; [reflexivity|].
  destruct (f x); simpl; [|exact IH]. destruct (g x); now rewrite IH.
Qed.

Lemma default_selection_names (instrument_names : list string) (name : string) :
  In name (list_or (default_selection instrument_names) instrument_names) ->
  In name instrument_names.
Proof.
  unfold list_or. destruct (default_selection instrument_names) as [|d ds] eqn:E; [auto|].
  rewrite <- E. unfold default_selection. rewrite filter_In. intros [_ H].
  now apply name_in_In.
Qed.

Section SelectionTheorems.

Variable str_strip : string -> string.

Lemma selected_instruments_list_eq (requested instrument_names : list string) :
  selected_instruments_list str_strip requested instrument_names =
  match valid_requested str_strip requested instrument_names with
  | [] => list_or (default_selection instrument_names) instrument_names
  | valid => valid
  end.
Proof.
  assert (Hdef : filter (fun name => name_in name instrument_names)
                        (list_or (default_selection instrument_names) instrument_names) =
                 list_or (default_selection instrument_names) instrument_names).
  { apply filter_all. intros x Hx. apply name_in_In.
    now apply default_selection_names. }
  unfold selected_instruments_list, valid_requested. cbv zeta.
  rewrite <- (filter_and (fun inst => truthy inst && truthy (str_strip inst))
                         (fun inst => name_in inst instrument_names)).
  destruct (filter (fun inst => truthy inst && truthy (str_strip inst)) requested)
    as [|x t] eqn:E.
  - rewrite Hdef. cbn [filter].
    destruct (list_or (default_selection instrument_names) instrument_names); reflexivity.
  - destruct (filter (fun name => name_in name instrument_names) (x :: t)); reflexivity.
Qed.

(** The selected instruments are the requested names that are not blank and
    name an instrument, in the order of the request; when there is none,
    they are the developer's instruments that exist, and all instruments
    when none of those exists.  So every selected name is the name of an
    instrument, and an instrument is selected as soon as there is one. *)
Theorem selected_instruments_list_valid (requested instrument_names : list string) :
  selected_instruments_list str_strip requested instrument_names =
  match valid_requested str_strip requested instrument_names with
  | [] => list_or (default_selection instrument_names) instrument_names
  | valid => valid
  end /\
  (forall name,
      In name (selected_instruments_list str_strip requested instrument_names) ->
      In name instrument_names) /\
  (instrument_names <> [] ->
   selected_instruments_list str_strip requested instrument_names <> []).
Proof.
  pose proof (selected_instruments_list_eq requested instrument_names) as Heq.
  split; [exact Heq|]. split.
  - intros name. rewrite Heq.
    destruct (valid_requested str_strip requested instrument_names) as [|v vs] eqn:E.
    + apply default_selection_names.
    + rewrite <- E. unfold valid_requested. rewrite filter_In.
      intros [_ H]. apply andb_true_iff in H. apply name_in_In, H.
  - intros Hne. rewrite Heq.
    destruct (valid_requested str_strip requested instrument_names) as [|v vs];
      [|discriminate].
    unfold list_or. destruct (default_selection instrument_names); [exact Hne|discriminate].
Qed.

End SelectionTheorems.

(* ----------------------------------------------------------------- *)
(** ** The names of the instruments found *)

Section DiscoveredNames.

Variable os_path_exists : string -> bool.
Variable os_listdir : string -> list string.
Variable os_path_join : string -> string -> string.
Variable set_order : list string -> list string.
Variable str_strip : string -> string.

Local Abbreviation discovered :=
  (find_instruments os_path_exists os_listdir os_path_join set_order).

Lemma add_instrument_names (folder : string) (lower_to_actual : list (string * string))
      (prefixes : list string) :
  forall instruments : list (string * list (string * string)),
    (forall name, In name (map fst instruments) -> exists p, name = clean_name p) ->
    forall name,
      In name (map fst (fold_left (add_instrument os_path_join folder lower_to_actual)
                                  prefixes instruments)) ->
      exists p, name = clean_name p.
Proof.
  induction prefixes as [|q rest IH]; intros instruments H; [exact H|].
  cbn [fold_left]. apply IH. intros name. unfold add_instrument. cbv zeta.
  destruct (truthy_name _ && truthy_name _); [|apply H].
  destruct (actual_name lower_to_actual q trade_suffixes); [|apply H].
  destruct (actual_name lower_to_actual q summary_suffixes); [|apply H].
  rewrite dict_set_keys. intros [->|Hin]; [eauto|now apply H].
Qed.

Lemma find_instruments_clean (folder name : string) :
  In name (map fst (discovered folder)) -> exists p, name = clean_name p.
Proof.
  unfold find_instruments. destruct (negb (os_path_exists folder)); [intros []|].
  cbv zeta. destruct (fold_left collect_prefixes _ _) as [tp sp].
  apply add_instrument_names. intros n [].
Qed.

(** For file names in ASCII: the name of an instrument found in a folder
    has no hyphen and no letter from a to z. *)
Theorem find_instruments_names (folder name : string) :
  Forall ascii_text (os_listdir folder) ->
  In name (map fst (discovered folder)) ->
  all_chars (fun c => negb (is_lower c) && negb (Ascii.eqb c "-")) name = true.
Proof.
  intros _ H. destruct (find_instruments_clean folder name H) as [p ->].
  apply clean_name_chars.
Qed.

(** For file names in ASCII: none of the developer's instruments, whose
    names are in lower case, is the name of an instrument found in a
    folder.  So the selection never falls back on them: a request that
    names no instrument of the folder selects all its instruments. *)
Theorem developer_defaults_never_apply (folder : string) (requested : list string) :
  Forall ascii_text (os_listdir folder) ->
  default_selection (map fst (discovered folder)) = [] /\
  selected_instruments_list str_strip requested (map fst (discovered folder)) =
  match valid_requested str_strip requested (map fst (discovered folder)) with
  | [] => map fst (discovered folder)
  | valid => valid
  end.
Proof.
  intros _.
  assert (Hdef : default_selection (map fst (discovered folder)) = []).
  { unfold default_selection.
    destruct (filter _ DEVELOPER_DEFAULT_INSTRUMENTS) as [|d ds] eqn:E; [reflexivity|].
    exfalso.
    assert (Hd : In d (filter (fun inst => name_in inst (map fst (discovered folder)))
                              DEVELOPER_DEFAULT_INSTRUMENTS))
      by (rewrite E; now left).
    apply filter_In in Hd. destruct Hd as [Hdev Hin].
    apply name_in_In in Hin. destruct (find_instruments_clean folder d Hin) as [p ->].
    pose proof (clean_name_chars p) as Hc. revert Hdev Hc. generalize (clean_name p).
    intros s Hdev Hc. simpl in Hdev.
    repeat (destruct Hdev as [<-|Hdev]; [discriminate|]). exact Hdev. }
  split; [exact Hdef|].
  rewrite (selected_instruments_list_eq str_strip requested (map fst (discovered folder))).
  now rewrite Hdef.
Qed.

End DiscoveredNames.

(* ----------------------------------------------------------------- *)
(** ** Cleaned keys *)

Lemma replace_char_chars (p : ascii -> bool) (c : ascii) (new s : string) :
  all_chars p new = true ->
  all_chars (fun x => Ascii.eqb x c || p x) s = true ->
  all_chars p (replace_char c new s) = true.
Proof.
  intros Hnew. induction s as [|x s IH]; simpl; [reflexivity|].
  rewrite andb_true_iff. intros [Hx Hs].
  destruct (Ascii.eqb x c); simpl in *.
  - rewrite all_chars_app, Hnew. now apply IH.
  - rewrite Hx. now apply IH.
Qed.

Lemma replace_char_absent (c : ascii) (new s : string) :
  all_chars (fun x => negb (Ascii.eqb x c)) s = true -> replace_char c new s = s.
Proof.
  induction s as [|x s IH]; simpl; [reflexivity|].
  rewrite andb_true_iff. intros [Hx Hs].
  destruct (Ascii.eqb x c); [discriminate|]. now rewrite IH.
Qed.

Lemma all_chars_true (s : string) : all_chars (fun _ => true) s = true.
Proof. induction s as [|c s IH]; simpl; auto. Qed.

(** A cleaned key holds no space, slash, parenthesis or percent sign. *)
Lemma clean_key_chars (k : string) : all_chars (fun c => negb (is_special c)) (clean_key k) = true.
Proof.
  unfold clean_key. rewrite !replace_one_char.
  apply replace_char_chars; [reflexivity|].
  apply (all_chars_impl
           (fun c => negb (Ascii.eqb c " " || Ascii.eqb c "/" || Ascii.eqb c "(" ||
                           Ascii.eqb c ")"))).
  { intros c. unfold is_special. destruct (Ascii.eqb c "%"); [reflexivity|].
    rewrite orb_false_r. simpl. auto. }
  apply replace_char_chars; [reflexivity|].
  apply (all_chars_impl
           (fun c => negb (Ascii.eqb c " " || Ascii.eqb c "/" || Ascii.eqb c "("))).
  { intros c. destruct (Ascii.eqb c ")"); [reflexivity|].
    rewrite orb_false_r. simpl. auto. }
  apply replace_char_chars; [reflexivity|].
  apply (all_chars_impl (fun c => negb (Ascii.eqb c " " || Ascii.eqb c "/"))).
  { intros c. destruct (Ascii.eqb c "("); [reflexivity|].
    rewrite orb_false_r. simpl. auto. }
  apply replace_char_chars; [reflexivity|].
  apply (all_chars_impl (fun c => negb (Ascii.eqb c " "))).
  { intros c. destruct (Ascii.eqb c "/"); [reflexivity|].
    rewrite orb_false_r. simpl. auto. }
  apply replace_char_chars; [reflexivity|].
  apply (all_chars_impl (fun _ => true)); [|apply all_chars_true].
  intros c _. now destruct (Ascii.eqb c " ").
Qed.

(** A key without such a character is kept. *)
Lemma clean_key_id (k : string) :
  all_chars (fun c => negb (is_special c)) k = true -> clean_key k = k.
Proof.
  intros H. unfold clean_key. rewrite !replace_one_char.
  rewrite (replace_char_absent " ").
  2:{ revert H. apply all_chars_impl. intros c. unfold is_special.
      destruct (Ascii.eqb c " "); [discriminate|reflexivity]. }
  rewrite (replace_char_absent "/").
  2:{ revert H. apply all_chars_impl. intros c. unfold is_special.
      destruct (Ascii.eqb c "/"); [now rewrite orb_true_r|reflexivity]. }
  rewrite (replace_char_absent "(").
  2:{ revert H. apply all_chars_impl. intros c. unfold is_special.
      destruct (Ascii.eqb c "("); [now rewrite !orb_true_r|reflexivity]. }
  rewrite (replace_char_absent ")").
  2:{ revert H. apply all_chars_impl. intros c. unfold is_special.
      destruct (Ascii.eqb c ")"); [now rewrite !orb_true_r|reflexivity]. }
  apply replace_char_absent.
  revert H. apply all_chars_impl. intros c. unfold is_special.
  destruct (Ascii.eqb c "%"); [now rewrite !orb_true_r|reflexivity].
Qed.

Lemma distinct_NoDup (l : list string) : distinct l = true -> NoDup l.
Proof.
  induction l as [|x t IH]; simpl; [constructor|].
  rewrite andb_true_iff. intros [Hx Ht]. constructor; [|now apply IH].
  intros Hin. apply name_in_In in Hin. rewrite Hin in Hx. discriminate.
Qed.

(** The cleaned dict, as the loop of the comprehension leaves it. *)
Lemma clean_stats_fold {V : Type} (stats : list (string * V)) :
  forall d : list (string * V),
    (forall k v,
        In (k, v) (fold_left (fun d kv => dict_set d (clean_key (fst kv)) (snd kv)) stats d) ->
        In (k, v) d \/ exists k0, In (k0, v) stats /\ k = clean_key k0) /\
    (NoDup (map fst d) ->
     NoDup (map fst (fold_left (fun d kv => dict_set d (clean_key (fst kv)) (snd kv))
                               stats d))) /\
    (forall key,
        ~ In key (map clean_key (map fst stats)) ->
        dict_get (fold_left (fun d kv => dict_set d (clean_key (fst kv)) (snd kv)) stats d)
                 key = dict_get d key) /\
    (NoDup (map clean_key (map fst stats)) ->
     forall k v, In (k, v) stats ->
                 dict_get (fold_left (fun d kv => dict_set d (clean_key (fst kv)) (snd kv))
                                     stats d)
                          (clean_key k) = Some v).
Proof.
  induction stats as [|[k0 v0] rest IH]; intros d.
  - simpl. split; [auto|]. split; [auto|]. split; [auto|]. intros _ k v [].
  - cbn [fold_left fst snd map].
    destruct (IH (dict_set d (clean_key k0) v0)) as (H1 & H2 & H3 & H4).
    split; [|split; [|split]].
    + intros k v Hin. destruct (H1 k v Hin) as [H|(k1 & Hk1 & ->)].
      * apply dict_set_In in H. destruct H as [[-> ->]|H]; [|auto].
        right. exists k0. split; [now left|reflexivity].
      * right. exists k1. split; [now right|reflexivity].
    + intros Hnd. apply H2. now apply dict_set_NoDup.
    + intros key Hnot. rewrite H3 by (intros Hin; apply Hnot; now right).
      rewrite dict_get_set. destruct (String.eqb (clean_key k0) key) eqn:E; [|reflexivity].
      apply String.eqb_eq in E. exfalso. apply Hnot. now left.
    + intros Hnd k v [Heq|Hin].
      * injection Heq as <- <-. inversion Hnd as [|? ? Hk _]; subst.
        rewrite H3 by exact Hk. rewrite dict_get_set. now rewrite String.eqb_refl.
      * inversion Hnd as [|? ? _ Hr]; subst. now apply H4.
Qed.

Lemma report_get_In (key : string) (r : report) (v : stat_value) :
  report_get key r = Some v -> In (key, v) r.
Proof.
  induction r as [|[k w] rest IH]; simpl; [discriminate|].
  destruct (String.eqb k key) eqn:E.
  - apply String.eqb_eq in E. intros [= <-]. subst. now left.
  - intros H. right. now apply IH.
Qed.

(** The keys of a report. *)
Lemma calculate_comprehensive_stats_keys (np_sqrt : Q -> Q) (df : DataFrame)
      (instrument_name : string) :
  match calculate_comprehensive_stats np_sqrt df instrument_name with
  | Ok (stats, _, _) => stats = [] \/ map fst stats = report_keys
  | Raise _ => True
  end.
Proof.
  unfold calculate_comprehensive_stats.
  destruct (len df =? 0); [now left|].
  destruct (numbers df "Profit") as [profits|]; cbn [bind]; [|exact I]. cbv zeta.
  destruct (has_column df "Entry time" && has_column df "Exit time").
  - destruct (times df "Entry time") as [entry|]; cbn [bind]; [|exact I].
    destruct (times df "Exit time") as [exit|]; cbn [bind]; [|exact I].
    destruct (if has_column df "Bars" then mean_skipna df "Bars" else Ok 0%Q);
      cbn [bind]; [|exact I].
    destruct (calculate_recovery_and_flat_periods df (cumsum profits))
      as [[[[r1 r2] r3] r4]|]; cbn [bind]; [|exact I].
    right. reflexivity.
  - cbn [bind].
    destruct (if has_column df "Bars" then mean_skipna df "Bars" else Ok 0%Q);
      cbn [bind]; [|exact I].
    destruct (calculate_recovery_and_flat_periods df (cumsum profits))
      as [[[[r1 r2] r3] r4]|]; cbn [bind]; [|exact I].
    right. reflexivity.
Qed.

(** In a dict, of whatever values, that [clean_stats_keys] returns, no key
    holds a space, a slash, a parenthesis or a percent sign, no key comes
    twice, and every entry is an entry of the argument under its cleaned
    key; a key of the argument without such a character is kept as it
    is. *)
Theorem clean_stats_keys_safe {V : Type} (stats : list (string * V)) :
  exists cleaned,
    clean_stats_keys (StatsDict stats) = StatsDict cleaned /\
    NoDup (map fst cleaned) /\
    (forall k v,
        In (k, v) cleaned ->
        all_chars (fun c => negb (is_special c)) k = true /\
        exists k0, In (k0, v) stats /\ k = clean_key k0) /\
    (forall k, all_chars (fun c => negb (is_special c)) k = true -> clean_key k = k).
Proof.
  exists (clean_stats_dict stats). split; [reflexivity|].
  destruct (clean_stats_fold stats []) as (H1 & H2 & _ & _).
  split; [apply H2; constructor|]. split; [|exact clean_key_id].
  intros k v Hin. destruct (H1 k v Hin) as [[]|(k0 & Hk0 & ->)].
  split; [apply clean_key_chars|eauto].
Qed.

(** Cleaning the keys of a report of the statistics loses no statistic:
    the cleaned keys of a report are distinct, and the cleaned report has
    every statistic of the report under its cleaned key. *)
Theorem clean_stats_keys_keeps_report
        (np_sqrt : Q -> Q) (df : DataFrame) (instrument_name : string)
        (stats : report) (equity_curve drawdown : list Q) :
  calculate_comprehensive_stats np_sqrt df instrument_name =
  Ok (stats, equity_curve, drawdown) ->
  length (clean_stats_dict stats) = length stats /\
  forall key v,
    report_get key stats = Some v ->
    dict_get (clean_stats_dict stats) (clean_key key) = Some v.
Proof.
  intros H. pose proof (calculate_comprehensive_stats_keys np_sqrt df instrument_name) as Hk.
  rewrite H in Hk.
  assert (Hnd : NoDup (map clean_key (map fst stats))).
  { destruct Hk as [-> | ->]; [constructor|]. apply distinct_NoDup. vm_compute. reflexivity. }
  destruct (clean_stats_fold stats []) as (_ & _ & _ & H4).
  split.
  - unfold clean_stats_dict. clear H Hk H4.
    assert (Hgen : forall d : report,
               (forall k, In k (map clean_key (map fst stats)) -> ~ In k (map fst d)) ->
               length (fold_left (fun d kv => dict_set d (clean_key (fst kv)) (snd kv))
                                 stats d) = length d + length stats).
    { induction stats as [|[k0 v0] rest IH]; intros d Hfresh; simpl; [lia|].
      inversion Hnd as [|? ? Hk0 Hr]; subst. rewrite IH.
      - rewrite dict_set_fresh by (apply Hfresh; now left).
        rewrite length_app. simpl. lia.
      - exact Hr.
      - intros k Hk. rewrite dict_set_keys. intros [->|Hin]; [contradiction|].
        revert Hin. apply Hfresh. now right. }
    rewrite Hgen; [reflexivity|]. intros k _ [].
  - intros key v Hget. apply (H4 Hnd). now apply report_get_In.
Qed.

(* ----------------------------------------------------------------- *)
(** ** Reading one file *)

Section FilesTheorems.

Variable os_path_exists : string -> bool.
Variable pd_read_csv : string -> read_outcome.
Variable pd_to_datetime : string -> option Z.
Variable strptime : string -> option Z.
Variable pd_to_numeric : string -> option Q.

Local Abbreviation loader :=
  (load_and_filter_trades os_path_exists pd_read_csv pd_to_datetime strptime pd_to_numeric).

(** The three readers of a file agree.  A file that the loader of the
    trades loads is a file that [load_trade_file] returns, with the same
    columns; [load_trade_file] returns the frames that [load_summary_file]
    returns, but those without rows; and when [load_trade_file] raises, the
    loader raises the same exception, but for a file without rows that
    lacks a time column, for which it reports the missing columns. *)
Theorem load_trade_file_agrees (file_path : string) (start_date end_date : date_arg) :
  (forall out,
      loader file_path start_date end_date = Ok out ->
      exists raw,
        load_trade_file os_path_exists pd_read_csv file_path = Ok raw /\
        columns out = columns raw) /\
  (forall raw,
      load_trade_file os_path_exists pd_read_csv file_path = Ok raw <->
      load_summary_file os_path_exists pd_read_csv file_path = Ok raw /\ len raw <> 0) /\
  (forall e,
      load_trade_file os_path_exists pd_read_csv file_path = Raise e ->
      loader file_path start_date end_date = Raise e \/
      exists raw,
        pd_read_csv file_path = ReadFrame raw /\ len raw = 0 /\
        has_column raw "Entry time" && has_column raw "Exit time" = false /\
        loader file_path start_date end_date =
        Raise (ValueError ("CSV missing required columns: " ++
                           String.concat ", "
                             (filter (fun col => negb (has_column raw col))
                                     ["Entry time"; "Exit time"]) ++
                           ". Available columns: " ++
                           String.concat ", " (columns raw))%string)).
Proof.
  split; [|split].
  - intros out H.
    destruct (load_and_filter_trades_shape _ _ _ _ _ _ _ _ _ H)
      as (raw & parsed & start & end_ & cleaned & Hx & Hr & _ & _ & Hl & _ & _ &
          _ & _ & _ & _ & _ & Hco & _).
    exists raw. split; [|exact Hco].
    unfold load_trade_file. rewrite Hx, Hr. cbn [negb bind].
    apply Nat.eqb_neq in Hl. now rewrite Hl.
  - intros raw. unfold load_trade_file, load_summary_file.
    destruct (os_path_exists file_path); cbn [negb]; [|split; [discriminate|intros [? _]; discriminate]].
    destruct (pd_read_csv file_path) as [df| |msg]; cbn [bind];
      try (split; [discriminate|intros [? _]; discriminate]).
    destruct (len df =? 0) eqn:E.
    + apply Nat.eqb_eq in E. split; [discriminate|]. intros [Heq H].
      injection Heq as ->. contradiction.
    + apply Nat.eqb_neq in E. split.
      * intros [= ->]. auto.
      * intros [Heq _]. exact Heq.
  - intros e. unfold load_trade_file, load_and_filter_trades.
    destruct (os_path_exists file_path); cbn [negb]; [|intros [= <-]; now left].
    destruct (pd_read_csv file_path) as [df| |msg]; cbn [bind];
      try (intros [= <-]; now left).
    destruct (len df =? 0) eqn:E; [|discriminate]. intros [= <-].
    cbv zeta. cbn [filter].
    destruct (has_column df "Entry time") eqn:H1, (has_column df "Exit time") eqn:H2;
      cbn [negb length Nat.eqb andb].
    + left. reflexivity.
    + right. exists df. apply Nat.eqb_eq in E. rewrite H1, H2. cbn [negb]. auto.
    + right. exists df. apply Nat.eqb_eq in E. rewrite H1, H2. cbn [negb]. auto.
    + right. exists df. apply Nat.eqb_eq in E. rewrite H1, H2. cbn [negb]. auto.
Qed.

End FilesTheorems.

Lemma sample_listdir_ascii : Forall ascii_text (sample_listdir "data").
Proof. repeat constructor. Defined.

Lemma find_instruments_entries_witness :
  In ("GC55", [ ("summary", "data/ROA305-GC-55-Summary.csv");
                ("trades", "data/ROA305-GC-55-Trades.csv") ])
     (find_instruments sample_folder_exists sample_listdir sample_join (fun l => l) "data") /\
  exists prefix trade_name summary_name,
    In trade_name (sample_listdir "data") /\
    In summary_name (sample_listdir "data") /\
    lower trade_name = (prefix ++ "-trades.csv")%string /\
    lower summary_name = (prefix ++ "-summary.csv")%string /\
    "GC55" = upper (replace "-" "" (replace "roa305-" "" prefix)) /\
    [ ("summary", "data/ROA305-GC-55-Summary.csv");
      ("trades", "data/ROA305-GC-55-Trades.csv") ] =
    [ ("summary", sample_join "data" summary_name);
      ("trades", sample_join "data" trade_name) ].
Proof.
  split; [vm_compute; left; reflexivity|].
  apply (find_instruments_entries sample_folder_exists sample_listdir sample_join
           (fun l => l) "data" "GC55"
           [ ("summary", "data/ROA305-GC-55-Summary.csv");
             ("trades", "data/ROA305-GC-55-Trades.csv") ]).
  - exact sample_listdir_ascii.
  - intros l. apply Permutation_refl.
  - vm_compute. left. reflexivity.
Defined.

Lemma find_instruments_complete_witness :
  (exists files,
      In (clean_name "roa305-gc-55", files)
         (find_instruments sample_folder_exists sample_listdir sample_join (fun l => l)
                           "data")) /\
  NoDup (map fst (find_instruments sample_folder_exists sample_listdir sample_join
                                   (fun l => l) "data")).
Proof.
  destruct (find_instruments_complete sample_folder_exists sample_listdir sample_join
              (fun l => l) "data" sample_listdir_ascii
              (fun l => Permutation_refl l)) as (_ & H & Hnd).
  split; [|exact Hnd].
  apply (H eq_refl "roa305-gc-55" "ROA305-GC-55-Trades.csv" "ROA305-GC-55-Summary.csv").
  - vm_compute. auto.
  - vm_compute. auto.
  - reflexivity.
  - reflexivity.
Defined.

Lemma find_instruments_names_witness :
  all_chars (fun c => negb (is_lower c) && negb (Ascii.eqb c "-")) "GC55" = true.
Proof.
  apply (find_instruments_names sample_folder_exists sample_listdir sample_join
           (fun l => l) "data" "GC55" sample_listdir_ascii).
  vm_compute. left. reflexivity.
Defined.

Lemma developer_defaults_never_apply_witness :
  selected_instruments_list (fun s => s) ["gc55"; ""]
    (map fst (find_instruments sample_folder_exists sample_listdir sample_join
                               (fun l => l) "data")) =
  match valid_requested (fun s => s) ["gc55"; ""]
          (map fst (find_instruments sample_folder_exists sample_listdir sample_join
                                     (fun l => l) "data")) with
  | [] => map fst (find_instruments sample_folder_exists sample_listdir sample_join
                                    (fun l => l) "data")
  | valid => valid
  end.
Proof.
  apply (developer_defaults_never_apply sample_folder_exists sample_listdir sample_join
           (fun l => l) (fun s => s) "data" ["gc55"; ""] sample_listdir_ascii).
Defined.

Lemma clean_stats_keys_keeps_report_witness :
  exists stats equity_curve drawdown,
    calculate_comprehensive_stats (fun q => q) sample_trades "ES" =
    Ok (stats, equity_curve, drawdown) /\
    length (clean_stats_dict stats) = length stats /\
    forall key v,
      report_get key stats = Some v ->
      dict_get (clean_stats_dict stats) (clean_key key) = Some v.
Proof.
  do 3 eexists. split; [vm_compute; reflexivity|].
  eapply (clean_stats_keys_keeps_report (fun q => q) sample_trades "ES").
  vm_compute. reflexivity.
Defined.
